(** * Incremental ETL (src/etl/incremental.py): watermarks, append-only raw
      ingestion, windowed daily metrics and feature materialisation.

    The PostgreSQL tables the class [IncrementalETL] reads and writes are
    finite maps keyed by the conflict target of the statement that writes
    them.  Timestamps are UTC instants counted in microseconds, dates are day
    numbers, durations and rates are exact rationals (the rounding of
    float64 is not modelled). *)

From Stdlib Require Import ZArith QArith Qround Lia.
From stdpp Require Import gmap strings list fin_maps sorting pretty.

Open Scope Z_scope.

(** ** Time *)

Definition timestamp : Type := Z.
Definition date : Type := Z.

Definition usec_per_day : Z := 86400000000.

(** A date used where a timestamp is expected is midnight of that day. *)
Definition midnight (d : date) : timestamp := d * usec_per_day.

(** SQL [DATE(ts)]. *)
Definition DATE (ts : timestamp) : date := ts / usec_per_day.

(** The two clocks a call observes: [datetime.now().date()] of the process
    and [CURRENT_TIMESTAMP] of the database. *)
Record Clock : Type := {
  today : date;
  current_timestamp : timestamp
}.

(** ** Staged raw events *)

(** A key of a staged JSON record, and a cell of a DataFrame row: the
    record lacks the key (the frame lacks the column), the cell holds the
    missing-value marker (the float NaN, NaT), it holds None (JSON null),
    or it holds a value. *)
Inductive cell (A : Type) : Type :=
| Absent
| NaN
| Null
| Val (a : A).
Arguments Absent {A}.
Arguments NaN {A}.
Arguments Null {A}.
Arguments Val {A} a.

(** [x if pd.notna(x) else None], and [row.get(key)] where None and NaN
    make no difference. *)
Definition cell_get {A} (c : cell A) : option A :=
  match c with Val a => Some a | _ => None end.

Definition cell_present {A} (c : cell A) : bool :=
  match c with Absent => false | _ => true end.

Definition is_val {A} (c : cell A) : bool :=
  match c with Val _ => true | _ => false end.

Definition is_missing {A} (c : cell A) : bool :=
  match c with Absent | NaN => true | _ => false end.

(** The nested [pipeline] object of a job record. *)
Record PipelineRef : Type := { ref_id : option Z }.

(** One record of pipelines.json or jobs_*.json, and one row of the
    DataFrame built from such records.  A DataFrame row is untyped, so one
    record type carries the keys of both sources; [row.get(k)] of a column
    that the frame lacks is [None]. *)
Record RawEvent : Type := {
  ev_id : cell Z;
  ev_status : cell string;
  ev_ref : cell string;
  ev_sha : cell string;
  ev_web_url : cell string;
  ev_created_at : cell timestamp;
  ev_updated_at : cell timestamp;
  ev_started_at : cell timestamp;
  ev_finished_at : cell timestamp;
  ev_pipeline : cell PipelineRef;
  ev_pipeline_id : cell Z;
  ev_name : cell string;
  ev_stage : cell string;
  ev_duration : cell Q;
  ev_queued_duration : cell Q;
  ev_failure_reason : cell string;
  ev_retry : cell Z
}.

(** The record carries at least one key. *)
Definition has_keys (e : RawEvent) : bool :=
  cell_present (ev_id e) || cell_present (ev_status e) || cell_present (ev_ref e)
  || cell_present (ev_sha e) || cell_present (ev_web_url e)
  || cell_present (ev_created_at e) || cell_present (ev_updated_at e)
  || cell_present (ev_started_at e) || cell_present (ev_finished_at e)
  || cell_present (ev_pipeline e) || cell_present (ev_pipeline_id e)
  || cell_present (ev_name e) || cell_present (ev_stage e)
  || cell_present (ev_duration e) || cell_present (ev_queued_duration e)
  || cell_present (ev_failure_reason e) || cell_present (ev_retry e).

(** The dtype pandas infers for a column built from records: numbers make
    a float column, strings and nested objects an object column. *)
Inductive dtype : Type := Numeric | Object.

(** Whether the None of a column becomes NaN when the frame is built: in a
    column of numbers it does; an object column keeps it; a column of
    nothing but None and NaN becomes a float column of NaN, and a column
    of nothing but None stays as it is. *)
Definition none_is_nan {A} (ty : dtype) (col : list (cell A)) : bool :=
  match ty with
  | Numeric => existsb is_val col || existsb is_missing col
  | Object => negb (existsb is_val col) && existsb is_missing col
  end.

(** The cell of a record in the frame built from the records whose cells
    for the key are [col]: a key that this record lacks and another
    record has is NaN. *)
Definition frame_cell {A} (ty : dtype) (col : list (cell A)) (c : cell A) : cell A :=
  if existsb cell_present col then
    match c with
    | Val a => Val a
    | Null => if none_is_nan ty col then NaN else Null
    | _ => NaN
    end
  else Absent.

(** The row of the record [e] in [pd.DataFrame(data)]. *)
Definition frame_row (data : list RawEvent) (e : RawEvent) : RawEvent :=
  {| ev_id := frame_cell Numeric (map ev_id data) (ev_id e);
     ev_status := frame_cell Object (map ev_status data) (ev_status e);
     ev_ref := frame_cell Object (map ev_ref data) (ev_ref e);
     ev_sha := frame_cell Object (map ev_sha data) (ev_sha e);
     ev_web_url := frame_cell Object (map ev_web_url data) (ev_web_url e);
     ev_created_at := frame_cell Object (map ev_created_at data) (ev_created_at e);
     ev_updated_at := frame_cell Object (map ev_updated_at data) (ev_updated_at e);
     ev_started_at := frame_cell Object (map ev_started_at data) (ev_started_at e);
     ev_finished_at := frame_cell Object (map ev_finished_at data) (ev_finished_at e);
     ev_pipeline := frame_cell Object (map ev_pipeline data) (ev_pipeline e);
     ev_pipeline_id := frame_cell Numeric (map ev_pipeline_id data) (ev_pipeline_id e);
     ev_name := frame_cell Object (map ev_name data) (ev_name e);
     ev_stage := frame_cell Object (map ev_stage data) (ev_stage e);
     ev_duration := frame_cell Numeric (map ev_duration data) (ev_duration e);
     ev_queued_duration :=
       frame_cell Numeric (map ev_queued_duration data) (ev_queued_duration e);
     ev_failure_reason :=
       frame_cell Object (map ev_failure_reason data) (ev_failure_reason e);
     ev_retry := frame_cell Numeric (map ev_retry data) (ev_retry e) |}.

(** A DataFrame of staged records: its rows, whether it has any column,
    and whether the two timestamp columns that [load_new_raw] and [run]
    test for are among its columns. *)
Record DataFrame : Type := {
  has_columns : bool;
  has_updated_at : bool;
  has_created_at : bool;
  df_rows : list RawEvent
}.

(** [pd.DataFrame(data)]: the columns are the keys that occur in some
    record, and every record gets a cell in every column;
    [pd.DataFrame()] is [frame []]. *)
Definition frame (data : list RawEvent) : DataFrame :=
  {| has_columns := existsb has_keys data;
     has_updated_at := existsb cell_present (map ev_updated_at data);
     has_created_at := existsb cell_present (map ev_created_at data);
     df_rows := map (frame_row data) data |}.

(** [df[mask]]: the rows that satisfy the mask, the columns as they are. *)
Definition select_rows (P : RawEvent -> Prop) `{forall e, Decision (P e)}
    (df : DataFrame) : DataFrame :=
  {| has_columns := has_columns df;
     has_updated_at := has_updated_at df;
     has_created_at := has_created_at df;
     df_rows := filter P (df_rows df) |}.

(** [df.empty]: the frame has no rows, or it has no columns (as the frame
    of records without keys has). *)
Definition df_empty (df : DataFrame) : bool :=
  negb (has_columns df) || match df_rows df with [] => true | _ => false end.

(** The staged files under [Config.DATA_RAW_DIR]: pipelines.json, when it
    exists, and the files matching jobs_*.json. *)
Record Staged : Type := {
  pipelines_json : option (list RawEvent);
  jobs_json : list (list RawEvent)
}.

Record Config : Type := { PROJECT_ID : Z }.

(** ** Tables *)

Record PipelineRow : Type := {
  p_project_id : Z;
  p_status : option string;
  p_ref : option string;
  p_sha : option string;
  p_web_url : option string;
  p_created_at : option timestamp;
  p_updated_at : option timestamp;
  p_finished_at : option timestamp;
  p_source_data : RawEvent
}.

Record JobRow : Type := {
  j_pipeline_id : option Z;
  j_project_id : Z;
  j_name : option string;
  j_stage : option string;
  j_status : option string;
  j_duration : option Q;
  j_queued_duration : option Q;
  j_failure_reason : option string;
  j_retry_count : Z;
  j_web_url : option string;
  j_created_at : option timestamp;
  j_started_at : option timestamp;
  j_finished_at : option timestamp;
  j_source_data : RawEvent
}.

(** The derived columns of a metrics_daily row. *)
Record DailyMetric : Type := {
  builds : nat;
  fails : nat;
  p95_duration : option Q;
  p99_duration : option Q;
  avg_duration : option Q;
  total_duration : option Q;
  max_retries : Z;
  error_types : list (string * nat)
}.

(** A row of a table with an [updated_at] column.  The INSERT branch of an
    upsert leaves the column to the table default ([None] here); the
    DO UPDATE branch sets it to [CURRENT_TIMESTAMP]. *)
Record stamped (A : Type) : Type := Stamped {
  data : A;
  updated_at : option timestamp
}.
Arguments Stamped {A} data updated_at.
Arguments data {A} s.
Arguments updated_at {A} s.

Record Payload : Type := {
  dur_total : Q;
  stage_build : Q;
  stage_test : Q;
  stage_deploy : Q;
  fail_rate : Q;
  pl_max_retries : Z
}.

Record OfflineRow : Type := {
  off_payload : Payload;
  off_event_time : timestamp
}.

Record OnlineRow : Type := {
  on_feature_version : Z;
  on_payload : Payload
}.

(** The database.  Every table is keyed by the columns its INSERT names in
    ON CONFLICT: [source], [id], [(project_id, job_name, day)],
    [(entity_key, feature_version)] and [entity_key]. *)
Record DB : Type := {
  processing_watermarks : gmap string (stamped timestamp);
  pipelines_raw : gmap Z PipelineRow;
  jobs_raw : gmap Z JobRow;
  metrics_daily : gmap (Z * string * Z) (stamped DailyMetric);
  features_offline : gmap (string * Z) OfflineRow;
  features_online : gmap string (stamped OnlineRow);
  kv_config : gmap string Z
}.

Definition set_watermarks (f : gmap string (stamped timestamp) -> gmap string (stamped timestamp)) (d : DB) : DB :=
  {| processing_watermarks := f (processing_watermarks d);
     pipelines_raw := pipelines_raw d; jobs_raw := jobs_raw d;
     metrics_daily := metrics_daily d; features_offline := features_offline d;
     features_online := features_online d; kv_config := kv_config d |}.

Definition set_pipelines_raw (t : gmap Z PipelineRow) (d : DB) : DB :=
  {| processing_watermarks := processing_watermarks d;
     pipelines_raw := t; jobs_raw := jobs_raw d;
     metrics_daily := metrics_daily d; features_offline := features_offline d;
     features_online := features_online d; kv_config := kv_config d |}.

Definition set_jobs_raw (t : gmap Z JobRow) (d : DB) : DB :=
  {| processing_watermarks := processing_watermarks d;
     pipelines_raw := pipelines_raw d; jobs_raw := t;
     metrics_daily := metrics_daily d; features_offline := features_offline d;
     features_online := features_online d; kv_config := kv_config d |}.

Definition set_metrics_daily (t : gmap (Z * string * Z) (stamped DailyMetric)) (d : DB) : DB :=
  {| processing_watermarks := processing_watermarks d;
     pipelines_raw := pipelines_raw d; jobs_raw := jobs_raw d;
     metrics_daily := t; features_offline := features_offline d;
     features_online := features_online d; kv_config := kv_config d |}.

Definition set_features (off : gmap (string * Z) OfflineRow) (on : gmap string (stamped OnlineRow)) (d : DB) : DB :=
  {| processing_watermarks := processing_watermarks d;
     pipelines_raw := pipelines_raw d; jobs_raw := jobs_raw d;
     metrics_daily := metrics_daily d; features_offline := off;
     features_online := on; kv_config := kv_config d |}.

Definition empty_db : DB :=
  {| processing_watermarks := ∅; pipelines_raw := ∅; jobs_raw := ∅;
     metrics_daily := ∅; features_offline := ∅; features_online := ∅;
     kv_config := ∅ |}.

(** ** Effects: database state, exceptions and the order of commits *)

(** What a call makes durable, in the order it does so. *)
Inductive Event : Type :=
| RawCommitted (source : string) (rows : nat)
| WatermarkSet (source : string) (ts : timestamp)
| MetricsCommitted (rows : nat)
| FeaturesCommitted (rows : nat).

(** The result of a call: the value it returns ([None] when it raises),
    the committed database it leaves and the events it produced. *)
Record Result (A : Type) : Type := MkResult {
  value : option A;
  final : DB;
  events : list Event
}.
Arguments MkResult {A} value final events.
Arguments value {A} r.
Arguments final {A} r.
Arguments events {A} r.

Definition M (A : Type) : Type := DB -> Result A.

Definition ret {A} (a : A) : M A := fun d => MkResult (Some a) d [].

(** An exception leaves the committed state as it is. *)
Definition raise {A} : M A := fun d => MkResult None d [].

Definition bind {A B} (c : M A) (k : A -> M B) : M B := fun d =>
  let r := c d in
  match value r with
  | None => MkResult None (final r) (events r)
  | Some a =>
      let r' := k a (final r) in
      MkResult (value r') (final r') (events r ++ events r')
  end.

Definition read {A} (f : DB -> A) : M A := fun d => MkResult (Some (f d)) d [].

(** A committed write. *)
Definition commit (f : DB -> DB) (e : list Event) : M unit := fun d =>
  MkResult (Some tt) (f d) e.

Declare Scope etl_scope.
Delimit Scope etl_scope with etl.
Notation "'let!' x := c 'in' k" := (bind c (fun x => k))
  (at level 10, x name, c at level 100, k at level 200) : etl_scope.
Notation "'exec!' c 'in' k" := (bind c (fun _ => k))
  (at level 10, c at level 100, k at level 200) : etl_scope.
Open Scope etl_scope.

(** ** Watermark management *)

(** [get_watermark]: timestamps are UTC instants here, so the normalisation
    to an aware UTC datetime is the identity. *)
Definition get_watermark (source : string) : M (option timestamp) :=
  read (fun d => data <$> (processing_watermarks d !! source)).

(** INSERT ... ON CONFLICT (key) DO UPDATE SET ..., updated_at = CURRENT_TIMESTAMP *)
Definition upsert_stamped `{Countable K} {V} (now : timestamp) (k : K) (v : V)
    (t : gmap K (stamped V)) : gmap K (stamped V) :=
  match t !! k with
  | Some _ => <[k := Stamped v (Some now)]> t
  | None => <[k := Stamped v None]> t
  end.

Definition update_watermark (clk : Clock) (source : string) (last_ts : timestamp) : M unit :=
  commit (set_watermarks (upsert_stamped (current_timestamp clk) source last_ts))
         [WatermarkSet source last_ts].

(** ** Raw data loading *)

(** [df[df[col] > last_ts]]: a comparison with NaT is false. *)
Definition after (last_ts : timestamp) (c : cell timestamp) : bool :=
  match c with Val t => bool_decide (last_ts < t) | _ => false end.

(** The timestamp column of a source: [updated_at] for pipelines,
    [created_at] for jobs. *)
Definition ts_column (source : string) : RawEvent -> cell timestamp :=
  if String.eqb source "pipelines" then ev_updated_at else ev_created_at.

(** ['updated_at' in df.columns], ['created_at' in df.columns] *)
Definition in_columns (source : string) (df : DataFrame) : bool :=
  if String.eqb source "pipelines" then has_updated_at df else has_created_at df.

Definition filter_new (source : string) (last_ts : option timestamp)
    (df : DataFrame) : DataFrame :=
  if in_columns source df then
    match last_ts with
    | Some ts => select_rows (fun e => after ts (ts_column source e) = true) df
    | None => df
    end
  else df.

Definition staged_rows (files : Staged) (source : string) : DataFrame :=
  if String.eqb source "pipelines" then
    match pipelines_json files with Some data => frame data | None => frame [] end
  else if String.eqb source "jobs" then frame (concat (jobs_json files))
  else frame [].

Definition load_new_raw (files : Staged) (source : string) (last_ts : option timestamp)
    : M DataFrame :=
  let! last_ts := match last_ts with
                  | None => get_watermark source
                  | Some ts => ret (Some ts)
                  end in
  ret (filter_new source last_ts (staged_rows files source)).

(** ** Raw ingestion (append-only) *)

(** The constraints that the schema declares on the columns of the two raw
    tables besides their keys (NOT NULL, CHECK).  The schema is not part
    of the Python sources, so the checks are parameters of the
    ingestion. *)
Record Schema : Type := {
  pipelines_check : PipelineRow -> bool;
  jobs_check : JobRow -> bool
}.

(** What a text column stores for an unguarded [row.get(key)]: the
    string; NULL for None, which is also what [row.get] gives when the
    frame lacks the column; and the text 'NaN' for the float NaN of a key
    that this record lacks and another record of the batch has. *)
Definition text_param (c : cell string) : option string :=
  match c with
  | Val s => Some s
  | NaN => Some "NaN"%string
  | _ => None
  end.

(** [clean_dict]: NaN and NaT become None. *)
Definition clean {A} (c : cell A) : cell A :=
  match c with NaN => Null | _ => c end.

(** [clean_dict(row.to_dict())], the record stored as [source_data]. *)
Definition clean_dict (row : RawEvent) : RawEvent :=
  {| ev_id := clean (ev_id row);
     ev_status := clean (ev_status row);
     ev_ref := clean (ev_ref row);
     ev_sha := clean (ev_sha row);
     ev_web_url := clean (ev_web_url row);
     ev_created_at := clean (ev_created_at row);
     ev_updated_at := clean (ev_updated_at row);
     ev_started_at := clean (ev_started_at row);
     ev_finished_at := clean (ev_finished_at row);
     ev_pipeline := clean (ev_pipeline row);
     ev_pipeline_id := clean (ev_pipeline_id row);
     ev_name := clean (ev_name row);
     ev_stage := clean (ev_stage row);
     ev_duration := clean (ev_duration row);
     ev_queued_duration := clean (ev_queued_duration row);
     ev_failure_reason := clean (ev_failure_reason row);
     ev_retry := clean (ev_retry row) |}.

Definition pipeline_row (cfg : Config) (row : RawEvent) : PipelineRow :=
  {| p_project_id := PROJECT_ID cfg;
     p_status := text_param (ev_status row);
     p_ref := text_param (ev_ref row);
     p_sha := text_param (ev_sha row);
     p_web_url := text_param (ev_web_url row);
     p_created_at := cell_get (ev_created_at row);
     p_updated_at := cell_get (ev_updated_at row);
     p_finished_at := cell_get (ev_finished_at row);
     p_source_data := clean_dict row |}.

(** [row.get('pipeline', {}).get('id') if isinstance(row.get('pipeline'),
    dict) else row.get('pipeline_id')] *)
Definition pipeline_id_param (row : RawEvent) : cell Z :=
  match ev_pipeline row with
  | Val p => match ref_id p with Some i => Val i | None => Null end
  | _ => ev_pipeline_id row
  end.

Definition job_row (cfg : Config) (row : RawEvent) : JobRow :=
  {| j_pipeline_id := cell_get (pipeline_id_param row);
     j_project_id := PROJECT_ID cfg;
     j_name := text_param (ev_name row);
     j_stage := text_param (ev_stage row);
     j_status := text_param (ev_status row);
     j_duration := cell_get (ev_duration row);
     j_queued_duration := cell_get (ev_queued_duration row);
     j_failure_reason := text_param (ev_failure_reason row);
     j_retry_count := default 0 (cell_get (ev_retry row));
     j_web_url := text_param (ev_web_url row);
     j_created_at := cell_get (ev_created_at row);
     j_started_at := cell_get (ev_started_at row);
     j_finished_at := cell_get (ev_finished_at row);
     j_source_data := clean_dict row |}.

(** A bigint column takes an integer or NULL; for the float NaN the
    statement raises (bigint out of range). *)
Definition fits_bigint (c : cell Z) : bool :=
  match c with NaN => false | _ => true end.

(** The table takes the parameters of the INSERT for the row: the
    unguarded [pipeline_id] fits its column, and the row passes the
    schema's checks. *)
Definition pipelines_accept (sch : Schema) (cfg : Config) (row : RawEvent) : bool :=
  pipelines_check sch (pipeline_row cfg row).

Definition jobs_accept (sch : Schema) (cfg : Config) (row : RawEvent) : bool :=
  fits_bigint (pipeline_id_param row) && jobs_check sch (job_row cfg row).

(** INSERT ... ON CONFLICT (id) DO NOTHING.  The statement raises when the
    table rejects the row: [id] is the key of the table, a bigint that
    cannot be null, and the other columns have to be accepted. *)
Definition insert_or_ignore {V} (accept : bool) (id : option Z) (v : V)
    (t : gmap Z V) : option (gmap Z V) :=
  match id with
  | None => None
  | Some i =>
      if accept then
        Some (match t !! i with Some _ => t | None => <[i := v]> t end)
      else None
  end.

(** [for _, row in df.iterrows(): cur.execute(INSERT ...)]; for the key
    [row.get('id')], None and NaN are rejected alike. *)
Fixpoint insert_rows {V} (accept : RawEvent -> bool) (mk : RawEvent -> V)
    (df : list RawEvent) (t : gmap Z V) : option (gmap Z V) :=
  match df with
  | [] => Some t
  | row :: df' =>
      match insert_or_ignore (accept row) (cell_get (ev_id row)) (mk row) t with
      | Some t' => insert_rows accept mk df' t'
      | None => None
      end
  end.

(** Statements followed by one [conn.commit()]: when a statement raises,
    the commit is not reached and nothing of the call is stored. *)
Definition transact (f : DB -> option DB) (e : list Event) : M unit := fun d =>
  match f d with
  | Some d' => MkResult (Some tt) d' e
  | None => MkResult None d []
  end.

Definition append_raw_to_db (sch : Schema) (cfg : Config) (source : string)
    (df : DataFrame) : M unit :=
  if df_empty df then ret tt
  else if String.eqb source "pipelines" then
    transact (fun d =>
                t ← insert_rows (pipelines_accept sch cfg) (pipeline_row cfg) (df_rows df)
                                (pipelines_raw d);
                Some (set_pipelines_raw t d))
             [RawCommitted source (length (df_rows df))]
  else if String.eqb source "jobs" then
    transact (fun d =>
                t ← insert_rows (jobs_accept sch cfg) (job_row cfg) (df_rows df) (jobs_raw d);
                Some (set_jobs_raw t d))
             [RawCommitted source (length (df_rows df))]
  else transact Some [].

(** ** Daily metrics *)

(** A row of the SELECT over jobs_raw. *)
Record JobSample : Type := {
  s_project_id : Z;
  s_job_name : option string;
  s_day : date;
  s_created_at : timestamp;
  s_status : option string;
  s_duration : option Q;
  s_failure_reason : option string;
  s_retry_count : Z
}.

(** The window of [compute_metrics_daily] and [build_features]:
    [(start_date, end_date)], with no start for [window_days == 0].  Day
    numbers are unbounded here; the start date is the one Python computes
    as long as [window_defined] below holds, and outside of it Python's
    subtraction raises OverflowError. *)
Definition window (clk : Clock) (window_days : Z) : option date * date :=
  if bool_decide (window_days = 0) then (None, today clk)
  else (Some (today clk - window_days), today clk).

(** Python's dates range over 0001-01-01 .. 9999-12-31, the day numbers
    [date_min .. date_max], and a [timedelta] over at most 999999999 days:
    [end_date - timedelta(days=window_days)] is defined, and is the
    difference of the day numbers, when [window_defined] holds. *)
Definition date_min : date := -719162.
Definition date_max : date := 2932896.

Definition window_defined (clk : Clock) (window_days : Z) : Prop :=
  -999999999 <= window_days <= 999999999
  /\ date_min <= today clk - window_days <= date_max.

(** The WHERE clause on [created_at]; a comparison with NULL does not hold. *)
Definition created_in (w : option date * date) (created_at : option timestamp) : bool :=
  match created_at with
  | None => false
  | Some ts =>
      match fst w with
      | None => bool_decide (ts <= midnight (snd w) + usec_per_day)
      | Some start_date =>
          bool_decide (midnight start_date <= ts)
          && bool_decide (ts < midnight (snd w) + usec_per_day)
      end
  end.

Definition job_sample (r : JobRow) : option JobSample :=
  ts ← j_created_at r;
  Some {| s_project_id := j_project_id r;
          s_job_name := j_name r;
          s_day := DATE ts;
          s_created_at := ts;
          s_status := j_status r;
          s_duration := j_duration r;
          s_failure_reason := j_failure_reason r;
          s_retry_count := j_retry_count r |}.

Definition created_le (a b : JobSample) : Prop := s_created_at a <= s_created_at b.

#[local] Instance created_le_dec : RelDecision created_le.
Proof. intros a b. unfold created_le. apply _. Defined.

(** [SELECT ... FROM jobs_raw WHERE project_id = %s AND created_at ...
    ORDER BY created_at]; rows of equal [created_at] keep the order in
    which the table enumerates them. *)
Definition select_jobs (cfg : Config) (w : option date * date)
    (t : gmap Z JobRow) : list JobSample :=
  merge_sort created_le
    (omap (fun r =>
             if bool_decide (j_project_id r = PROJECT_ID cfg)
                && created_in w (j_created_at r)
             then job_sample r else None)
          (map snd (map_to_list t))).

(** [df.groupby(keys)]: groups of the rows whose key has no missing part,
    one per distinct key. *)
Definition groupby {A K} `{EqDecision K} (key : A -> option K) (rows : list A)
    : list (K * list A) :=
  map (fun k => (k, filter (fun r => key r = Some k) rows))
      (remove_dups (omap key rows)).

Definition sample_key (s : JobSample) : option (Z * string * Z) :=
  n ← s_job_name s; Some (s_project_id s, n, s_day s).

(** [(x == v).sum()] *)
Definition count_eq (v : string) (xs : list (option string)) : nat :=
  length (filter (fun x => x = Some v) xs).

#[local] Instance Qle_dec : RelDecision Qle.
Proof. intros x y. unfold Qle. apply _. Defined.

Definition Qsum (xs : list Q) : Q := foldr Qplus 0%Q xs.

(** [Series.sum()]: missing values are skipped. *)
Definition series_sum (xs : list (option Q)) : Q := Qsum (omap id xs).

(** [Series.mean()]: the mean of the values present, missing when there
    are none. *)
Definition series_mean (xs : list (option Q)) : option Q :=
  match omap id xs with
  | [] => None
  | v => Some (Qsum v / inject_Z (Z.of_nat (length v)))%Q
  end.

(** [Series.quantile(q)], linear interpolation between the two closest
    ranks of the values present. *)
Definition series_quantile (q : Q) (xs : list (option Q)) : option Q :=
  match merge_sort Qle (omap id xs) with
  | [] => None
  | x0 :: tl =>
      let v := x0 :: tl in
      let h := (inject_Z (Z.of_nat (length v) - 1) * q)%Q in
      let lo := Qfloor h in
      let a := nth (Z.to_nat lo) v x0 in
      let b := nth (Z.to_nat lo + 1) v a in
      Some (a + (b - a) * (h - inject_Z lo))%Q
  end.

Definition Zmax_list (x0 : Z) (xs : list Z) : Z := foldr Z.max x0 xs.

(** [Series.max()] of a group; a group has at least one row. *)
Definition series_max (xs : list Z) : Z :=
  match xs with
  | [] => 0
  | x :: xs' => Zmax_list x xs'
  end.

(** The distinct values of a list, in the order of their first
    appearance. *)
Definition unique (xs : list string) : list string :=
  reverse (remove_dups (reverse xs)).

(** One step of a stable sort by descending count: [x] goes before the
    first entry that does not count more. *)
Fixpoint insert_count (x : string * nat) (l : list (string * nat))
    : list (string * nat) :=
  match l with
  | [] => [x]
  | y :: l' => if (snd y <=? snd x)%nat then x :: y :: l' else y :: insert_count x l'
  end.

(** [x[x.notna()].value_counts().head(5)]: the five most frequent failure
    reasons with their counts, reasons of equal count in order of first
    appearance.  The column holds this table, which the code serialises
    with [json.dumps]. *)
Definition value_counts (xs : list string) : list (string * nat) :=
  foldr insert_count []
    (map (fun v => (v, length (filter (fun x => x = v) xs))) (unique xs)).

Definition top_reasons (xs : list (option string)) : list (string * nat) :=
  take 5 (value_counts (omap id xs)).

(** [if not rows] *)
Definition no_rows {A} (rows : list A) : bool :=
  match rows with [] => true | _ => false end.

(** The [agg] of one group. *)
Definition aggregate (g : list JobSample) : DailyMetric :=
  {| builds := count_eq "success" (map s_status g) + count_eq "failed" (map s_status g);
     fails := count_eq "failed" (map s_status g);
     p95_duration := series_quantile (95 # 100) (map s_duration g);
     p99_duration := series_quantile (99 # 100) (map s_duration g);
     avg_duration := series_mean (map s_duration g);
     total_duration := Some (series_sum (map s_duration g));
     max_retries := series_max (map s_retry_count g);
     error_types := top_reasons (map s_failure_reason g) |}.

(** The frame [metrics]: one row per [(project_id, job_name, day)]. *)
Definition daily_metrics (cfg : Config) (clk : Clock) (window_days : Z)
    (t : gmap Z JobRow) : list ((Z * string * Z) * DailyMetric) :=
  map (fun kg => (fst kg, aggregate (snd kg)))
      (groupby sample_key (select_jobs cfg (window clk window_days) t)).

(** The upsert loop over the rows of a frame. *)
Definition upsert_all `{Countable K} {V} (now : timestamp) (rows : list (K * V))
    (t : gmap K (stamped V)) : gmap K (stamped V) :=
  foldl (fun acc kv => upsert_stamped now (fst kv) (snd kv) acc) t rows.

Definition compute_metrics_daily (cfg : Config) (clk : Clock) (window_days : Z) : M nat :=
  let! rows := read (fun d => select_jobs cfg (window clk window_days) (jobs_raw d)) in
  if no_rows rows then ret 0%nat
  else
    let! metrics := read (fun d => daily_metrics cfg clk window_days (jobs_raw d)) in
    exec! commit (fun d => set_metrics_daily
                             (upsert_all (current_timestamp clk) metrics (metrics_daily d)) d)
                 [MetricsCommitted (length metrics)] in
    ret (length metrics).

(** ** Feature engineering *)

(** A row of the SELECT over metrics_daily. *)
Record MetricSample : Type := {
  m_project_id : Z;
  m_job_name : string;
  m_day : date;
  m_builds : nat;
  m_fails : nat;
  m_p95_duration : option Q;
  m_avg_duration : option Q;
  m_max_retries : Z
}.

(** The WHERE clause on [day]. *)
Definition day_in (w : option date * date) (day : date) : bool :=
  match fst w with
  | None => bool_decide (day <= snd w)
  | Some start_date => bool_decide (start_date <= day) && bool_decide (day <= snd w)
  end.

Definition metric_sample (kv : (Z * string * Z) * stamped DailyMetric) : MetricSample :=
  let '((p, n, d), row) := kv in
  {| m_project_id := p;
     m_job_name := n;
     m_day := d;
     m_builds := builds (data row);
     m_fails := fails (data row);
     m_p95_duration := p95_duration (data row);
     m_avg_duration := avg_duration (data row);
     m_max_retries := max_retries (data row) |}.

Definition day_le (a b : MetricSample) : Prop := m_day a <= m_day b.

#[local] Instance day_le_dec : RelDecision day_le.
Proof. intros a b. unfold day_le. apply _. Defined.

(** [SELECT ... FROM metrics_daily WHERE project_id = %s AND day ...
    ORDER BY day] *)
Definition select_metrics (cfg : Config) (w : option date * date)
    (t : gmap (Z * string * Z) (stamped DailyMetric)) : list MetricSample :=
  merge_sort day_le
    (filter (fun s => m_project_id s = PROJECT_ID cfg /\ day_in w (m_day s) = true)
            (map metric_sample (map_to_list t))).

Definition entity (s : MetricSample) : option (Z * string) :=
  Some (m_project_id s, m_job_name s).

(** [f"{int(row['project_id'])}:{row['job_name']}"] *)
Definition entity_key (project_id : Z) (job_name : string) : string :=
  pretty project_id +:+ ":" +:+ job_name.

Definition sum_nat (xs : list nat) : nat := foldr Nat.add 0%nat xs.

Definition Qnat (n : nat) : Q := inject_Z (Z.of_nat n).

(** The payload of one entity, from its daily rows in the window. *)
Definition payload_of (g : list MetricSample) : Payload :=
  let builds := sum_nat (map m_builds g) in
  let fails := sum_nat (map m_fails g) in
  let p95_duration := series_mean (map m_p95_duration g) in
  let avg_duration := series_mean (map m_avg_duration g) in
  let max_retries := series_max (map m_max_retries g) in
  let fail_rate := (Qnat fails / Qnat (builds + 1))%Q in
  let dur_total := default 0%Q p95_duration in
  {| dur_total := dur_total;
     stage_build := match avg_duration with Some a => (a * (4 # 10))%Q | None => 0%Q end;
     stage_test := match avg_duration with Some a => (a * (5 # 10))%Q | None => 0%Q end;
     stage_deploy := match avg_duration with Some a => (a * (1 # 10))%Q | None => 0%Q end;
     fail_rate := fail_rate;
     pl_max_retries := max_retries |}.

Record Feature : Type := {
  f_entity_key : string;
  f_feature_version : Z;
  f_payload : Payload;
  f_event_time : timestamp
}.

(** [feature_list] *)
Definition feature_list (cfg : Config) (clk : Clock) (window_days feature_version : Z)
    (t : gmap (Z * string * Z) (stamped DailyMetric)) : list Feature :=
  map (fun kg =>
         {| f_entity_key := entity_key (fst (fst kg)) (snd (fst kg));
            f_feature_version := feature_version;
            f_payload := payload_of (snd kg);
            f_event_time := midnight (today clk) |})
      (groupby entity (select_metrics cfg (window clk window_days) t)).

(** INSERT INTO features_offline ... ON CONFLICT (entity_key,
    feature_version) DO UPDATE SET payload, event_time *)
Definition upsert_offline (feat : Feature) (t : gmap (string * Z) OfflineRow)
    : gmap (string * Z) OfflineRow :=
  <[(f_entity_key feat, f_feature_version feat) :=
      {| off_payload := f_payload feat; off_event_time := f_event_time feat |}]> t.

(** INSERT INTO features_online ... ON CONFLICT (entity_key) DO UPDATE SET
    feature_version, payload, updated_at *)
Definition upsert_online (now : timestamp) (feat : Feature)
    (t : gmap string (stamped OnlineRow)) : gmap string (stamped OnlineRow) :=
  upsert_stamped now (f_entity_key feat)
    {| on_feature_version := f_feature_version feat; on_payload := f_payload feat |} t.

Definition write_features (now : timestamp) (feats : list Feature) (d : DB) : DB :=
  foldl (fun acc feat =>
           set_features (upsert_offline feat (features_offline acc))
                        (upsert_online now feat (features_online acc)) acc)
        d feats.

Definition build_features (cfg : Config) (clk : Clock) (window_days feature_version : Z)
    : M nat :=
  let! rows := read (fun d => select_metrics cfg (window clk window_days) (metrics_daily d)) in
  if no_rows rows then ret 0%nat
  else
    let! feats := read (fun d => feature_list cfg clk window_days feature_version
                                              (metrics_daily d)) in
    exec! commit (write_features (current_timestamp clk) feats)
                 [FeaturesCommitted (length feats)] in
    ret (length feats).

(** ** The orchestrator *)

Definition _get_current_feature_version : M Z :=
  read (fun d => default 1 (kv_config d !! "FEATURE_VERSION_CURRENT")).

(** [df[col].max()], missing when no row carries a timestamp. *)
Definition max_ts (col : RawEvent -> cell timestamp) (df : DataFrame) : option timestamp :=
  match omap (fun e => cell_get (col e)) (df_rows df) with
  | [] => None
  | t :: ts => Some (Zmax_list t ts)
  end.

(** Step 1 of [run] for one source: load, append, then advance the
    watermark.  [run] spells this block out twice, for "pipelines" and for
    "jobs". *)
Definition ingest (sch : Schema) (cfg : Config) (clk : Clock) (files : Staged)
    (source : string) : M unit :=
  let! last_ts := get_watermark source in
  let! df := load_new_raw files source last_ts in
  if negb (df_empty df) then
    exec! append_raw_to_db sch cfg source df in
    if in_columns source df then
      match max_ts (ts_column source) df with
      | Some ts => update_watermark clk source ts
      | None => ret tt
      end
    else ret tt
  else ret tt.

Definition run (sch : Schema) (cfg : Config) (clk : Clock) (files : Staged)
    (reprocess_window_days : Z) : M unit :=
  exec! ingest sch cfg clk files "pipelines" in
  exec! ingest sch cfg clk files "jobs" in
  let! metrics_count := compute_metrics_daily cfg clk reprocess_window_days in
  let! feature_version := _get_current_feature_version in
  let feature_window := if bool_decide (reprocess_window_days = 0) then 0 else 30 in
  let! features_count := build_features cfg clk feature_window feature_version in
  ret tt.

(** ** The sequence of runs, and what a record needs to be stored *)

Record RunInput : Type := {
  in_clock : Clock;
  in_files : Staged;
  in_window : Z
}.

(** Runs one after the other, each on the database the previous one left. *)
Definition runs (sch : Schema) (cfg : Config) (inputs : list RunInput) (d : DB) : DB :=
  foldl (fun acc i => final (run sch cfg (in_clock i) (in_files i) (in_window i) acc))
        d inputs.

Definition last_ts_of (d : DB) (source : string) : option timestamp :=
  data <$> (processing_watermarks d !! source).

(** [a] is not later than [b]; no watermark is earlier than any. *)
Definition wm_le (a b : option timestamp) : Prop :=
  match a, b with
  | None, _ => True
  | Some _, None => False
  | Some x, Some y => x <= y
  end.

Definition wm_lt (a : option timestamp) (b : timestamp) : Prop :=
  match a with
  | None => True
  | Some x => x < b
  end.

(** The table takes the row of the frame: it has an id and is accepted. *)
Definition storable (accept : RawEvent -> bool) (row : RawEvent) : bool :=
  match cell_get (ev_id row) with
  | Some _ => accept row
  | None => false
  end.

(** The keyed rows of a batch. *)
Definition keyed {V} (mk : RawEvent -> V) (df : list RawEvent) : list (Z * V) :=
  omap (fun row => i ← cell_get (ev_id row); Some (i, mk row)) df.

(** The first row of a batch with the id [i]. *)
Definition first_with_id (i : Z) (df : list RawEvent) : option RawEvent :=
  head (filter (fun r => cell_get (ev_id r) = Some i) df).

(** ** Sample data *)

(** A record with no keys but those given below. *)
Definition blank_event : RawEvent :=
  {| ev_id := Absent; ev_status := Absent; ev_ref := Absent; ev_sha := Absent;
     ev_web_url := Absent; ev_created_at := Absent; ev_updated_at := Absent;
     ev_started_at := Absent; ev_finished_at := Absent; ev_pipeline := Absent;
     ev_pipeline_id := Absent; ev_name := Absent; ev_stage := Absent;
     ev_duration := Absent; ev_queued_duration := Absent;
     ev_failure_reason := Absent; ev_retry := Absent |}.

(** A job record with the given id, name, status, duration and day. *)
Definition job_event (id : Z) (name status : string) (duration : Q) (day : date)
    : RawEvent :=
  {| ev_id := Val id; ev_status := Val status; ev_ref := Absent; ev_sha := Absent;
     ev_web_url := Absent; ev_created_at := Val (midnight day); ev_updated_at := Absent;
     ev_started_at := Absent; ev_finished_at := Absent; ev_pipeline := Absent;
     ev_pipeline_id := Absent; ev_name := Val name; ev_stage := Absent;
     ev_duration := Val duration; ev_queued_duration := Absent;
     ev_failure_reason := Absent; ev_retry := Absent |}.

(** 2025-01-01 as a day number. *)
Definition day_2025_01_01 : date := 20089.

(** [{id:1, name:"test", status:"failed", duration:120, created_at:"2025-01-01"}] *)
Definition job_test_failed : RawEvent := job_event 1 "test" "failed" 120 day_2025_01_01.

(** The same kind of record without its id, and one without its status. *)
Definition job_without_id : RawEvent :=
  {| ev_id := Absent; ev_status := Val "success"%string; ev_ref := Absent; ev_sha := Absent;
     ev_web_url := Absent; ev_created_at := Val (midnight day_2025_01_01);
     ev_updated_at := Absent; ev_started_at := Absent; ev_finished_at := Absent;
     ev_pipeline := Absent; ev_pipeline_id := Absent; ev_name := Val "lint"%string;
     ev_stage := Absent; ev_duration := Val 30%Q; ev_queued_duration := Absent;
     ev_failure_reason := Absent; ev_retry := Absent |}.


(** A schema without column constraints besides the keys. *)
Definition permissive : Schema :=
  {| pipelines_check := fun _ => true; jobs_check := fun _ => true |}.

Definition project_7 : Config := {| PROJECT_ID := 7 |}.

(** ** The order of commits in a trace *)

(** No raw commit of [source] occurs in [l]. *)
Fixpoint no_raw_commit (source : string) (l : list Event) : bool :=
  match l with
  | [] => true
  | RawCommitted s _ :: l' => negb (String.eqb s source) && no_raw_commit source l'
  | _ :: l' => no_raw_commit source l'
  end.

Definition commits_raw (source : string) (e : option Event) : bool :=
  match e with
  | Some (RawCommitted s _) => String.eqb s source
  | _ => false
  end.

(** Every watermark write comes directly after the raw commit of its own
    source, and no raw commit of that source comes after it; [prev] is the
    event before [l]. *)
Fixpoint append_then_watermark (prev : option Event) (l : list Event) : bool :=
  match l with
  | [] => true
  | e :: l' =>
      match e with
      | WatermarkSet s _ => commits_raw s prev && no_raw_commit s l'
      | _ => true
      end && append_then_watermark (Some e) l'
  end.

(** ** Parts of a run *)

(** Steps 2 and 3 of [run]: what follows the two ingestions. *)
Definition derive (cfg : Config) (clk : Clock) (reprocess_window_days : Z) : M unit :=
  let! metrics_count := compute_metrics_daily cfg clk reprocess_window_days in
  let! feature_version := _get_current_feature_version in
  let feature_window := if bool_decide (reprocess_window_days = 0) then 0 else 30 in
  let! features_count := build_features cfg clk feature_window feature_version in
  ret tt.

(** The events one source's step of [run] can leave, on the database the
    run started from. *)
Definition ingest_trace (files : Staged) (source : string) (d : DB) (e : list Event) : Prop :=
  e = []
  \/ (df_empty (filter_new source (last_ts_of d source) (staged_rows files source)) = false
      /\ exists n, e = [RawCommitted source n]
                   \/ exists ts, e = [RawCommitted source n; WatermarkSet source ts]).

(** A job of the project with name [n] was created on [day]. *)
Definition job_on (cfg : Config) (t : gmap Z JobRow) (p : Z) (n : string) (day : date) : Prop :=
  p = PROJECT_ID cfg
  /\ exists i r ts, t !! i = Some r /\ j_project_id r = PROJECT_ID cfg
       /\ j_name r = Some n /\ j_created_at r = Some ts /\ DATE ts = day.

(** The row the SELECT of [compute_metrics_daily] gives for a stored job,
    when the job is one of the project with the name [n] created on
    [day]. *)
Definition day_job (cfg : Config) (n : string) (day : date) (r : JobRow)
    : option JobSample :=
  s ← job_sample r;
  if bool_decide (j_project_id r = PROJECT_ID cfg /\ j_name r = Some n /\ s_day s = day)
  then Some s else None.

(** The rows of all the stored jobs of the project with the name [n] that
    were created on [day], whatever the window. *)
Definition day_jobs (cfg : Config) (t : gmap Z JobRow) (n : string) (day : date)
    : list JobSample :=
  omap (day_job cfg n day) (map snd (map_to_list t)).

(** ** Rows of an entity in a window *)

(** The rows of metrics_daily of one job of the project whose day is in
    the window. *)
Definition window_rows (cfg : Config) (w : option date * date)
    (t : gmap (Z * string * Z) (stamped DailyMetric)) (n : string) : list DailyMetric :=
  omap (fun kv : (Z * string * Z) * stamped DailyMetric =>
          if bool_decide (fst (fst (fst kv)) = PROJECT_ID cfg /\ snd (fst (fst kv)) = n)
             && day_in w (snd (fst kv))
          then Some (data (snd kv)) else None)
       (map_to_list t).

(** The daily rows [build_features] groups under one entity. *)
Definition entity_group (cfg : Config) (w : option date * date)
    (t : gmap (Z * string * Z) (stamped DailyMetric)) (n : string) : list MetricSample :=
  filter (fun s => entity s = Some (PROJECT_ID cfg, n)) (select_metrics cfg w t).

(** The rows the loop of [build_features] writes to the two stores. *)
Definition offline_rows (feats : list Feature) : list ((string * Z) * OfflineRow) :=
  map (fun feat => ((f_entity_key feat, f_feature_version feat),
                    {| off_payload := f_payload feat; off_event_time := f_event_time feat |}))
      feats.

Definition online_rows (feats : list Feature) : list (string * OnlineRow) :=
  map (fun feat => (f_entity_key feat,
                    {| on_feature_version := f_feature_version feat;
                       on_payload := f_payload feat |}))
      feats.

(** A metrics_daily row with another [total_duration]. *)
Definition with_total_duration (g : DailyMetric -> option Q) (row : stamped DailyMetric)
    : stamped DailyMetric :=
  Stamped {| builds := builds (data row);
             fails := fails (data row);
             p95_duration := p95_duration (data row);
             p99_duration := p99_duration (data row);
             avg_duration := avg_duration (data row);
             total_duration := g (data row);
             max_retries := max_retries (data row);
             error_types := error_types (data row) |}
          (updated_at row).

(** The mean of the values present, 0 when there are none. *)
Definition mean_or_zero (xs : list Q) : Q :=
  match xs with
  | [] => 0%Q
  | _ => (Qsum xs / Qnat (length xs))%Q
  end.

(** ** More sample data *)

(** A clock on the given day, one hour after midnight. *)
Definition clock_on (day : date) : Clock :=
  {| today := day; current_timestamp := midnight day + 3600000000 |}.

(** Raw jobs of project 7 on each of the six days 2025-01-01 .. 2025-01-06. *)
Definition six_days : DB :=
  final (append_raw_to_db permissive project_7 "jobs"
           (frame [job_event 1 "test" "failed" 120 20089;
                   job_event 2 "test" "success" 60 20090;
                   job_event 3 "lint" "success" 10 20091;
                   job_event 4 "test" "success" 50 20092;
                   job_event 5 "lint" "failed" 15 20093;
                   job_event 6 "test" "success" 55 20094])
           empty_db).

(** The row of a project's job is dated within [back] days before today. *)
Definition dated_within (cfg : Config) (clk : Clock) (back : Z) (r : JobRow) : bool :=
  if bool_decide (j_project_id r = PROJECT_ID cfg) then
    match j_created_at r with
    | Some ts => bool_decide (today clk - back <= DATE ts <= today clk)
    | None => false
    end
  else true.

(** [compute_metrics_daily(3)] on 2025-01-06 at the database time [now]. *)
Definition rerun (now : timestamp) (d : DB) : DB :=
  final (compute_metrics_daily project_7 {| today := 20094; current_timestamp := now |} 3 d).

(** A second record with id 1 and other contents. *)
Definition another_job_1 : RawEvent := job_event 1 "deploy" "success" 5 20090.

(** One day of metrics of the job "test": builds = 10, fails = 2. *)
Definition metric_10_2 : stamped DailyMetric :=
  Stamped {| builds := 10; fails := 2; p95_duration := Some 120%Q;
             p99_duration := Some 130%Q; avg_duration := Some 100%Q;
             total_duration := Some 1000%Q; max_retries := 1; error_types := [] |}
          None.

Definition one_metric : DB :=
  set_metrics_daily {[ (7, "test"%string, day_2025_01_01) := metric_10_2 ]} empty_db.

(** ** Batches, versions and the command line *)

(** Every row of metrics_daily counts no more failures than builds. *)
Definition counts_consistent (t : gmap (Z * string * Z) (stamped DailyMetric)) : Prop :=
  forall k row, t !! k = Some row -> (fails (data row) <= builds (data row))%nat.

(** The table of the source takes every record of the batch. *)
Definition batch_storable (sch : Schema) (cfg : Config) (source : string)
    (df : DataFrame) : bool :=
  if String.eqb source "pipelines"
  then forallb (storable (pipelines_accept sch cfg)) (df_rows df)
  else forallb (storable (jobs_accept sch cfg)) (df_rows df).

(** The batch [run] loads for a source on the database [d]. *)
Definition loaded (files : Staged) (source : string) (d : DB) : DataFrame :=
  filter_new source (last_ts_of d source) (staged_rows files source).

(** The window of the features of a run. *)
Definition feature_window (reprocess_window_days : Z) : Z :=
  if bool_decide (reprocess_window_days = 0) then 0 else 30.

(** The feature version a run reads on the database [d]. *)
Definition current_feature_version (d : DB) : Z :=
  default 1 (kv_config d !! "FEATURE_VERSION_CURRENT").

(** [main] of cli/etl_incremental.py, from the parsed arguments
    [--process-all] and [--reprocess-days]; it returns 0 when [run]
    returns. *)
Definition cli_reprocess_days (process_all : bool) (reprocess_days : Z) : Z :=
  if process_all || bool_decide (10000 <= reprocess_days) then 0 else reprocess_days.

Definition main (sch : Schema) (cfg : Config) (clk : Clock) (files : Staged)
    (process_all : bool) (reprocess_days : Z) : M Z :=
  exec! run sch cfg clk files (cli_reprocess_days process_all reprocess_days) in
  ret 0.

(** ** Sample files and tables for the further properties *)

(** A pipeline record with the given id and status, created and updated
    at midnight of the given day. *)
Definition pipeline_event (id : Z) (status : string) (day : date) : RawEvent :=
  {| ev_id := Val id; ev_status := Val status; ev_ref := Val "main"%string;
     ev_sha := Absent; ev_web_url := Absent; ev_created_at := Val (midnight day);
     ev_updated_at := Val (midnight day); ev_started_at := Absent;
     ev_finished_at := Absent; ev_pipeline := Absent; ev_pipeline_id := Absent;
     ev_name := Absent; ev_stage := Absent; ev_duration := Absent;
     ev_queued_duration := Absent; ev_failure_reason := Absent; ev_retry := Absent |}.

(** A job record without the [created_at] key. *)
Definition undated_job : RawEvent :=
  {| ev_id := Val 3; ev_status := Val "success"%string; ev_ref := Absent; ev_sha := Absent;
     ev_web_url := Absent; ev_created_at := Absent; ev_updated_at := Absent;
     ev_started_at := Absent; ev_finished_at := Absent; ev_pipeline := Absent;
     ev_pipeline_id := Absent; ev_name := Val "lint"%string; ev_stage := Absent;
     ev_duration := Val 30%Q; ev_queued_duration := Absent;
     ev_failure_reason := Absent; ev_retry := Absent |}.

(** Two pipelines and two jobs, of 2025-01-01 and 2025-01-02. *)
Definition staged_two_days : Staged :=
  {| pipelines_json := Some [pipeline_event 100 "failed" 20089;
                             pipeline_event 101 "success" 20090];
     jobs_json := [[job_test_failed]; [job_event 2 "test" "success" 60 20090]] |}.

(** The same with a pipeline record without keys, and with a job record
    without id. *)
Definition staged_bad_pipeline : Staged :=
  {| pipelines_json := Some [pipeline_event 100 "failed" 20089; blank_event];
     jobs_json := [[job_test_failed]] |}.

Definition staged_bad_job : Staged :=
  {| pipelines_json := Some [pipeline_event 100 "failed" 20089];
     jobs_json := [[job_test_failed; job_without_id]] |}.

Definition staged_undated : Staged :=
  {| pipelines_json := None; jobs_json := [[undated_job]] |}.

(** A database with nothing but one watermark. *)
Definition watermark_db (source : string) (ts : timestamp) : DB :=
  set_watermarks (fun _ => {[ source := Stamped ts None ]}) empty_db.

(** The six days of raw jobs and a job created at midnight after
    2025-01-06. *)
Definition six_days_and_midnight : DB :=
  final (append_raw_to_db permissive project_7 "jobs"
           (frame [job_event 9 "test" "success" 5 20095]) six_days).

(** The six days of raw jobs with a metrics row for "test" on 2025-01-01. *)
Definition six_days_with_metric : DB :=
  set_metrics_daily {[ (7, "test"%string, day_2025_01_01) := metric_10_2 ]} six_days.

(** A jobs file with a second record of id 1 and a new job of 2025-01-06. *)
Definition staged_reload : Staged :=
  {| pipelines_json := None;
     jobs_json := [[another_job_1; job_event 7 "lint" "success" 12 20094]] |}.

(** The row of the SELECT for the job created at midnight after 2025-01-06. *)
Definition midnight_sample : JobSample :=
  {| s_project_id := 7; s_job_name := Some "test"%string; s_day := 20095;
     s_created_at := midnight 20095; s_status := Some "success"%string;
     s_duration := Some 5%Q; s_failure_reason := None; s_retry_count := 0 |}.

(** No staged files. *)
Definition no_staged : Staged := {| pipelines_json := None; jobs_json := [] |}.

(** * Properties *)

(** ** Raw ingestion *)

Section insert_rows.
Context {V : Type} (accept : RawEvent -> bool) (mk : RawEvent -> V).

Lemma ignore_union (t : gmap Z V) (i : Z) (v : V) :
  match t !! i with Some _ => t | None => <[i := v]> t end = t ∪ {[i := v]}.
Proof.
  destruct (t !! i) as [x|] eqn:E.
  - apply map_eq. intros j. rewrite lookup_union.
    destruct (decide (i = j)) as [->|N].
    + rewrite E, lookup_singleton_eq. reflexivity.
    + rewrite lookup_singleton_ne by exact N. destruct (t !! j); reflexivity.
  - apply insert_union_singleton_r. exact E.
Qed.

Lemma insert_rows_union (df : list RawEvent) (t : gmap Z V) :
  forallb (storable accept) df = true ->
  insert_rows accept mk df t = Some (t ∪ list_to_map (keyed mk df)).
Proof.
  revert t. induction df as [|row df IH]; intros t Hall.
  - cbn. rewrite (right_id_L ∅ (∪)). reflexivity.
  - cbn in Hall. apply andb_prop in Hall as [Hrow Hall].
    unfold storable in Hrow. cbn [insert_rows]. unfold insert_or_ignore, keyed.
    destruct (cell_get (ev_id row)) as [i|] eqn:Ei; [|discriminate].
    rewrite Hrow. cbn [omap list_omap]. rewrite Ei. cbn.
    rewrite ignore_union, IH by exact Hall. f_equal.
    rewrite <- (assoc_L (∪)). f_equal.
    symmetry. apply insert_union_singleton_l.
Qed.

Lemma insert_rows_raises (df : list RawEvent) (t : gmap Z V) :
  forallb (storable accept) df = false -> insert_rows accept mk df t = None.
Proof.
  revert t. induction df as [|row df IH]; intros t Hall; [discriminate|].
  cbn in Hall. cbn [insert_rows]. unfold insert_or_ignore.
  unfold storable in Hall at 1.
  destruct (cell_get (ev_id row)) as [i|]; [|reflexivity].
  destruct (accept row); [|reflexivity].
  cbn in Hall. apply IH. exact Hall.
Qed.

(** A second pass over the same batch changes nothing. *)
Lemma insert_rows_idem (df : list RawEvent) (t t' : gmap Z V) :
  insert_rows accept mk df t = Some t' -> insert_rows accept mk df t' = Some t'.
Proof.
  intros H. destruct (forallb (storable accept) df) eqn:Hall.
  - rewrite insert_rows_union in H by exact Hall. injection H as <-.
    rewrite insert_rows_union by exact Hall. f_equal.
    rewrite <- (assoc_L (∪)). f_equal. apply (idemp_L (∪)).
  - rewrite insert_rows_raises in H by exact Hall. discriminate.
Qed.

(** Rows that are in the table stay as they are. *)
Lemma insert_rows_keeps (df : list RawEvent) (t t' : gmap Z V) (i : Z) (v : V) :
  insert_rows accept mk df t = Some t' -> t !! i = Some v -> t' !! i = Some v.
Proof.
  intros H Hi. destruct (forallb (storable accept) df) eqn:Hall.
  - rewrite insert_rows_union in H by exact Hall. injection H as <-.
    apply lookup_union_Some_l. exact Hi.
  - rewrite insert_rows_raises in H by exact Hall. discriminate.
Qed.

Lemma keyed_lookup (df : list RawEvent) (i : Z) :
  (list_to_map (keyed mk df) : gmap Z V) !! i = mk <$> first_with_id i df.
Proof.
  unfold first_with_id, keyed. induction df as [|r df IH]; [reflexivity|].
  cbn [omap list_omap].
  rewrite (filter_cons (fun r => cell_get (ev_id r) = Some i)).
  destruct (cell_get (ev_id r)) as [j|] eqn:Ej; cbn.
  - destruct (decide (Some j = Some i)) as [E|N].
    + injection E as ->. rewrite lookup_insert_eq. reflexivity.
    + rewrite lookup_insert_ne by congruence. exact IH.
  - destruct (decide (None = Some i)) as [E|N]; [discriminate|]. exact IH.
Qed.

Lemma first_with_id_elem (df : list RawEvent) (row : RawEvent) (i : Z) :
  row ∈ df -> cell_get (ev_id row) = Some i -> is_Some (first_with_id i df).
Proof.
  intros Hin Hi. unfold first_with_id.
  assert (H : row ∈ filter (fun r => cell_get (ev_id r) = Some i) df).
  { apply list_elem_of_filter. auto. }
  destruct (filter _ df) as [|x l]; [inversion H|]. eexists. reflexivity.
Qed.

(** After a batch that the table took, an id that was stored has the row
    it had, and a new id has the row of the first record of the batch
    with that id. *)
Lemma insert_rows_lookup (df : list RawEvent) (t t' : gmap Z V) (i : Z) (first : RawEvent) :
  insert_rows accept mk df t = Some t' -> first_with_id i df = Some first ->
  t' !! i = Some (default (mk first) (t !! i)).
Proof.
  intros H Hf. destruct (forallb (storable accept) df) eqn:Hall.
  - rewrite insert_rows_union in H by exact Hall. injection H as <-.
    rewrite lookup_union. rewrite keyed_lookup, Hf. cbn.
    destruct (t !! i); reflexivity.
  - rewrite insert_rows_raises in H by exact Hall. discriminate.
Qed.

(** Every record of an accepted batch has an id. *)
Lemma insert_rows_ids (df : list RawEvent) (t t' : gmap Z V) (row : RawEvent) :
  insert_rows accept mk df t = Some t' -> row ∈ df ->
  exists i, ev_id row = Val i.
Proof.
  revert t. induction df as [|r df IH]; intros t H Hin.
  - inversion Hin.
  - cbn [insert_rows] in H. unfold insert_or_ignore in H.
    destruct (cell_get (ev_id r)) as [i|] eqn:Ei; [|discriminate].
    destruct (accept r); [|discriminate].
    apply elem_of_cons in Hin as [->|Hin].
    + exists i. destruct (ev_id r); try discriminate. cbn in Ei. congruence.
    + eapply IH; eauto.
Qed.
End insert_rows.

Lemma set_pipelines_raw_twice (t : gmap Z PipelineRow) (d : DB) :
  set_pipelines_raw t (set_pipelines_raw t d) = set_pipelines_raw t d.
Proof. reflexivity. Qed.

Lemma set_jobs_raw_twice (t : gmap Z JobRow) (d : DB) :
  set_jobs_raw t (set_jobs_raw t d) = set_jobs_raw t d.
Proof. reflexivity. Qed.

(** C2.  Appending a batch a second time leaves the database exactly as the
    first call left it, and a call never changes a row that is stored: an
    insert whose id exists is a no-op, in pipelines_raw and in jobs_raw. *)
Theorem append_raw_to_db_idempotent (sch : Schema) (cfg : Config) (source : string)
    (df : DataFrame) (d : DB) :
  final (append_raw_to_db sch cfg source df
           (final (append_raw_to_db sch cfg source df d)))
  = final (append_raw_to_db sch cfg source df d)
  /\ (forall i row, pipelines_raw d !! i = Some row ->
        pipelines_raw (final (append_raw_to_db sch cfg source df d)) !! i = Some row)
  /\ (forall i row, jobs_raw d !! i = Some row ->
        jobs_raw (final (append_raw_to_db sch cfg source df d)) !! i = Some row).
Proof.
  unfold append_raw_to_db.
  destruct (df_empty df); [cbn; auto|].
  destruct (String.eqb source "pipelines").
  - unfold transact.
    destruct (insert_rows (pipelines_accept sch cfg) (pipeline_row cfg) (df_rows df)
                (pipelines_raw d)) as [t|] eqn:E; cbn.
    + rewrite (insert_rows_idem _ _ _ _ _ E). cbn.
      split; [reflexivity|]. split; [|auto].
      intros i row Hi. eapply insert_rows_keeps; eauto.
    + rewrite E. cbn. auto.
  - destruct (String.eqb source "jobs").
    + unfold transact.
      destruct (insert_rows (jobs_accept sch cfg) (job_row cfg) (df_rows df)
                  (jobs_raw d)) as [t|] eqn:E; cbn.
      * rewrite (insert_rows_idem _ _ _ _ _ E). cbn.
        split; [reflexivity|]. split; [auto|].
        intros i row Hi. eapply insert_rows_keeps; eauto.
      * rewrite E. cbn. auto.
    + cbn. auto.
Qed.




(** ** The monad *)

Lemma bind_value_None {A B} (c : M A) (k : A -> M B) (d : DB) :
  value (c d) = None ->
  bind c k d = MkResult None (final (c d)) (events (c d)).
Proof. intros H. unfold bind. rewrite H. reflexivity. Qed.

Lemma bind_value_Some {A B} (c : M A) (k : A -> M B) (d : DB) (a : A) :
  value (c d) = Some a ->
  bind c k d = MkResult (value (k a (final (c d)))) (final (k a (final (c d))))
                        (events (c d) ++ events (k a (final (c d)))).
Proof. intros H. unfold bind. rewrite H. reflexivity. Qed.

Lemma result_eta {A} (r : Result A) : MkResult (value r) (final r) (events r) = r.
Proof. destruct r; reflexivity. Qed.

Lemma bind_read {A B} (f : DB -> A) (k : A -> M B) (d : DB) :
  bind (read f) k d = k (f d) d.
Proof. unfold bind, read. cbn. apply result_eta. Qed.

Lemma bind_ret {A B} (a : A) (k : A -> M B) (d : DB) : bind (ret a) k d = k a d.
Proof. unfold bind, ret. cbn. apply result_eta. Qed.

Lemma bind_at {A B} (c c' : M A) (k : A -> M B) (d : DB) :
  c d = c' d -> bind c k d = bind c' k d.
Proof. intros H. unfold bind. rewrite H. reflexivity. Qed.

Lemma bind_final_value {A B} (c : M A) (k : A -> M B) (d : DB) (b : B) :
  value (bind c k d) = Some b ->
  exists a, value (c d) = Some a /\ value (k a (final (c d))) = Some b
    /\ final (bind c k d) = final (k a (final (c d))).
Proof.
  unfold bind. destruct (value (c d)) as [a|]; cbn; [|discriminate].
  intros H. exists a. auto.
Qed.

Lemma bind_final_cases {A B} (c : M A) (k : A -> M B) (d : DB) :
  (value (c d) = None /\ final (bind c k d) = final (c d))
  \/ exists a, value (c d) = Some a /\ final (bind c k d) = final (k a (final (c d))).
Proof. unfold bind. destruct (value (c d)) as [a|]; cbn; eauto. Qed.

(** ** Ingestion of one source *)

Lemma staged_rows_other (files : Staged) (source : string) :
  source <> "pipelines" -> source <> "jobs" -> staged_rows files source = frame [].
Proof.
  intros H1 H2. unfold staged_rows.
  destruct (String.eqb_spec source "pipelines"); [contradiction|].
  destruct (String.eqb_spec source "jobs"); [contradiction|]. reflexivity.
Qed.

Lemma filter_new_columns (source : string) (w : option timestamp) (df : DataFrame) :
  in_columns source (filter_new source w df) = in_columns source df.
Proof.
  unfold filter_new. destruct (in_columns source df) eqn:E; [|exact E].
  destruct w; [|exact E]. unfold in_columns, select_rows in *.
  destruct (String.eqb source "pipelines"); exact E.
Qed.

Lemma filter_new_nonempty_source (files : Staged) (source : string) (w : option timestamp) :
  df_empty (filter_new source w (staged_rows files source)) = false ->
  source = "pipelines" \/ source = "jobs".
Proof.
  intros H.
  destruct (String.eqb_spec source "pipelines") as [|N1]; [auto|].
  destruct (String.eqb_spec source "jobs") as [|N2]; [auto|].
  rewrite staged_rows_other in H by assumption.
  unfold filter_new, in_columns, frame in H. cbn in H.
  destruct (String.eqb source "pipelines"); discriminate.
Qed.

Lemma Zmax_list_ge (x : Z) (xs : list Z) : x <= Zmax_list x xs.
Proof.
  unfold Zmax_list. induction xs as [|y ys IH]; cbn [foldr]; [lia|].
  pose proof (Z.le_max_r y (foldr Z.max x ys)). lia.
Qed.

(** The maximum of a batch loaded after a watermark is after it. *)
Lemma max_ts_after (source : string) (w : option timestamp) (df : DataFrame) (ts : timestamp) :
  in_columns source df = true ->
  max_ts (ts_column source) (filter_new source w df) = Some ts ->
  wm_lt w ts.
Proof.
  intros Hcol. unfold filter_new. rewrite Hcol.
  destruct w as [w|]; [|intros _; exact I].
  unfold max_ts, select_rows. cbn [df_rows wm_lt].
  destruct (omap _ _) as [|t l] eqn:E; [discriminate|].
  intros [= <-].
  assert (Hin : t ∈ omap (fun e => cell_get (ts_column source e))
                  (filter (fun e => after w (ts_column source e) = true) (df_rows df))).
  { rewrite E. apply list_elem_of_here. }
  apply list_elem_of_omap in Hin as (e & He & Hget).
  apply list_elem_of_filter in He as [Haft _].
  unfold after in Haft. destruct (ts_column source e) as [| | |t']; try discriminate.
  cbn in Hget. injection Hget as ->. apply bool_decide_eq_true_1 in Haft.
  pose proof (Zmax_list_ge t l). lia.
Qed.

Lemma append_effect (sch : Schema) (cfg : Config) (source : string) (df : DataFrame) (d : DB) :
  df_empty df = false -> source = "pipelines" \/ source = "jobs" ->
  (value (append_raw_to_db sch cfg source df d) = None
   /\ final (append_raw_to_db sch cfg source df d) = d
   /\ events (append_raw_to_db sch cfg source df d) = [])
  \/ (value (append_raw_to_db sch cfg source df d) = Some tt
      /\ processing_watermarks (final (append_raw_to_db sch cfg source df d))
         = processing_watermarks d
      /\ events (append_raw_to_db sch cfg source df d)
         = [RawCommitted source (length (df_rows df))]).
Proof.
  intros Hne Hsrc. unfold append_raw_to_db. rewrite Hne.
  destruct Hsrc as [-> | ->].
  - change (String.eqb "pipelines" "pipelines") with true. cbv iota. unfold transact.
    destruct (insert_rows _ _ _ _); cbn; auto.
  - change (String.eqb "jobs" "pipelines") with false.
    change (String.eqb "jobs" "jobs") with true. cbv iota. unfold transact.
    destruct (insert_rows _ _ _ _); cbn; auto.
Qed.

Lemma load_new_raw_result (files : Staged) (source : string) (d : DB) :
  load_new_raw files source (last_ts_of d source) d
  = ret (filter_new source (last_ts_of d source) (staged_rows files source)) d.
Proof.
  unfold load_new_raw, last_ts_of.
  destruct (data <$> processing_watermarks d !! source) eqn:E.
  - rewrite bind_ret. reflexivity.
  - unfold get_watermark. rewrite bind_read, E. reflexivity.
Qed.

Lemma ingest_unfold (sch : Schema) (cfg : Config) (clk : Clock) (files : Staged)
    (source : string) (d : DB) :
  ingest sch cfg clk files source d
  = let df := filter_new source (last_ts_of d source) (staged_rows files source) in
    if df_empty df then ret tt d
    else bind (append_raw_to_db sch cfg source df)
           (fun _ => if in_columns source df then
                       match max_ts (ts_column source) df with
                       | Some ts => update_watermark clk source ts
                       | None => ret tt
                       end
                     else ret tt) d.
Proof.
  unfold ingest, get_watermark. rewrite bind_read. fold (last_ts_of d source).
  erewrite bind_at by apply load_new_raw_result. rewrite bind_ret. cbv zeta.
  destruct (df_empty _); reflexivity.
Qed.

Lemma ingest_empty_batch (sch : Schema) (cfg : Config) (clk : Clock) (files : Staged)
    (source : string) (d : DB) :
  df_empty (filter_new source (last_ts_of d source) (staged_rows files source)) = true ->
  ingest sch cfg clk files source d = ret tt d.
Proof. intros H. rewrite ingest_unfold. cbv zeta. rewrite H. reflexivity. Qed.

(** What one source's step of [run] can do: nothing (empty batch, or the
    append raised); append only; append, then advance the watermark to a
    timestamp after the one it had. *)
Lemma ingest_cases (sch : Schema) (cfg : Config) (clk : Clock) (files : Staged)
    (source : string) (d : DB) :
  (events (ingest sch cfg clk files source d) = []
   /\ final (ingest sch cfg clk files source d) = d)
  \/ (value (ingest sch cfg clk files source d) = Some tt
      /\ (exists n, events (ingest sch cfg clk files source d) = [RawCommitted source n])
      /\ processing_watermarks (final (ingest sch cfg clk files source d))
         = processing_watermarks d)
  \/ (value (ingest sch cfg clk files source d) = Some tt
      /\ exists n ts,
           events (ingest sch cfg clk files source d)
           = [RawCommitted source n; WatermarkSet source ts]
           /\ wm_lt (last_ts_of d source) ts
           /\ processing_watermarks (final (ingest sch cfg clk files source d))
              = upsert_stamped (current_timestamp clk) source ts (processing_watermarks d)).
Proof.
  rewrite ingest_unfold. cbv zeta.
  set (df := filter_new source (last_ts_of d source) (staged_rows files source)).
  destruct (df_empty df) eqn:Hempty; [left; split; reflexivity|].
  pose proof (filter_new_nonempty_source _ _ _ Hempty) as Hsrc.
  destruct (append_effect sch cfg source df d Hempty Hsrc)
    as [(Hv & Hf & He) | (Hv & Hw & He)].
  - left. rewrite bind_value_None by exact Hv. cbn. auto.
  - right. rewrite (bind_value_Some _ _ _ _ Hv). cbn [value final events]. rewrite He.
    destruct (in_columns source df) eqn:Hcol; [|left; cbn; eauto].
    destruct (max_ts (ts_column source) df) as [ts|] eqn:Hmax; [|left; cbn; eauto].
    right. split; [reflexivity|]. exists (length (df_rows df)), ts.
    split; [reflexivity|]. split.
    + eapply max_ts_after; [|exact Hmax].
      unfold df in Hcol. rewrite filter_new_columns in Hcol. exact Hcol.
    + cbn. rewrite Hw. reflexivity.
Qed.

(** ** Metrics and features leave the watermarks alone *)

Lemma compute_metrics_daily_result (cfg : Config) (clk : Clock) (window_days : Z) (d : DB) :
  compute_metrics_daily cfg clk window_days d
  = if no_rows (select_jobs cfg (window clk window_days) (jobs_raw d))
    then ret 0%nat d
    else MkResult
           (Some (length (daily_metrics cfg clk window_days (jobs_raw d))))
           (set_metrics_daily
              (upsert_all (current_timestamp clk)
                 (daily_metrics cfg clk window_days (jobs_raw d)) (metrics_daily d)) d)
           [MetricsCommitted (length (daily_metrics cfg clk window_days (jobs_raw d)))].
Proof.
  unfold compute_metrics_daily. rewrite bind_read.
  destruct (no_rows _); [reflexivity|]. rewrite bind_read. reflexivity.
Qed.

Lemma build_features_result (cfg : Config) (clk : Clock) (window_days fv : Z) (d : DB) :
  build_features cfg clk window_days fv d
  = if no_rows (select_metrics cfg (window clk window_days) (metrics_daily d))
    then ret 0%nat d
    else MkResult
           (Some (length (feature_list cfg clk window_days fv (metrics_daily d))))
           (write_features (current_timestamp clk)
              (feature_list cfg clk window_days fv (metrics_daily d)) d)
           [FeaturesCommitted (length (feature_list cfg clk window_days fv (metrics_daily d)))].
Proof.
  unfold build_features. rewrite bind_read.
  destruct (no_rows _); [reflexivity|]. rewrite bind_read. reflexivity.
Qed.

Lemma write_features_frame (now : timestamp) (feats : list Feature) (d : DB) :
  processing_watermarks (write_features now feats d) = processing_watermarks d
  /\ pipelines_raw (write_features now feats d) = pipelines_raw d
  /\ jobs_raw (write_features now feats d) = jobs_raw d
  /\ metrics_daily (write_features now feats d) = metrics_daily d
  /\ kv_config (write_features now feats d) = kv_config d.
Proof.
  unfold write_features. revert d.
  induction feats as [|f feats IH]; intros d; cbn [foldl]; [auto|].
  destruct (IH (set_features (upsert_offline f (features_offline d))
                  (upsert_online now f (features_online d)) d)) as (H1 & H2 & H3 & H4 & H5).
  rewrite H1, H2, H3, H4, H5. auto.
Qed.

Lemma derive_effect (cfg : Config) (clk : Clock) (w : Z) (d : DB) :
  value (derive cfg clk w d) = Some tt
  /\ processing_watermarks (final (derive cfg clk w d)) = processing_watermarks d
  /\ exists m f, events (derive cfg clk w d) = m ++ f
       /\ (m = [] \/ exists n, m = [MetricsCommitted n])
       /\ (f = [] \/ exists n, f = [FeaturesCommitted n]).
Proof.
  unfold derive.
  set (fw := if bool_decide (w = 0) then 0 else 30).
  assert (Hc : exists n d1 m, compute_metrics_daily cfg clk w d = MkResult (Some n) d1 m
             /\ processing_watermarks d1 = processing_watermarks d
             /\ (m = [] \/ exists n, m = [MetricsCommitted n])).
  { rewrite compute_metrics_daily_result. destruct (no_rows _); eauto 10. }
  destruct Hc as (n & d1 & m & Ec & Hw1 & Hm).
  rewrite (bind_value_Some _ _ _ n) by (rewrite Ec; reflexivity). rewrite Ec.
  cbn [value final events]. unfold _get_current_feature_version. rewrite bind_read.
  set (fv := default 1 (kv_config d1 !! "FEATURE_VERSION_CURRENT")).
  assert (Hb : exists n d2 f, build_features cfg clk fw fv d1 = MkResult (Some n) d2 f
             /\ processing_watermarks d2 = processing_watermarks d1
             /\ (f = [] \/ exists n, f = [FeaturesCommitted n])).
  { rewrite build_features_result. destruct (no_rows _); [eauto 10|].
    do 3 eexists. split; [reflexivity|]. split; [apply write_features_frame|eauto]. }
  destruct Hb as (n' & d2 & f & Eb & Hw2 & Hf).
  rewrite (bind_value_Some _ _ _ n') by (rewrite Eb; reflexivity). rewrite Eb.
  cbn [value final events ret]. split; [reflexivity|]. split; [congruence|].
  exists m, f. rewrite app_nil_r. auto.
Qed.

Lemma run_unfold (sch : Schema) (cfg : Config) (clk : Clock) (files : Staged) (w : Z) :
  run sch cfg clk files w
  = bind (ingest sch cfg clk files "pipelines")
      (fun _ => bind (ingest sch cfg clk files "jobs") (fun _ => derive cfg clk w)).
Proof. reflexivity. Qed.

(** ** Watermark monotonicity *)

Lemma wm_le_refl (a : option timestamp) : wm_le a a.
Proof. destruct a; cbn; [lia|exact I]. Qed.

Lemma wm_le_trans (a b c : option timestamp) : wm_le a b -> wm_le b c -> wm_le a c.
Proof. destruct a, b, c; cbn; try tauto; lia. Qed.

Lemma last_ts_upsert (now : timestamp) (s s' : string) (ts : timestamp)
    (t : gmap string (stamped timestamp)) :
  data <$> (upsert_stamped now s ts t !! s')
  = if decide (s = s') then Some ts else data <$> (t !! s').
Proof.
  unfold upsert_stamped. destruct (decide (s = s')) as [->|N].
  - destruct (t !! s'); rewrite lookup_insert_eq; reflexivity.
  - destruct (t !! s); rewrite lookup_insert_ne by exact N; reflexivity.
Qed.

Lemma ingest_monotone (sch : Schema) (cfg : Config) (clk : Clock) (files : Staged)
    (source s : string) (d : DB) :
  wm_le (last_ts_of d s) (last_ts_of (final (ingest sch cfg clk files source d)) s).
Proof.
  destruct (ingest_cases sch cfg clk files source d)
    as [(_ & ->) | [(_ & _ & Hw) | (_ & n & ts & _ & Hlt & Hw)]];
    unfold last_ts_of in *.
  - apply wm_le_refl.
  - rewrite Hw. apply wm_le_refl.
  - rewrite Hw, last_ts_upsert. destruct (decide (source = s)) as [->|N].
    + destruct (data <$> processing_watermarks d !! s); cbn in *; [lia|exact I].
    + apply wm_le_refl.
Qed.

(** A step for one source leaves the watermarks of the other sources. *)
Lemma ingest_other_source (sch : Schema) (cfg : Config) (clk : Clock) (files : Staged)
    (source s : string) (d : DB) :
  source <> s ->
  last_ts_of (final (ingest sch cfg clk files source d)) s = last_ts_of d s.
Proof.
  intros N.
  destruct (ingest_cases sch cfg clk files source d)
    as [(_ & ->) | [(_ & _ & Hw) | (_ & n & ts & _ & Hlt & Hw)]];
    unfold last_ts_of in *; [reflexivity|rewrite Hw; reflexivity|].
  rewrite Hw, last_ts_upsert. destruct (decide (source = s)); [contradiction|reflexivity].
Qed.

Lemma run_monotone (sch : Schema) (cfg : Config) (clk : Clock) (files : Staged) (w : Z)
    (s : string) (d : DB) :
  wm_le (last_ts_of d s) (last_ts_of (final (run sch cfg clk files w d)) s).
Proof.
  rewrite run_unfold.
  pose proof (ingest_monotone sch cfg clk files "pipelines" s d) as H1.
  destruct (bind_final_cases (ingest sch cfg clk files "pipelines")
              (fun _ => bind (ingest sch cfg clk files "jobs") (fun _ => derive cfg clk w)) d)
    as [[_ ->] | ([] & _ & ->)]; [exact H1|].
  pose proof (ingest_monotone sch cfg clk files "jobs" s
                (final (ingest sch cfg clk files "pipelines" d))) as H2.
  destruct (bind_final_cases (ingest sch cfg clk files "jobs") (fun _ => derive cfg clk w)
              (final (ingest sch cfg clk files "pipelines" d)))
    as [[_ ->] | ([] & _ & ->)]; [eapply wm_le_trans; eauto|].
  destruct (derive_effect cfg clk w
              (final (ingest sch cfg clk files "jobs"
                        (final (ingest sch cfg clk files "pipelines" d)))))
    as (_ & Hw & _).
  unfold last_ts_of at 2. rewrite Hw. eapply wm_le_trans; eauto.
Qed.

(** C3.  Over every sequence of runs of the orchestrator, whatever their
    inputs and outcomes, the stored [last_ts] of a source is never earlier
    after the sequence than before it. *)
Theorem watermark_never_decreases (sch : Schema) (cfg : Config)
    (inputs : list RunInput) (d : DB) (source : string) :
  wm_le (last_ts_of d source) (last_ts_of (runs sch cfg inputs d) source).
Proof.
  unfold runs. revert d. induction inputs as [|i inputs IH]; intros d; cbn [foldl].
  - apply wm_le_refl.
  - eapply wm_le_trans; [|apply IH]. apply run_monotone.
Qed.

(** ** Order of the commits of a run *)

Lemma no_raw_commit_spec (source : string) (l : list Event) (n : nat) :
  no_raw_commit source l = true -> RawCommitted source n ∉ l.
Proof.
  induction l as [|e l IH]; intros H Hin; [inversion Hin|].
  apply elem_of_cons in Hin as [<-|Hin].
  - cbn in H. rewrite String.eqb_refl in H. discriminate.
  - apply IH; [|exact Hin]. destruct e; cbn in H; try exact H.
    apply andb_prop in H as [_ H]. exact H.
Qed.

Lemma append_then_watermark_spec (l : list Event) :
  forall (prev : option Event) (pre : list Event) (source : string) (ts : timestamp)
         (post : list Event),
    append_then_watermark prev l = true ->
    l = pre ++ WatermarkSet source ts :: post ->
    commits_raw source (from_option Some prev (last pre)) = true
    /\ forall n, RawCommitted source n ∉ post.
Proof.
  induction l as [|e l IH]; intros prev pre source ts post H E.
  - destruct pre; discriminate.
  - cbn [append_then_watermark] in H. apply andb_prop in H as [He Hl].
    destruct pre as [|e' pre]; cbn in E; injection E as -> ->.
    + cbn. apply andb_prop in He as [Hp Hn]. split; [exact Hp|].
      intros n. apply no_raw_commit_spec. exact Hn.
    + destruct (IH (Some e') pre source ts post Hl eq_refl) as [Hc Hpost].
      split; [|exact Hpost].
      destruct pre as [|e'' pre]; [exact Hc|].
      rewrite last_cons_cons.
      destruct (last (e'' :: pre)) eqn:EL; [exact Hc|].
      apply last_None in EL. discriminate.
Qed.

Lemma commits_raw_last (source : string) (pre : list Event) :
  commits_raw source (from_option Some None (last pre)) = true ->
  exists pre' n, pre = pre' ++ [RawCommitted source n].
Proof.
  destruct (last pre) as [e|] eqn:E; [|discriminate].
  apply last_Some in E as [pre' ->]. cbn.
  destruct e as [s n| | |]; try discriminate.
  intros H. apply String.eqb_eq in H as ->. eauto.
Qed.

Lemma ingest_trace_ok (sch : Schema) (cfg : Config) (clk : Clock) (files : Staged)
    (source : string) (d : DB) :
  ingest_trace files source d (events (ingest sch cfg clk files source d)).
Proof.
  unfold ingest_trace.
  destruct (df_empty (filter_new source (last_ts_of d source) (staged_rows files source)))
    eqn:Hempty.
  - left. rewrite ingest_empty_batch by exact Hempty. reflexivity.
  - destruct (ingest_cases sch cfg clk files source d)
      as [(He & _) | [(_ & (n & He) & _) | (_ & n & ts & He & _)]]; rewrite He; eauto 8.
Qed.

Lemma run_events (sch : Schema) (cfg : Config) (clk : Clock) (files : Staged) (w : Z) (d : DB) :
  exists e1 e2 m f,
    events (run sch cfg clk files w d) = e1 ++ e2 ++ m ++ f
    /\ ingest_trace files "pipelines" d e1
    /\ ingest_trace files "jobs" d e2
    /\ (m = [] \/ exists n, m = [MetricsCommitted n])
    /\ (f = [] \/ exists n, f = [FeaturesCommitted n]).
Proof.
  rewrite run_unfold.
  pose proof (ingest_trace_ok sch cfg clk files "pipelines" d) as H1.
  destruct (value (ingest sch cfg clk files "pipelines" d)) as [[]|] eqn:V1.
  2:{ rewrite bind_value_None by exact V1. cbn [events].
      exists (events (ingest sch cfg clk files "pipelines" d)), [], [], [].
      rewrite !app_nil_r. unfold ingest_trace at 2. auto 6. }
  rewrite (bind_value_Some _ _ _ _ V1). cbn [events].
  set (d1 := final (ingest sch cfg clk files "pipelines" d)) in *.
  assert (H2 : ingest_trace files "jobs" d (events (ingest sch cfg clk files "jobs" d1))).
  { pose proof (ingest_trace_ok sch cfg clk files "jobs" d1) as H2.
    unfold ingest_trace in *. unfold d1 in *.
    rewrite ingest_other_source in H2 by discriminate. exact H2. }
  destruct (value (ingest sch cfg clk files "jobs" d1)) as [[]|] eqn:V2.
  2:{ rewrite bind_value_None by exact V2. cbn [events].
      exists (events (ingest sch cfg clk files "pipelines" d)),
             (events (ingest sch cfg clk files "jobs" d1)), [], [].
      rewrite !app_nil_r. auto 6. }
  rewrite (bind_value_Some _ _ _ _ V2). cbn [events].
  destruct (derive_effect cfg clk w (final (ingest sch cfg clk files "jobs" d1)))
    as (_ & _ & m & f & -> & Hm & Hf).
  exists (events (ingest sch cfg clk files "pipelines" d)),
         (events (ingest sch cfg clk files "jobs" d1)), m, f. auto.
Qed.

(** C6.  In the trace of a run, every watermark write of a source comes
    directly after the commit of that source's raw batch, and no raw commit
    of the source follows it; when the batch loaded for a source is empty,
    the run writes no watermark for it. *)
Theorem watermark_only_after_append (sch : Schema) (cfg : Config) (clk : Clock)
    (files : Staged) (w : Z) (d : DB) :
  (forall pre source ts post,
      events (run sch cfg clk files w d) = pre ++ WatermarkSet source ts :: post ->
      (exists pre' n, pre = pre' ++ [RawCommitted source n])
      /\ forall n, RawCommitted source n ∉ post)
  /\ (forall source,
        df_empty (filter_new source (last_ts_of d source) (staged_rows files source)) = true ->
        forall ts, WatermarkSet source ts ∉ events (run sch cfg clk files w d)).
Proof.
  destruct (run_events sch cfg clk files w d) as (e1 & e2 & m & f & E & H1 & H2 & Hm & Hf).
  split.
  - intros pre source ts post Hsplit.
    assert (Hchk : append_then_watermark None (events (run sch cfg clk files w d)) = true).
    { rewrite E.
      destruct H1 as [->|(_ & n1 & [->|(t1 & ->)])];
      destruct H2 as [->|(_ & n2 & [->|(t2 & ->)])];
      destruct Hm as [->|(nm & ->)]; destruct Hf as [->|(nf & ->)]; reflexivity. }
    destruct (append_then_watermark_spec _ None pre source ts post Hchk Hsplit) as [Hc Hp].
    split; [|exact Hp]. apply commits_raw_last. exact Hc.
  - intros source Hempty ts Hin. rewrite E in Hin.
    destruct H1 as [->|(N1 & n1 & [->|(t1 & ->)])];
    destruct H2 as [->|(N2 & n2 & [->|(t2 & ->)])];
    destruct Hm as [->|(nm & ->)]; destruct Hf as [->|(nf & ->)];
    cbn in Hin;
    repeat (apply elem_of_cons in Hin as [Hin|Hin]; [try discriminate|]);
    try (inversion Hin; fail);
    injection Hin as -> ->; congruence.
Qed.

(** ** The upsert loop and [groupby] *)

Section upsert_all.
Context `{Countable K} {V : Type}.

Lemma upsert_stamped_data (now : timestamp) (k : K) (v : V) (t : gmap K (stamped V)) :
  data <$> upsert_stamped now k v t = <[k := v]> (data <$> t).
Proof. unfold upsert_stamped. destruct (t !! k); rewrite fmap_insert; reflexivity. Qed.

(** The data columns after the loop: the rows of the frame, the later
    of two rows with one key, over the rows that were in the table. *)
Lemma upsert_all_data (now : timestamp) (rows : list (K * V)) (t : gmap K (stamped V)) :
  data <$> upsert_all now rows t = list_to_map (reverse rows) ∪ (data <$> t).
Proof.
  unfold upsert_all. revert t. induction rows as [|[k v] rows IH]; intros t.
  - cbn. rewrite (left_id_L ∅ (∪)). reflexivity.
  - cbn [foldl fst snd]. rewrite IH, upsert_stamped_data, reverse_cons.
    rewrite list_to_map_app. cbn [list_to_map foldr uncurry].
    rewrite <- (assoc_L (∪)). f_equal.
    rewrite insert_union_singleton_l. f_equal.
Qed.

Lemma upsert_all_untouched (now : timestamp) (rows : list (K * V))
    (t : gmap K (stamped V)) (k : K) :
  k ∉ rows.*1 -> upsert_all now rows t !! k = t !! k.
Proof.
  unfold upsert_all. revert t. induction rows as [|[k' v] rows IH]; intros t Hk.
  - reflexivity.
  - cbn [foldl fst snd]. cbn in Hk. apply not_elem_of_cons in Hk as [N Hk].
    rewrite IH by exact Hk. unfold upsert_stamped.
    destruct (t !! k'); rewrite lookup_insert_ne by congruence; reflexivity.
Qed.

Lemma upsert_all_written (now : timestamp) (rows : list (K * V))
    (t : gmap K (stamped V)) (k : K) (v : V) :
  NoDup rows.*1 -> (k, v) ∈ rows -> data <$> (upsert_all now rows t !! k) = Some v.
Proof.
  intros Hnd Hin. rewrite <- lookup_fmap, upsert_all_data.
  apply lookup_union_Some_l. apply elem_of_list_to_map.
  - rewrite fmap_reverse, reverse_Permutation. exact Hnd.
  - apply elem_of_reverse. exact Hin.
Qed.

(** Running the loop again over the same frame leaves the data columns. *)
Lemma upsert_all_twice (now now' : timestamp) (rows : list (K * V))
    (t : gmap K (stamped V)) :
  data <$> upsert_all now' rows (upsert_all now rows t) = data <$> upsert_all now rows t.
Proof.
  rewrite !upsert_all_data. rewrite (assoc_L (∪)). f_equal. apply (idemp_L (∪)).
Qed.
End upsert_all.

Section groupby.
Context {A K : Type} `{EqDecision K} (key : A -> option K).

Lemma groupby_keys (rows : list A) : (groupby key rows).*1 = remove_dups (omap key rows).
Proof.
  unfold groupby. rewrite <- list_fmap_compose.
  induction (remove_dups (omap key rows)) as [|k l IH]; cbn; [reflexivity|].
  f_equal. exact IH.
Qed.

Lemma groupby_NoDup (rows : list A) : NoDup (groupby key rows).*1.
Proof. rewrite groupby_keys. apply NoDup_remove_dups. Qed.

Lemma elem_of_groupby_keys (rows : list A) (k : K) :
  k ∈ (groupby key rows).*1 <-> exists r, r ∈ rows /\ key r = Some k.
Proof. rewrite groupby_keys, elem_of_remove_dups. apply list_elem_of_omap. Qed.

Lemma elem_of_groupby (rows : list A) (k : K) (g : list A) :
  (k, g) ∈ groupby key rows
  <-> k ∈ omap key rows /\ g = filter (fun r => key r = Some k) rows.
Proof.
  unfold groupby. rewrite list_elem_of_fmap. split.
  - intros (k' & E & Hk). injection E as -> ->. rewrite elem_of_remove_dups in Hk.
    split; [exact Hk|reflexivity].
  - intros [Hk ->]. exists k. split; [reflexivity|]. rewrite elem_of_remove_dups. exact Hk.
Qed.
End groupby.

(** ** Daily metrics: window and idempotence *)

Lemma elem_of_select_jobs (cfg : Config) (w : option date * date) (t : gmap Z JobRow)
    (s : JobSample) :
  s ∈ select_jobs cfg w t
  <-> exists i r, t !! i = Some r /\ j_project_id r = PROJECT_ID cfg
        /\ created_in w (j_created_at r) = true /\ job_sample r = Some s.
Proof.
  unfold select_jobs. rewrite merge_sort_Permutation, list_elem_of_omap. split.
  - intros (r & Hr & Hs). apply list_elem_of_fmap in Hr as ([i r'] & -> & Hir).
    apply elem_of_map_to_list in Hir. cbn in Hs.
    destruct (bool_decide (j_project_id r' = PROJECT_ID cfg)) eqn:Ep; [|discriminate].
    destruct (created_in w (j_created_at r')) eqn:Ec; [|discriminate].
    apply bool_decide_eq_true_1 in Ep. exists i, r'. auto.
  - intros (i & r & Hir & Hp & Hc & Hs). exists r. split.
    + apply list_elem_of_fmap. exists (i, r). split; [reflexivity|].
      apply elem_of_map_to_list. exact Hir.
    + rewrite bool_decide_eq_true_2 by exact Hp. rewrite Hc. exact Hs.
Qed.

Lemma daily_metrics_keys (cfg : Config) (clk : Clock) (window_days : Z) (t : gmap Z JobRow) :
  (daily_metrics cfg clk window_days t).*1
  = (groupby sample_key (select_jobs cfg (window clk window_days) t)).*1.
Proof.
  unfold daily_metrics. rewrite <- list_fmap_compose. reflexivity.
Qed.

Lemma daily_metrics_NoDup (cfg : Config) (clk : Clock) (window_days : Z) (t : gmap Z JobRow) :
  NoDup (daily_metrics cfg clk window_days t).*1.
Proof. rewrite daily_metrics_keys. apply groupby_NoDup. Qed.

(** The keys of the frame: the project's jobs that have a name and were
    created inside the window. *)
Lemma elem_of_daily_metrics_keys (cfg : Config) (clk : Clock) (window_days : Z)
    (t : gmap Z JobRow) (p : Z) (n : string) (day : date) :
  (p, n, day) ∈ (daily_metrics cfg clk window_days t).*1
  <-> p = PROJECT_ID cfg
      /\ exists i r ts, t !! i = Some r /\ j_project_id r = PROJECT_ID cfg
           /\ j_name r = Some n /\ j_created_at r = Some ts /\ DATE ts = day
           /\ created_in (window clk window_days) (Some ts) = true.
Proof.
  rewrite daily_metrics_keys, elem_of_groupby_keys. split.
  - intros (s & Hs & Hk). apply elem_of_select_jobs in Hs as (i & r & Hir & Hp & Hc & Hs).
    unfold job_sample in Hs. destruct (j_created_at r) as [ts|] eqn:Ets; [|discriminate].
    cbn in Hs. injection Hs as <-. unfold sample_key in Hk. cbn in Hk.
    destruct (j_name r) as [n'|] eqn:En; [|discriminate]. cbn in Hk.
    injection Hk as <- <- <-. split; [exact Hp|]. exists i, r, ts. auto 10.
  - intros (-> & i & r & ts & Hir & Hp & Hn & Hts & Hday & Hc).
    exists {| s_project_id := j_project_id r; s_job_name := j_name r; s_day := DATE ts;
              s_created_at := ts; s_status := j_status r; s_duration := j_duration r;
              s_failure_reason := j_failure_reason r; s_retry_count := j_retry_count r |}.
    split.
    + apply elem_of_select_jobs. exists i, r. rewrite Hts.
      repeat (split; [assumption|]). unfold job_sample. rewrite Hts. reflexivity.
    + unfold sample_key. cbn. rewrite Hn. cbn. congruence.
Qed.

Lemma created_in_days (clk : Clock) (window_days : Z) (ts : timestamp) :
  window_days <> 0 ->
  created_in (window clk window_days) (Some ts) = true
  <-> today clk - window_days <= DATE ts <= today clk.
Proof.
  intros N. unfold window. rewrite bool_decide_eq_false_2 by exact N.
  unfold created_in. cbn [fst snd]. rewrite andb_true_iff, !bool_decide_eq_true.
  unfold midnight, DATE, usec_per_day. Z.div_mod_to_equations. lia.
Qed.

Lemma created_in_all (clk : Clock) (ts : timestamp) :
  DATE ts <= today clk -> created_in (window clk 0) (Some ts) = true.
Proof.
  intros H. unfold window. rewrite bool_decide_eq_true_2 by reflexivity.
  unfold created_in. cbn [fst snd]. rewrite bool_decide_eq_true.
  unfold midnight, DATE, usec_per_day in *. Z.div_mod_to_equations. lia.
Qed.

Lemma daily_metrics_no_rows (cfg : Config) (clk : Clock) (window_days : Z) (t : gmap Z JobRow) :
  no_rows (select_jobs cfg (window clk window_days) t) = true ->
  daily_metrics cfg clk window_days t = [].
Proof.
  unfold daily_metrics. destruct (select_jobs _ _ _); [reflexivity|discriminate].
Qed.

Lemma compute_metrics_daily_table (cfg : Config) (clk : Clock) (window_days : Z) (d : DB) :
  metrics_daily (final (compute_metrics_daily cfg clk window_days d))
  = upsert_all (current_timestamp clk) (daily_metrics cfg clk window_days (jobs_raw d))
               (metrics_daily d).
Proof.
  rewrite compute_metrics_daily_result.
  destruct (no_rows _) eqn:E; [|reflexivity].
  rewrite daily_metrics_no_rows by exact E. reflexivity.
Qed.

Lemma compute_metrics_daily_raw (cfg : Config) (clk : Clock) (window_days : Z) (d : DB) :
  jobs_raw (final (compute_metrics_daily cfg clk window_days d)) = jobs_raw d.
Proof. rewrite compute_metrics_daily_result. destruct (no_rows _); reflexivity. Qed.

Lemma day_jobs_group (cfg : Config) (w : option date * date) (n : string) (day : date)
    (l : list JobRow) :
  (forall r ts, r ∈ l -> j_project_id r = PROJECT_ID cfg -> j_created_at r = Some ts ->
     DATE ts = day -> created_in w (Some ts) = true) ->
  filter (fun s => sample_key s = Some (PROJECT_ID cfg, n, day))
    (omap (fun r => if bool_decide (j_project_id r = PROJECT_ID cfg)
                       && created_in w (j_created_at r)
                    then job_sample r else None) l)
  = omap (day_job cfg n day) l.
Proof.
  induction l as [|r l IH]; intros Hin; [reflexivity|].
  assert (IH' : filter (fun s => sample_key s = Some (PROJECT_ID cfg, n, day))
                  (omap (fun r => if bool_decide (j_project_id r = PROJECT_ID cfg)
                                     && created_in w (j_created_at r)
                                  then job_sample r else None) l)
                = omap (day_job cfg n day) l).
  { apply IH. intros r' ts Hr'. apply Hin. apply list_elem_of_further. exact Hr'. }
  pose proof (Hin r) as Hr. cbn [omap list_omap]. unfold day_job at 1, job_sample.
  destruct (j_created_at r) as [ts|] eqn:Ets; cbn [mbind option_bind s_project_id s_day].
  2:{ rewrite andb_false_r. exact IH'. }
  destruct (decide (j_project_id r = PROJECT_ID cfg)) as [Hp|Np].
  2:{ rewrite bool_decide_eq_false_2 by exact Np. cbn [andb].
      rewrite bool_decide_eq_false_2 by tauto. exact IH'. }
  rewrite (bool_decide_eq_true_2 _ Hp). cbn [andb].
  destruct (decide (j_name r = Some n /\ DATE ts = day)) as [[Hn Hd]|N].
  - rewrite (Hr ts (list_elem_of_here _ _) Hp eq_refl Hd).
    rewrite bool_decide_eq_true_2 by auto.
    rewrite filter_cons, decide_True; [f_equal; exact IH'|].
    unfold sample_key. cbn [s_job_name s_project_id s_day]. rewrite Hn. cbn.
    congruence.
  - rewrite bool_decide_eq_false_2 by tauto.
    destruct (created_in w (Some ts)); [|exact IH'].
    rewrite filter_cons, decide_False; [exact IH'|].
    unfold sample_key. cbn [s_job_name s_project_id s_day].
    destruct (j_name r) as [n'|] eqn:En; cbn; [|discriminate].
    intros E. injection E as _ E1 E2. apply N. split; congruence.
Qed.

(** The row of the frame for a key with a job in the window: the
    aggregate of all the stored jobs of that key. *)
Lemma daily_metrics_row (cfg : Config) (clk : Clock) (window_days : Z)
    (t : gmap Z JobRow) (n : string) (day : date) :
  (forall i r ts, t !! i = Some r -> j_project_id r = PROJECT_ID cfg ->
     j_created_at r = Some ts -> DATE ts = day ->
     created_in (window clk window_days) (Some ts) = true) ->
  (PROJECT_ID cfg, n, day) ∈ (daily_metrics cfg clk window_days t).*1 ->
  exists g, g ≡ₚ day_jobs cfg t n day
    /\ ((PROJECT_ID cfg, n, day), aggregate g) ∈ daily_metrics cfg clk window_days t.
Proof.
  intros Hwin Hk.
  exists (filter (fun s => sample_key s = Some (PROJECT_ID cfg, n, day))
            (select_jobs cfg (window clk window_days) t)).
  split.
  - unfold select_jobs, day_jobs. rewrite merge_sort_Permutation.
    rewrite day_jobs_group; [reflexivity|].
    intros r ts Hr. apply list_elem_of_fmap in Hr as ([i r'] & -> & Hir).
    apply elem_of_map_to_list in Hir. cbn. eauto.
  - unfold daily_metrics. apply list_elem_of_fmap.
    exists ((PROJECT_ID cfg, n, day),
            filter (fun s => sample_key s = Some (PROJECT_ID cfg, n, day))
              (select_jobs cfg (window clk window_days) t)).
    split; [reflexivity|]. apply elem_of_groupby. split; [|reflexivity].
    rewrite daily_metrics_keys, groupby_keys, elem_of_remove_dups in Hk. exact Hk.
Qed.

(** What [compute_metrics_daily] leaves under a key: the aggregate of the
    stored jobs of the key when one of them is in the window, and the row
    that was there otherwise. *)
Lemma compute_metrics_daily_key (cfg : Config) (clk : Clock) (window_days : Z) (d : DB)
    (p : Z) (n : string) (day : date) :
  (forall i r ts, jobs_raw d !! i = Some r -> j_project_id r = PROJECT_ID cfg ->
     j_created_at r = Some ts -> DATE ts = day ->
     created_in (window clk window_days) (Some ts) = true) ->
  (job_on cfg (jobs_raw d) p n day ->
   exists g, g ≡ₚ day_jobs cfg (jobs_raw d) n day
     /\ data <$> (metrics_daily (final (compute_metrics_daily cfg clk window_days d))
                  !! (p, n, day))
        = Some (aggregate g))
  /\ (~ job_on cfg (jobs_raw d) p n day ->
      metrics_daily (final (compute_metrics_daily cfg clk window_days d)) !! (p, n, day)
      = metrics_daily d !! (p, n, day)).
Proof.
  intros Hwin. rewrite compute_metrics_daily_table. split.
  - intros (-> & i & r & ts & Hir & Hp & Hn & Hts & Hday).
    assert (Hk : (PROJECT_ID cfg, n, day)
                 ∈ (daily_metrics cfg clk window_days (jobs_raw d)).*1).
    { apply elem_of_daily_metrics_keys. split; [reflexivity|].
      exists i, r, ts. repeat (split; [assumption|]). eapply Hwin; eauto. }
    destruct (daily_metrics_row cfg clk window_days (jobs_raw d) n day Hwin Hk)
      as (g & Hg & Hin).
    exists g. split; [exact Hg|].
    apply upsert_all_written; [apply daily_metrics_NoDup|exact Hin].
  - intros Hno. apply upsert_all_untouched. intros Hk.
    apply elem_of_daily_metrics_keys in Hk
      as (-> & i & r & ts & Hir & Hp & Hn & Hts & Hday & _).
    apply Hno. split; [reflexivity|]. eauto 10.
Qed.

(** C4.  With raw jobs dated on the days D-5..D (D the current day):
    after [compute_metrics_daily(3)] a key of one of the days D-3..D with a
    job holds the aggregate of all the stored jobs of the key, and every
    other key holds the row it had; after [compute_metrics_daily(0)] every
    key with a job, on any of the days D-5..D, holds the aggregate of its
    jobs, and the keys without a job hold the row they had. *)
Theorem window_correctness (cfg : Config) (clk : Clock) (d : DB)
    (p : Z) (n : string) (day : date) :
  (forall i r, jobs_raw d !! i = Some r -> j_project_id r = PROJECT_ID cfg ->
     exists ts, j_created_at r = Some ts /\ today clk - 5 <= DATE ts <= today clk) ->
  (today clk - 3 <= day <= today clk -> job_on cfg (jobs_raw d) p n day ->
   exists g, g ≡ₚ day_jobs cfg (jobs_raw d) n day
     /\ data <$> (metrics_daily (final (compute_metrics_daily cfg clk 3 d)) !! (p, n, day))
        = Some (aggregate g))
  /\ (~ (today clk - 3 <= day <= today clk /\ job_on cfg (jobs_raw d) p n day) ->
      metrics_daily (final (compute_metrics_daily cfg clk 3 d)) !! (p, n, day)
      = metrics_daily d !! (p, n, day))
  /\ (job_on cfg (jobs_raw d) p n day ->
      today clk - 5 <= day <= today clk
      /\ exists g, g ≡ₚ day_jobs cfg (jobs_raw d) n day
           /\ data <$> (metrics_daily (final (compute_metrics_daily cfg clk 0 d))
                        !! (p, n, day))
              = Some (aggregate g))
  /\ (~ job_on cfg (jobs_raw d) p n day ->
      metrics_daily (final (compute_metrics_daily cfg clk 0 d)) !! (p, n, day)
      = metrics_daily d !! (p, n, day)).
Proof.
  intros Hdays.
  assert (H0 : forall i r ts, jobs_raw d !! i = Some r -> j_project_id r = PROJECT_ID cfg ->
                 j_created_at r = Some ts -> DATE ts = day ->
                 created_in (window clk 0) (Some ts) = true).
  { intros i r ts Hir Hp Hts _. apply created_in_all.
    destruct (Hdays i r Hir Hp) as (ts' & Hts' & Hrange).
    rewrite Hts in Hts'. injection Hts' as <-. lia. }
  destruct (compute_metrics_daily_key cfg clk 0 d p n day H0) as [Hin0 Hout0].
  split; [|split; [|split]].
  - intros Hwin Hjob.
    assert (H3 : forall i r ts, jobs_raw d !! i = Some r ->
                   j_project_id r = PROJECT_ID cfg -> j_created_at r = Some ts ->
                   DATE ts = day -> created_in (window clk 3) (Some ts) = true).
    { intros i r ts _ _ _ Hday. apply created_in_days; [discriminate|]. lia. }
    apply (compute_metrics_daily_key cfg clk 3 d p n day H3). exact Hjob.
  - intros Hno. rewrite compute_metrics_daily_table. apply upsert_all_untouched.
    intros Hk. apply elem_of_daily_metrics_keys in Hk
      as (-> & i & r & ts & Hir & Hp & Hn & Hts & Hday & Hc).
    apply created_in_days in Hc; [|discriminate].
    apply Hno. split; [lia|]. split; [reflexivity|]. eauto 10.
  - intros Hjob. split; [|apply Hin0; exact Hjob].
    destruct Hjob as (_ & i & r & ts & Hir & Hp & _ & Hts & Hday).
    destruct (Hdays i r Hir Hp) as (ts' & Hts' & Hrange).
    rewrite Hts in Hts'. injection Hts' as <-. lia.
  - exact Hout0.
Qed.

(** C5, as the code has it.  A second [compute_metrics_daily] over the same
    window, on the same day and with the raw tables as the first run left
    them, leaves in every row of metrics_daily the derived columns the
    first run wrote; the [updated_at] of a row is not among them. *)
Theorem aggregation_idempotent (cfg : Config) (day : date) (now1 now2 : timestamp)
    (w : Z) (d : DB) (k : Z * string * Z) :
  data <$> (metrics_daily
              (final (compute_metrics_daily cfg {| today := day; current_timestamp := now2 |} w
                 (final (compute_metrics_daily cfg {| today := day; current_timestamp := now1 |} w d))))
            !! k)
  = data <$> (metrics_daily
                (final (compute_metrics_daily cfg {| today := day; current_timestamp := now1 |} w d))
              !! k).
Proof.
  rewrite <- !lookup_fmap. f_equal.
  rewrite (compute_metrics_daily_table cfg {| today := day; current_timestamp := now2 |}).
  rewrite compute_metrics_daily_raw.
  rewrite (compute_metrics_daily_table cfg {| today := day; current_timestamp := now1 |}).
  cbn [current_timestamp].
  change (daily_metrics cfg {| today := day; current_timestamp := now2 |} w (jobs_raw d))
    with (daily_metrics cfg {| today := day; current_timestamp := now1 |} w (jobs_raw d)).
  apply upsert_all_twice.
Qed.

(** ** The duplicate-job scenario *)

Lemma select_jobs_singleton (cfg : Config) (w : option date * date) (i : Z) (r : JobRow)
    (s : JobSample) :
  j_project_id r = PROJECT_ID cfg -> created_in w (j_created_at r) = true ->
  job_sample r = Some s ->
  select_jobs cfg w {[i := r]} = [s].
Proof.
  intros Hp Hc Hs. unfold select_jobs. rewrite map_to_list_singleton. cbn [map snd omap list_omap].
  rewrite bool_decide_eq_true_2 by exact Hp. rewrite Hc. cbn [andb]. rewrite Hs.
  reflexivity.
Qed.

Lemma frame_cell_single {A} (ty : dtype) (c : cell A) : frame_cell ty [c] c = c.
Proof. destruct ty, c; reflexivity. Qed.

(** The frame of one record has that record as its row. *)
Lemma frame_row_single (e : RawEvent) : frame_row [e] e = e.
Proof.
  unfold frame_row. cbn [map]. rewrite !frame_cell_single. destruct e; reflexivity.
Qed.

Lemma frame_single_id (e : RawEvent) (i : Z) :
  ev_id e = Val i ->
  df_empty (frame [e]) = false /\ df_rows (frame [e]) = [e].
Proof.
  intros Hi. unfold df_empty, frame. cbn [has_columns df_rows map existsb].
  rewrite frame_row_single. unfold has_keys. rewrite Hi. auto.
Qed.

Lemma append_first_job (sch : Schema) (cfg : Config) (ev : RawEvent) (i : Z) :
  ev_id ev = Val i -> jobs_accept sch cfg ev = true ->
  jobs_raw (final (append_raw_to_db sch cfg "jobs" (frame [ev]) empty_db))
  = {[i := job_row cfg ev]}.
Proof.
  intros Hi Hc. destruct (frame_single_id ev i Hi) as [Hne Hrows].
  unfold append_raw_to_db, transact. rewrite Hne, Hrows. cbn.
  unfold insert_or_ignore. rewrite Hi, Hc. cbn. rewrite lookup_empty. cbn.
  apply insert_empty.
Qed.

Lemma append_duplicate_job (sch : Schema) (cfg : Config) (dup : RawEvent) (i : Z)
    (r : JobRow) (d : DB) :
  ev_id dup = Val i -> jobs_raw d = {[i := r]} ->
  jobs_raw (final (append_raw_to_db sch cfg "jobs" (frame [dup]) d)) = {[i := r]}.
Proof.
  intros Hi Hd. destruct (frame_single_id dup i Hi) as [Hne Hrows].
  unfold append_raw_to_db, transact. rewrite Hne, Hrows. cbn.
  unfold insert_or_ignore. rewrite Hi, Hd. cbn.
  destruct (jobs_accept sch cfg dup); cbn; [|exact Hd].
  rewrite lookup_singleton_eq. reflexivity.
Qed.

(** C9.  After the job [{id:1, name:"test", status:"failed", duration:120,
    created_at:"2025-01-01"}] and then any record with id 1 are appended to
    an empty store, jobs_raw holds the row of the first record under id 1 and
    nothing else, and [compute_metrics_daily(0)], run on that day or later,
    writes builds = 1 and fails = 1 for "test" on 2025-01-01. *)
Theorem duplicate_job_scenario (sch : Schema) (cfg : Config) (clk : Clock) (dup : RawEvent) :
  jobs_check sch (job_row cfg job_test_failed) = true ->
  ev_id dup = Val 1 ->
  day_2025_01_01 <= today clk ->
  jobs_raw (final (append_raw_to_db sch cfg "jobs" (frame [dup])
             (final (append_raw_to_db sch cfg "jobs" (frame [job_test_failed]) empty_db))))
  = {[1 := job_row cfg job_test_failed]}
  /\ (fun m => (builds (data m), fails (data m)))
       <$> (metrics_daily
              (final (compute_metrics_daily cfg clk 0
                (final (append_raw_to_db sch cfg "jobs" (frame [dup])
                  (final (append_raw_to_db sch cfg "jobs" (frame [job_test_failed])
                            empty_db))))))
            !! (PROJECT_ID cfg, "test", day_2025_01_01))
     = Some (1%nat, 1%nat).
Proof.
  intros Hchk Hid Hday.
  assert (Hraw : jobs_raw (final (append_raw_to_db sch cfg "jobs" (frame [dup])
             (final (append_raw_to_db sch cfg "jobs" (frame [job_test_failed]) empty_db))))
            = {[1 := job_row cfg job_test_failed]}).
  { apply append_duplicate_job; [exact Hid|].
    apply append_first_job; [reflexivity|].
    unfold jobs_accept. rewrite Hchk. reflexivity. }
  split; [exact Hraw|].
  rewrite compute_metrics_daily_table, Hraw.
  set (s := {| s_project_id := PROJECT_ID cfg; s_job_name := Some "test";
               s_day := day_2025_01_01; s_created_at := midnight day_2025_01_01;
               s_status := Some "failed"; s_duration := Some 120%Q;
               s_failure_reason := None; s_retry_count := 0 |}).
  assert (Hsel : select_jobs cfg (window clk 0) {[1 := job_row cfg job_test_failed]} = [s]).
  { apply select_jobs_singleton; [reflexivity| |reflexivity].
    apply created_in_all. exact Hday. }
  assert (Hin : ((PROJECT_ID cfg, "test", day_2025_01_01), aggregate [s])
                  ∈ daily_metrics cfg clk 0 {[1 := job_row cfg job_test_failed]}).
  { unfold daily_metrics. rewrite Hsel. apply list_elem_of_fmap.
    exists ((PROJECT_ID cfg, "test", day_2025_01_01), [s]). split; [reflexivity|].
    apply elem_of_groupby. split; [apply list_elem_of_here|].
    cbn. rewrite decide_True by reflexivity. reflexivity. }
  pose proof (upsert_all_written (current_timestamp clk) _ (metrics_daily
       (final (append_raw_to_db sch cfg "jobs" (frame [dup])
          (final (append_raw_to_db sch cfg "jobs" (frame [job_test_failed]) empty_db)))))
       _ _ (daily_metrics_NoDup cfg clk 0 _) Hin) as Hw.
  destruct (upsert_all _ _ _ !! _) as [m|]; [|discriminate].
  cbn in Hw. injection Hw as Hw. cbn. rewrite Hw. reflexivity.
Qed.

(** ** Features: groups, keys and what is written *)

Lemma entity_key_inj (p : Z) (n n' : string) : entity_key p n = entity_key p n' -> n = n'.
Proof.
  unfold entity_key. intros H.
  apply (inj (String.app (pretty p))) in H. apply (inj (String.app ":")) in H. exact H.
Qed.

Lemma elem_of_select_metrics (cfg : Config) (w : option date * date)
    (t : gmap (Z * string * Z) (stamped DailyMetric)) (s : MetricSample) :
  s ∈ select_metrics cfg w t
  <-> m_project_id s = PROJECT_ID cfg /\ day_in w (m_day s) = true
      /\ exists row, t !! (m_project_id s, m_job_name s, m_day s) = Some row
           /\ s = metric_sample ((m_project_id s, m_job_name s, m_day s), row).
Proof.
  unfold select_metrics. rewrite merge_sort_Permutation, list_elem_of_filter, list_elem_of_fmap.
  split.
  - intros ((Hp & Hd) & [[[p n] d] row] & -> & Hin). apply elem_of_map_to_list in Hin.
    cbn in *. eauto 6.
  - intros (Hp & Hd & row & Hrow & Hs). split; [auto|].
    exists ((m_project_id s, m_job_name s, m_day s), row). split; [exact Hs|].
    apply elem_of_map_to_list. exact Hrow.
Qed.

(** A column of the group of an entity is, up to the order of the days,
    the column of its rows in the window. *)
Lemma entity_group_column {X} (f : MetricSample -> X) (f' : DailyMetric -> X)
    (cfg : Config) (w : option date * date)
    (t : gmap (Z * string * Z) (stamped DailyMetric)) (n : string) :
  (forall kv, f (metric_sample kv) = f' (data (snd kv))) ->
  f <$> entity_group cfg w t n ≡ₚ f' <$> window_rows cfg w t n.
Proof.
  intros Hf. unfold entity_group, select_metrics, window_rows.
  rewrite merge_sort_Permutation.
  induction (map_to_list t) as [|[[[p n'] d] row] l IH]; [reflexivity|].
  cbn [map omap list_omap fst snd].
  rewrite (filter_cons (fun s => m_project_id s = PROJECT_ID cfg /\ day_in w (m_day s) = true)).
  destruct (decide (m_project_id (metric_sample (p, n', d, row)) = PROJECT_ID cfg
                    /\ day_in w (m_day (metric_sample (p, n', d, row))) = true))
    as [[Hp Hd]|N].
  - cbn in Hp, Hd.
    rewrite (filter_cons (fun s => entity s = Some (PROJECT_ID cfg, n))).
    destruct (decide (entity (metric_sample (p, n', d, row)) = Some (PROJECT_ID cfg, n)))
      as [E|NE].
    + cbn in E. injection E as _ ->.
      rewrite bool_decide_eq_true_2 by auto. rewrite Hd. cbn [andb].
      rewrite !fmap_cons. rewrite (Hf (p, n, d, row)). cbn [snd].
      apply Permutation_skip. exact IH.
    + rewrite bool_decide_eq_false_2.
      * cbn [andb]. exact IH.
      * intros [_ ->]. apply NE. cbn. rewrite Hp. reflexivity.
  - destruct (bool_decide (p = PROJECT_ID cfg /\ n' = n)) eqn:E1;
      [|cbn [andb]; exact IH].
    destruct (day_in w d) eqn:E2; [|cbn [andb]; exact IH].
    apply bool_decide_eq_true_1 in E1 as [-> ->]. exfalso. apply N. cbn. auto.
Qed.

Lemma write_features_tables (now : timestamp) (feats : list Feature) (d : DB) :
  features_offline (write_features now feats d)
  = foldl (fun acc kv => <[fst kv := snd kv]> acc) (features_offline d) (offline_rows feats)
  /\ features_online (write_features now feats d)
     = upsert_all now (online_rows feats) (features_online d).
Proof.
  unfold write_features, upsert_all. revert d.
  induction feats as [|f feats IH]; intros d; cbn [foldl offline_rows online_rows map];
    [auto|].
  destruct (IH (set_features (upsert_offline f (features_offline d))
                  (upsert_online now f (features_online d)) d)) as [H1 H2].
  split; [exact H1|exact H2].
Qed.

Section foldl_insert.
Context `{Countable K} {V : Type}.

Lemma foldl_insert_untouched (rows : list (K * V)) (t : gmap K V) (k : K) :
k ∉ rows.*1 -> foldl (fun acc kv => <[fst kv := snd kv]> acc) t rows !! k = t !! k.
Proof.
revert t. induction rows as [|[k' v] rows IH]; intros t Hk; [reflexivity|].
cbn [foldl fst snd]. cbn in Hk. apply not_elem_of_cons in Hk as [N Hk].
rewrite IH by exact Hk. apply lookup_insert_ne. congruence.
Qed.

Lemma foldl_insert_written (rows : list (K * V)) (t : gmap K V) (k : K) (v : V) :
NoDup rows.*1 -> (k, v) ∈ rows ->
foldl (fun acc kv => <[fst kv := snd kv]> acc) t rows !! k = Some v.
Proof.
revert t. induction rows as [|[k' v'] rows IH]; intros t Hnd Hin; [inversion Hin|].
cbn [foldl fst snd]. cbn in Hnd. apply NoDup_cons in Hnd as [Hk' Hnd].
apply elem_of_cons in Hin as [E|Hin].
- injection E as <- <-. rewrite foldl_insert_untouched by exact Hk'.
  apply lookup_insert_eq.
- apply IH; assumption.
Qed.
End foldl_insert.

Lemma NoDup_fmap_eq {A B} (f : A -> B) (l : list A) (x y : A) :
  NoDup (f <$> l) -> x ∈ l -> y ∈ l -> f x = f y -> x = y.
Proof.
  induction l as [|a l IH]; intros Hnd Hx Hy E; [inversion Hx|].
  rewrite fmap_cons in Hnd. apply NoDup_cons in Hnd as [Ha Hnd].
  apply elem_of_cons in Hx as [->|Hx]; apply elem_of_cons in Hy as [->|Hy].
  - reflexivity.
  - exfalso. apply Ha. rewrite E. apply list_elem_of_fmap_2. exact Hy.
  - exfalso. apply Ha. rewrite <- E. apply list_elem_of_fmap_2. exact Hx.
  - apply IH; assumption.
Qed.

Lemma groupby_entity_project (cfg : Config) (w : option date * date)
    (t : gmap (Z * string * Z) (stamped DailyMetric)) (kg : (Z * string) * list MetricSample) :
  kg ∈ groupby entity (select_metrics cfg w t) -> fst (fst kg) = PROJECT_ID cfg.
Proof.
  destruct kg as [[p n] g]. intros Hin. apply elem_of_groupby in Hin as [Hk _].
  apply list_elem_of_omap in Hk as (s & Hs & Hk).
  apply elem_of_select_metrics in Hs as (Hp & _). unfold entity in Hk.
  injection Hk as <- _. exact Hp.
Qed.

Lemma feature_list_NoDup (cfg : Config) (clk : Clock) (w fv : Z)
    (t : gmap (Z * string * Z) (stamped DailyMetric)) :
  NoDup (f_entity_key <$> feature_list cfg clk w fv t).
Proof.
  unfold feature_list. rewrite <- list_fmap_compose.
  apply NoDup_fmap_2_strong.
  - intros [[p n] g] [[p' n'] g'] Hin Hin' E. cbn in E.
    pose proof (groupby_entity_project _ _ _ _ Hin) as Hp.
    pose proof (groupby_entity_project _ _ _ _ Hin') as Hp'. cbn in Hp, Hp'. subst p p'.
    apply entity_key_inj in E as ->.
    apply elem_of_groupby in Hin as [_ ->]. apply elem_of_groupby in Hin' as [_ ->].
    reflexivity.
  - apply NoDup_fmap_1 with (f := fst). apply groupby_NoDup.
Qed.

Lemma elem_of_feature_list (cfg : Config) (clk : Clock) (w fv : Z)
    (t : gmap (Z * string * Z) (stamped DailyMetric)) (n : string) (day : date)
    (row : stamped DailyMetric) :
  t !! (PROJECT_ID cfg, n, day) = Some row -> day_in (window clk w) day = true ->
  {| f_entity_key := entity_key (PROJECT_ID cfg) n;
     f_feature_version := fv;
     f_payload := payload_of (entity_group cfg (window clk w) t n);
     f_event_time := midnight (today clk) |} ∈ feature_list cfg clk w fv t.
Proof.
  intros Hrow Hday. unfold feature_list. apply list_elem_of_fmap.
  exists ((PROJECT_ID cfg, n), entity_group cfg (window clk w) t n). split; [reflexivity|].
  apply elem_of_groupby. split; [|reflexivity].
  apply list_elem_of_omap. exists (metric_sample ((PROJECT_ID cfg, n, day), row)).
  split; [|reflexivity]. apply elem_of_select_metrics. cbn. eauto.
Qed.

Lemma select_metrics_some (cfg : Config) (w : option date * date)
    (t : gmap (Z * string * Z) (stamped DailyMetric)) (n : string) (day : date)
    (row : stamped DailyMetric) :
  t !! (PROJECT_ID cfg, n, day) = Some row -> day_in w day = true ->
  no_rows (select_metrics cfg w t) = false.
Proof.
  intros Hrow Hday.
  assert (Hin : metric_sample ((PROJECT_ID cfg, n, day), row) ∈ select_metrics cfg w t).
  { apply elem_of_select_metrics. cbn. eauto. }
  destruct (select_metrics cfg w t); [inversion Hin|reflexivity].
Qed.

(** What [build_features] leaves in the two stores for an entity that has
    a daily row in the window. *)
Lemma build_features_writes (cfg : Config) (clk : Clock) (w fv : Z) (d : DB)
    (n : string) (day : date) (row : stamped DailyMetric) :
  metrics_daily d !! (PROJECT_ID cfg, n, day) = Some row ->
  day_in (window clk w) day = true ->
  features_offline (final (build_features cfg clk w fv d)) !! (entity_key (PROJECT_ID cfg) n, fv)
  = Some {| off_payload := payload_of (entity_group cfg (window clk w) (metrics_daily d) n);
            off_event_time := midnight (today clk) |}
  /\ data <$> (features_online (final (build_features cfg clk w fv d))
               !! entity_key (PROJECT_ID cfg) n)
     = Some {| on_feature_version := fv;
               on_payload := payload_of (entity_group cfg (window clk w) (metrics_daily d) n) |}.
Proof.
  intros Hrow Hday. rewrite build_features_result.
  rewrite (select_metrics_some _ _ _ _ _ _ Hrow Hday). cbn [final].
  destruct (write_features_tables (current_timestamp clk)
              (feature_list cfg clk w fv (metrics_daily d)) d) as [-> ->].
  pose proof (elem_of_feature_list cfg clk w fv _ _ _ _ Hrow Hday) as Hin.
  pose proof (feature_list_NoDup cfg clk w fv (metrics_daily d)) as Hnd.
  split.
  - apply foldl_insert_written.
    + unfold offline_rows. rewrite <- list_fmap_compose.
      apply NoDup_fmap_2_strong with (f := fun feat => (f_entity_key feat, f_feature_version feat)).
      * intros x y Hx Hy E. injection E as E _.
        eapply (NoDup_fmap_eq f_entity_key); eauto.
      * eapply NoDup_fmap_1. exact Hnd.
    + unfold offline_rows. apply list_elem_of_fmap. eexists. split; [|exact Hin]. reflexivity.
  - apply upsert_all_written.
    + unfold online_rows. rewrite <- list_fmap_compose. exact Hnd.
    + unfold online_rows. apply list_elem_of_fmap. eexists. split; [|exact Hin]. reflexivity.
Qed.

(** ** Offline rows, fail rate and dur_total *)

Lemma build_features_metrics (cfg : Config) (clk : Clock) (w fv : Z) (d : DB) :
  metrics_daily (final (build_features cfg clk w fv d)) = metrics_daily d.
Proof.
  rewrite build_features_result. destruct (no_rows _); [reflexivity|].
  apply write_features_frame.
Qed.

Lemma sum_nat_Permutation (l l' : list nat) : l ≡ₚ l' -> sum_nat l = sum_nat l'.
Proof. unfold sum_nat. induction 1; cbn; lia. Qed.

Lemma Qsum_Permutation (l l' : list Q) : l ≡ₚ l' -> (Qsum l == Qsum l')%Q.
Proof.
  unfold Qsum. induction 1 as [|x l l' _ IH|x y l|l l' l'' _ IH1 _ IH2]; cbn [foldr].
  - reflexivity.
  - rewrite IH. reflexivity.
  - ring.
  - rewrite IH1. exact IH2.
Qed.

Lemma mean_or_zero_Permutation (l l' : list Q) :
  l ≡ₚ l' -> (mean_or_zero l == mean_or_zero l')%Q.
Proof.
  intros HP. unfold mean_or_zero.
  destruct l as [|x l]; destruct l' as [|x' l'].
  - reflexivity.
  - apply Permutation_nil_l in HP. discriminate.
  - apply Permutation_nil_r in HP. discriminate.
  - rewrite (Qsum_Permutation _ _ HP). rewrite (Permutation_length HP). reflexivity.
Qed.

Lemma series_mean_default (xs : list (option Q)) :
  default 0%Q (series_mean xs) = mean_or_zero (omap id xs).
Proof. unfold series_mean, mean_or_zero, Qnat. destruct (omap id xs); reflexivity. Qed.

Lemma omap_id_fmap {A} (f : A -> option Q) (l : list A) : omap id (f <$> l) = omap f l.
Proof. induction l as [|a l IH]; cbn; [reflexivity|]. rewrite IH. reflexivity. Qed.

(** C1, as the code has it.  The offline store has one row for each
    [(entity_key, feature_version)]: after two runs of [build_features] the
    row of an entity with a daily row in the second window carries the
    payload and the [event_time] of the second run, whatever the first run
    wrote. *)
Theorem offline_row_overwritten (cfg : Config) (clk1 clk2 : Clock) (w1 w2 fv : Z) (d : DB)
    (n : string) (day : date) (row : stamped DailyMetric) :
  metrics_daily d !! (PROJECT_ID cfg, n, day) = Some row ->
  day_in (window clk2 w2) day = true ->
  features_offline
    (final (build_features cfg clk2 w2 fv (final (build_features cfg clk1 w1 fv d))))
    !! (entity_key (PROJECT_ID cfg) n, fv)
  = Some {| off_payload := payload_of (entity_group cfg (window clk2 w2) (metrics_daily d) n);
            off_event_time := midnight (today clk2) |}.
Proof.
  intros Hrow Hday.
  pose proof (build_features_metrics cfg clk1 w1 fv d) as Hm.
  rewrite <- Hm in Hrow.
  destruct (build_features_writes cfg clk2 w2 fv _ n day row Hrow Hday) as [Hoff _].
  rewrite Hoff, Hm. reflexivity.
Qed.

(** C7.  For every entity with a daily row in the window, the payload that
    [build_features] writes to both stores has
    [fail_rate = fails / (builds + 1)], the exact quotient of the counts
    summed over the entity's rows of metrics_daily in the window. *)
Theorem fail_rate_formula (cfg : Config) (clk : Clock) (w fv : Z) (d : DB)
    (n : string) (day : date) (row : stamped DailyMetric) :
  metrics_daily d !! (PROJECT_ID cfg, n, day) = Some row ->
  day_in (window clk w) day = true ->
  exists p,
    off_payload <$> (features_offline (final (build_features cfg clk w fv d))
                     !! (entity_key (PROJECT_ID cfg) n, fv)) = Some p
    /\ on_payload <$> (data <$> (features_online (final (build_features cfg clk w fv d))
                                 !! entity_key (PROJECT_ID cfg) n)) = Some p
    /\ (fail_rate p
        == Qnat (sum_nat (fails <$> window_rows cfg (window clk w) (metrics_daily d) n))
           / Qnat (sum_nat (builds <$> window_rows cfg (window clk w) (metrics_daily d) n) + 1))%Q.
Proof.
  intros Hrow Hday.
  destruct (build_features_writes cfg clk w fv d n day row Hrow Hday) as [Hoff Hon].
  eexists. split; [rewrite Hoff; reflexivity|]. split; [rewrite Hon; reflexivity|].
  cbn [off_payload]. unfold payload_of. cbn [fail_rate].
  change (map m_fails ?l) with (m_fails <$> l).
  change (map m_builds ?l) with (m_builds <$> l).
  rewrite (sum_nat_Permutation _ _
             (entity_group_column m_fails fails cfg (window clk w) (metrics_daily d) n
                (fun kv => match kv with (_, _, _, _) => eq_refl end))).
  rewrite (sum_nat_Permutation _ _
             (entity_group_column m_builds builds cfg (window clk w) (metrics_daily d) n
                (fun kv => match kv with (_, _, _, _) => eq_refl end))).
  reflexivity.
Qed.

Lemma metric_sample_with_total (g : DailyMetric -> option Q)
    (kv : (Z * string * Z) * stamped DailyMetric) :
  metric_sample (prod_map id (with_total_duration g) kv) = metric_sample kv.
Proof. destruct kv as [[[p n] d] row]. reflexivity. Qed.

(** The SELECT of [build_features] does not read [total_duration]. *)
Lemma select_metrics_with_total (cfg : Config) (w : option date * date)
    (g : DailyMetric -> option Q) (t : gmap (Z * string * Z) (stamped DailyMetric)) :
  select_metrics cfg w (with_total_duration g <$> t) = select_metrics cfg w t.
Proof.
  unfold select_metrics. rewrite map_to_list_fmap. do 2 f_equal.
  change (map metric_sample ?l) with (metric_sample <$> l).
  rewrite <- list_fmap_compose. apply list_fmap_ext.
  intros i kv _. apply metric_sample_with_total.
Qed.

Lemma write_features_stores (now : timestamp) (feats : list Feature) (d d' : DB) :
  features_offline d = features_offline d' -> features_online d = features_online d' ->
  features_offline (write_features now feats d) = features_offline (write_features now feats d')
  /\ features_online (write_features now feats d) = features_online (write_features now feats d').
Proof.
  intros H1 H2.
  destruct (write_features_tables now feats d) as [-> ->].
  destruct (write_features_tables now feats d') as [-> ->].
  rewrite H1, H2. auto.
Qed.

(** C10.  In the payload written for an entity, [dur_total] is the mean of
    the daily [p95_duration] values present in the window, 0 when there is
    none; and the stores that [build_features] leaves do not depend on the
    [total_duration] column of metrics_daily. *)
Theorem dur_total_is_mean_p95 (cfg : Config) (clk : Clock) (w fv : Z) (d : DB)
    (n : string) (day : date) (row : stamped DailyMetric) :
  metrics_daily d !! (PROJECT_ID cfg, n, day) = Some row ->
  day_in (window clk w) day = true ->
  (exists p,
     off_payload <$> (features_offline (final (build_features cfg clk w fv d))
                      !! (entity_key (PROJECT_ID cfg) n, fv)) = Some p
     /\ on_payload <$> (data <$> (features_online (final (build_features cfg clk w fv d))
                                  !! entity_key (PROJECT_ID cfg) n)) = Some p
     /\ (dur_total p
         == mean_or_zero (omap p95_duration
                            (window_rows cfg (window clk w) (metrics_daily d) n)))%Q)
  /\ forall g : DailyMetric -> option Q,
       features_offline
         (final (build_features cfg clk w fv
                   (set_metrics_daily (with_total_duration g <$> metrics_daily d) d)))
       = features_offline (final (build_features cfg clk w fv d))
       /\ features_online
            (final (build_features cfg clk w fv
                      (set_metrics_daily (with_total_duration g <$> metrics_daily d) d)))
          = features_online (final (build_features cfg clk w fv d)).
Proof.
  intros Hrow Hday. split.
  - destruct (build_features_writes cfg clk w fv d n day row Hrow Hday) as [Hoff Hon].
    eexists. split; [rewrite Hoff; reflexivity|]. split; [rewrite Hon; reflexivity|].
    cbn [off_payload]. unfold payload_of. cbn [dur_total].
    rewrite series_mean_default.
    change (map m_p95_duration ?l) with (m_p95_duration <$> l).
    apply mean_or_zero_Permutation.
    rewrite <- (omap_id_fmap p95_duration). apply omap_Permutation.
    apply entity_group_column. intros [[[p' n'] d'] row']. reflexivity.
  - intros g. rewrite !build_features_result. cbn [metrics_daily set_metrics_daily].
    unfold feature_list. rewrite !select_metrics_with_total.
    destruct (no_rows _); cbn [final ret]; [auto|].
    apply write_features_stores; reflexivity.
Qed.

(** ** The claims on sample data *)

Lemma dated_within_all (cfg : Config) (clk : Clock) (back : Z) (t : gmap Z JobRow) :
  forallb (dated_within cfg clk back) (map snd (map_to_list t)) = true ->
  forall i r, t !! i = Some r -> j_project_id r = PROJECT_ID cfg ->
    exists ts, j_created_at r = Some ts /\ today clk - back <= DATE ts <= today clk.
Proof.
  intros Hall i r Hir Hp. rewrite forallb_forall in Hall.
  assert (Hr : dated_within cfg clk back r = true).
  { apply Hall. apply list_elem_of_In. apply list_elem_of_fmap. exists (i, r).
    split; [reflexivity|]. apply elem_of_map_to_list. exact Hir. }
  unfold dated_within in Hr. rewrite bool_decide_eq_true_2 in Hr by exact Hp.
  destruct (j_created_at r) as [ts|]; [|discriminate].
  apply bool_decide_eq_true_1 in Hr. eauto.
Qed.

(** C4 on six days of raw jobs and an empty metrics_daily, with 2025-01-06
    as the current day D.  The window of 3 days leaves the key of "test" on
    2025-01-01 (D-5) as it was, without a row, and writes the key of "lint"
    on 2025-01-03 (D-3); the window 0 writes the key of "test" on
    2025-01-01. *)
Lemma window_correctness_witness :
  (forall i r, jobs_raw six_days !! i = Some r -> j_project_id r = PROJECT_ID project_7 ->
     exists ts, j_created_at r = Some ts
       /\ today (clock_on 20094) - 5 <= DATE ts <= today (clock_on 20094))
  /\ metrics_daily (final (compute_metrics_daily project_7 (clock_on 20094) 3 six_days))
       !! (7, "test"%string, 20089)
     = metrics_daily six_days !! (7, "test"%string, 20089)
  /\ (exists g, g ≡ₚ day_jobs project_7 (jobs_raw six_days) "lint" 20091
        /\ data <$> (metrics_daily
                       (final (compute_metrics_daily project_7 (clock_on 20094) 3 six_days))
                     !! (7, "lint"%string, 20091))
           = Some (aggregate g))
  /\ (exists g, g ≡ₚ day_jobs project_7 (jobs_raw six_days) "test" 20089
        /\ data <$> (metrics_daily
                       (final (compute_metrics_daily project_7 (clock_on 20094) 0 six_days))
                     !! (7, "test"%string, 20089))
           = Some (aggregate g)).
Proof.
  assert (H : forall i r, jobs_raw six_days !! i = Some r ->
                j_project_id r = PROJECT_ID project_7 ->
                exists ts, j_created_at r = Some ts
                  /\ today (clock_on 20094) - 5 <= DATE ts <= today (clock_on 20094)).
  { apply dated_within_all. vm_compute. reflexivity. }
  split; [exact H|]. split; [|split].
  - destruct (window_correctness project_7 (clock_on 20094) six_days 7 "test" 20089 H)
      as (_ & Hout & _).
    apply Hout. intros [Hwin _]. cbn in Hwin. lia.
  - destruct (window_correctness project_7 (clock_on 20094) six_days 7 "lint" 20091 H)
      as (Hin & _).
    apply Hin; [cbn; lia|]. split; [reflexivity|].
    exists 3, (job_row project_7 (job_event 3 "lint" "success" 10 20091)), (midnight 20091).
    repeat split; vm_compute; reflexivity.
  - destruct (window_correctness project_7 (clock_on 20094) six_days 7 "test" 20089 H)
      as (_ & _ & Hin & _).
    apply Hin. split; [reflexivity|].
    exists 1, (job_row project_7 (job_event 1 "test" "failed" 120 20089)), (midnight 20089).
    repeat split; vm_compute; reflexivity.
Defined.

(** C5, as stated, fails.  [compute_metrics_daily(3)] runs three times over
    the six days of January, on 2025-01-06 at the database times 1000,
    2000 and 3000, with no new raw data.  The row of "test" on 2025-01-06
    keeps its derived columns, but its [updated_at] is left to the table
    default by the first run, and is 2000 after the second run and 3000
    after the third: no two of the three rows are identical. *)
Lemma rerun_rows_not_identical :
  updated_at <$> (metrics_daily (rerun 1000 six_days) !! (7, "test"%string, 20094))
  = Some None
  /\ updated_at <$> (metrics_daily (rerun 2000 (rerun 1000 six_days))
                     !! (7, "test"%string, 20094))
     = Some (Some 2000)
  /\ updated_at <$> (metrics_daily (rerun 3000 (rerun 2000 (rerun 1000 six_days)))
                     !! (7, "test"%string, 20094))
     = Some (Some 3000)
  /\ metrics_daily (rerun 2000 (rerun 1000 six_days)) !! (7, "test"%string, 20094)
     <> metrics_daily (rerun 1000 six_days) !! (7, "test"%string, 20094)
  /\ metrics_daily (rerun 3000 (rerun 2000 (rerun 1000 six_days)))
       !! (7, "test"%string, 20094)
     <> metrics_daily (rerun 2000 (rerun 1000 six_days)) !! (7, "test"%string, 20094).
Proof.
  repeat split; try (vm_compute; reflexivity); vm_compute; intros E; discriminate E.
Qed.

(** C9 with a schema without checks, project 7, the current day 2025-01-12
    and a second record of id 1 with other contents. *)
Lemma duplicate_job_scenario_witness :
  jobs_raw (final (append_raw_to_db permissive project_7 "jobs" (frame [another_job_1])
             (final (append_raw_to_db permissive project_7 "jobs" (frame [job_test_failed])
                       empty_db))))
  = {[1 := job_row project_7 job_test_failed]}
  /\ (fun m => (builds (data m), fails (data m)))
       <$> (metrics_daily
              (final (compute_metrics_daily project_7 (clock_on 20100) 0
                (final (append_raw_to_db permissive project_7 "jobs" (frame [another_job_1])
                  (final (append_raw_to_db permissive project_7 "jobs"
                            (frame [job_test_failed]) empty_db))))))
            !! (PROJECT_ID project_7, "test", day_2025_01_01))
     = Some (1%nat, 1%nat).
Proof.
  apply (duplicate_job_scenario permissive project_7 (clock_on 20100) another_job_1).
  - reflexivity.
  - reflexivity.
  - vm_compute. discriminate.
Defined.

(** C1, as stated, fails.  The features of the job "test" are built on
    2025-01-02 and again on 2025-01-03: after each run the offline store has
    one row, and after the second it is the row of 2025-01-03. *)
Lemma offline_rows_do_not_accumulate :
  (fun kv => (fst kv, off_event_time (snd kv)))
    <$> map_to_list (features_offline
                       (final (build_features project_7 (clock_on 20090) 30 1 one_metric)))
  = [(("7:test"%string, 1), midnight 20090)]
  /\ (fun kv => (fst kv, off_event_time (snd kv)))
       <$> map_to_list (features_offline
                          (final (build_features project_7 (clock_on 20091) 30 1
                             (final (build_features project_7 (clock_on 20090) 30 1
                                       one_metric)))))
     = [(("7:test"%string, 1), midnight 20091)].
Proof. split; vm_compute; reflexivity. Qed.

(** C1 as amended, on the same two runs. *)
Lemma offline_row_overwritten_witness :
  features_offline
    (final (build_features project_7 (clock_on 20091) 30 1
              (final (build_features project_7 (clock_on 20090) 30 1 one_metric))))
    !! (entity_key (PROJECT_ID project_7) "test", 1)
  = Some {| off_payload :=
              payload_of (entity_group project_7 (window (clock_on 20091) 30)
                            (metrics_daily one_metric) "test");
            off_event_time := midnight (today (clock_on 20091)) |}.
Proof.
  apply (offline_row_overwritten project_7 (clock_on 20090) (clock_on 20091) 30 30 1
           one_metric "test" day_2025_01_01 metric_10_2).
  - vm_compute. reflexivity.
  - vm_compute. reflexivity.
Defined.

(** C7 for builds = 10 and fails = 2: the fail rate written is 2/11. *)
Lemma fail_rate_formula_witness :
  exists p,
    on_payload <$> (data <$> (features_online
                                (final (build_features project_7 (clock_on 20090) 30 1 one_metric))
                              !! entity_key (PROJECT_ID project_7) "test")) = Some p
    /\ (fail_rate p == 2 # 11)%Q.
Proof.
  destruct (fail_rate_formula project_7 (clock_on 20090) 30 1 one_metric "test"
              day_2025_01_01 metric_10_2) as (p & _ & Hon & Hrate).
  - vm_compute. reflexivity.
  - vm_compute. reflexivity.
  - exists p. split; [exact Hon|]. rewrite Hrate. vm_compute. reflexivity.
Defined.

(** C10 on the same table: dur_total is the p95 of the one day, 120, not
    the total duration 1000. *)
Lemma dur_total_is_mean_p95_witness :
  exists p,
    on_payload <$> (data <$> (features_online
                                (final (build_features project_7 (clock_on 20090) 30 1 one_metric))
                              !! entity_key (PROJECT_ID project_7) "test")) = Some p
    /\ (dur_total p == 120)%Q.
Proof.
  destruct (dur_total_is_mean_p95 project_7 (clock_on 20090) 30 1 one_metric "test"
              day_2025_01_01 metric_10_2) as ((p & _ & Hon & Hdur) & _).
  - vm_compute. reflexivity.
  - vm_compute. reflexivity.
  - exists p. split; [exact Hon|]. rewrite Hdur. vm_compute. reflexivity.
Defined.

(** * Further properties of the code *)

(** ** More on the upsert loop *)

Lemma upsert_all_row `{Countable K} {V : Type} (now : timestamp) (rows : list (K * V))
    (t : gmap K (stamped V)) (k : K) (v : V) :
  NoDup rows.*1 -> (k, v) ∈ rows ->
  upsert_all now rows t !! k
  = Some (Stamped v (match t !! k with Some _ => Some now | None => None end)).
Proof.
  unfold upsert_all. revert t. induction rows as [|[k' v'] rows IH]; intros t Hnd Hin;
    [inversion Hin|].
  cbn [foldl fst snd]. cbn in Hnd. apply NoDup_cons in Hnd as [Hk' Hnd].
  apply elem_of_cons in Hin as [E|Hin].
  - injection E as <- <-.
    pose proof (upsert_all_untouched now rows (upsert_stamped now k v t) k Hk') as Hu.
    unfold upsert_all in Hu. rewrite Hu. unfold upsert_stamped.
    destruct (t !! k); apply lookup_insert_eq.
  - assert (N : k' <> k).
    { intros ->. apply Hk'. apply list_elem_of_fmap. exists (k, v). auto. }
    rewrite (IH _ Hnd Hin). unfold upsert_stamped.
    destruct (t !! k'); rewrite lookup_insert_ne by exact N; reflexivity.
Qed.

Lemma offline_rows_keys (cfg : Config) (clk : Clock) (w fv : Z)
    (t : gmap (Z * string * Z) (stamped DailyMetric)) (k : string * Z) :
  k ∈ (offline_rows (feature_list cfg clk w fv t)).*1 -> snd k = fv.
Proof.
  unfold offline_rows, feature_list. rewrite <- !list_fmap_compose.
  intros Hin. apply list_elem_of_fmap in Hin as (kg & -> & _). reflexivity.
Qed.

Lemma online_rows_NoDup (cfg : Config) (clk : Clock) (w fv : Z)
    (t : gmap (Z * string * Z) (stamped DailyMetric)) :
  NoDup (online_rows (feature_list cfg clk w fv t)).*1.
Proof.
  unfold online_rows. rewrite <- list_fmap_compose. apply feature_list_NoDup.
Qed.

(** A run of [build_features] leaves the offline rows of the other
    feature versions. *)
Lemma build_features_other_version (cfg : Config) (clk : Clock) (w fv fv' : Z) (d : DB)
    (ek : string) :
  fv' <> fv ->
  features_offline (final (build_features cfg clk w fv d)) !! (ek, fv')
  = features_offline d !! (ek, fv').
Proof.
  intros N. rewrite build_features_result. destruct (no_rows _); [reflexivity|].
  cbn [final].
  destruct (write_features_tables (current_timestamp clk)
              (feature_list cfg clk w fv (metrics_daily d)) d) as [-> _].
  apply foldl_insert_untouched. intros Hin. apply offline_rows_keys in Hin. cbn in Hin.
  contradiction.
Qed.

(** The online row of an entity with a daily row in the window, the
    [updated_at] column included. *)
Lemma build_features_online_row (cfg : Config) (clk : Clock) (w fv : Z) (d : DB)
    (n : string) (day : date) (row : stamped DailyMetric) :
  metrics_daily d !! (PROJECT_ID cfg, n, day) = Some row ->
  day_in (window clk w) day = true ->
  features_online (final (build_features cfg clk w fv d)) !! entity_key (PROJECT_ID cfg) n
  = Some (Stamped {| on_feature_version := fv;
                     on_payload := payload_of (entity_group cfg (window clk w)
                                                 (metrics_daily d) n) |}
                  (match features_online d !! entity_key (PROJECT_ID cfg) n with
                   | Some _ => Some (current_timestamp clk)
                   | None => None
                   end)).
Proof.
  intros Hrow Hday. rewrite build_features_result.
  rewrite (select_metrics_some _ _ _ _ _ _ Hrow Hday). cbn [final].
  destruct (write_features_tables (current_timestamp clk)
              (feature_list cfg clk w fv (metrics_daily d)) d) as [_ ->].
  apply upsert_all_row; [apply online_rows_NoDup|].
  unfold online_rows. apply list_elem_of_fmap. eexists.
  split; [|exact (elem_of_feature_list cfg clk w fv _ _ _ _ Hrow Hday)]. reflexivity.
Qed.

(** X1.  The online store has one row for an entity: after two runs of
    [build_features] in whose windows the entity has a daily row, the row
    carries the feature version and the payload of the second run, and its
    [updated_at] is the database time of the second run. *)
Theorem online_row_replaced (cfg : Config) (clk1 clk2 : Clock) (w1 w2 fv1 fv2 : Z) (d : DB)
    (n : string) (day1 day2 : date) (row1 row2 : stamped DailyMetric) :
  metrics_daily d !! (PROJECT_ID cfg, n, day1) = Some row1 ->
  day_in (window clk1 w1) day1 = true ->
  metrics_daily d !! (PROJECT_ID cfg, n, day2) = Some row2 ->
  day_in (window clk2 w2) day2 = true ->
  features_online
    (final (build_features cfg clk2 w2 fv2 (final (build_features cfg clk1 w1 fv1 d))))
    !! entity_key (PROJECT_ID cfg) n
  = Some (Stamped {| on_feature_version := fv2;
                     on_payload := payload_of (entity_group cfg (window clk2 w2)
                                                 (metrics_daily d) n) |}
                  (Some (current_timestamp clk2))).
Proof.
  intros Hrow1 Hday1 Hrow2 Hday2.
  pose proof (build_features_metrics cfg clk1 w1 fv1 d) as Hm.
  rewrite <- Hm in Hrow2.
  rewrite (build_features_online_row cfg clk2 w2 fv2 _ n day2 row2 Hrow2 Hday2).
  rewrite (build_features_online_row cfg clk1 w1 fv1 d n day1 row1 Hrow1 Hday1).
  rewrite Hm. reflexivity.
Qed.

(** X2.  Offline rows of different feature versions coexist: a run of
    [build_features] with another version leaves the row an earlier run
    wrote for its version, payload and [event_time]. *)
Theorem offline_versions_coexist (cfg : Config) (clk1 clk2 : Clock) (w1 w2 fv1 fv2 : Z) (d : DB)
    (n : string) (day : date) (row : stamped DailyMetric) :
  fv1 <> fv2 ->
  metrics_daily d !! (PROJECT_ID cfg, n, day) = Some row ->
  day_in (window clk1 w1) day = true ->
  features_offline
    (final (build_features cfg clk2 w2 fv2 (final (build_features cfg clk1 w1 fv1 d))))
    !! (entity_key (PROJECT_ID cfg) n, fv1)
  = Some {| off_payload := payload_of (entity_group cfg (window clk1 w1) (metrics_daily d) n);
            off_event_time := midnight (today clk1) |}.
Proof.
  intros N Hrow Hday. rewrite build_features_other_version by exact N.
  apply (build_features_writes cfg clk1 w1 fv1 d n day row Hrow Hday).
Qed.

Lemma aggregate_counts (g : list JobSample) :
  (fails (aggregate g) <= builds (aggregate g))%nat.
Proof. unfold aggregate. cbn [fails builds]. lia. Qed.

Lemma daily_metrics_counts (cfg : Config) (clk : Clock) (w : Z) (t : gmap Z JobRow)
    (k : Z * string * Z) (m : DailyMetric) :
  (k, m) ∈ daily_metrics cfg clk w t -> (fails m <= builds m)%nat.
Proof.
  unfold daily_metrics. intros Hin. apply list_elem_of_fmap in Hin as (kg & E & _).
  injection E as _ ->. apply aggregate_counts.
Qed.

Lemma elem_of_keys {K V} (rows : list (K * V)) (k : K) :
  k ∈ rows.*1 -> exists v, (k, v) ∈ rows.
Proof.
  intros Hin. apply list_elem_of_fmap in Hin as ([k' v] & -> & Hin). eauto.
Qed.

(** X10.  [compute_metrics_daily] keeps the table consistent: when no row
    of metrics_daily counts more failures than builds before the call,
    none does after it. *)
Theorem counts_stay_consistent (cfg : Config) (clk : Clock) (w : Z) (d : DB) :
  counts_consistent (metrics_daily d) ->
  counts_consistent (metrics_daily (final (compute_metrics_daily cfg clk w d))).
Proof.
  intros Hc k row Hk. rewrite compute_metrics_daily_table in Hk.
  destruct (decide (k ∈ (daily_metrics cfg clk w (jobs_raw d)).*1)) as [Hin|Hout].
  - apply elem_of_keys in Hin as (m & Hin).
    pose proof (upsert_all_written (current_timestamp clk) _ (metrics_daily d) k m
                  (daily_metrics_NoDup cfg clk w (jobs_raw d)) Hin) as Hw.
    rewrite Hk in Hw. cbn in Hw. injection Hw as ->.
    eapply daily_metrics_counts. exact Hin.
  - rewrite upsert_all_untouched in Hk by exact Hout. eapply Hc. exact Hk.
Qed.

Lemma sum_nat_le {A} (f g : A -> nat) (l : list A) :
  (forall x, x ∈ l -> (f x <= g x)%nat) ->
  (sum_nat (map f l) <= sum_nat (map g l))%nat.
Proof.
  unfold sum_nat. induction l as [|a l IH]; intros H; cbn [map foldr]; [lia|].
  pose proof (H a (list_elem_of_here a l)).
  assert ((foldr Nat.add 0 (map f l) <= foldr Nat.add 0 (map g l))%nat).
  { apply IH. intros x Hx. apply H. apply list_elem_of_further. exact Hx. }
  lia.
Qed.

Lemma entity_group_counts (cfg : Config) (w : option date * date)
    (t : gmap (Z * string * Z) (stamped DailyMetric)) (n : string) (s : MetricSample) :
  counts_consistent t -> s ∈ entity_group cfg w t n -> (m_fails s <= m_builds s)%nat.
Proof.
  intros Hc Hs. unfold entity_group in Hs. apply list_elem_of_filter in Hs as [_ Hs].
  apply elem_of_select_metrics in Hs as (_ & _ & row & Hrow & ->). cbn.
  eapply Hc. exact Hrow.
Qed.

Lemma smoothed_rate_bounds (f b : nat) :
  (f <= b)%nat -> (0 <= Qnat f / Qnat (b + 1))%Q /\ (Qnat f / Qnat (b + 1) < 1)%Q.
Proof.
  intros H. assert (Hpos : (0 < Qnat (b + 1))%Q).
  { unfold Qnat, Qlt. cbn. lia. }
  split.
  - apply Qle_shift_div_l; [exact Hpos|]. unfold Qnat, Qle. cbn. lia.
  - apply Qlt_shift_div_r; [exact Hpos|]. unfold Qnat, Qlt. cbn. lia.
Qed.

(** X11.  On a consistent metrics_daily, the fail rate that
    [build_features] writes for an entity is at least 0 and below 1. *)
Theorem fail_rate_below_one (cfg : Config) (clk : Clock) (w fv : Z) (d : DB)
    (n : string) (day : date) (row : stamped DailyMetric) :
  counts_consistent (metrics_daily d) ->
  metrics_daily d !! (PROJECT_ID cfg, n, day) = Some row ->
  day_in (window clk w) day = true ->
  exists p,
    on_payload <$> (data <$> (features_online (final (build_features cfg clk w fv d))
                              !! entity_key (PROJECT_ID cfg) n)) = Some p
    /\ (0 <= fail_rate p)%Q /\ (fail_rate p < 1)%Q.
Proof.
  intros Hc Hrow Hday.
  destruct (build_features_writes cfg clk w fv d n day row Hrow Hday) as [_ Hon].
  eexists. split; [rewrite Hon; reflexivity|].
  cbn [on_payload]. unfold payload_of. cbn [fail_rate].
  apply smoothed_rate_bounds. apply sum_nat_le.
  intros s Hs. eapply entity_group_counts; eauto.
Qed.






(** X3.  [get_watermark] after [update_watermark]: the source that was
    written reads the new timestamp, every other source what it read
    before. *)
Theorem watermark_round_trip (clk : Clock) (source s : string) (ts : timestamp) (d : DB) :
  value (get_watermark s (final (update_watermark clk source ts d)))
  = Some (if decide (source = s) then Some ts else last_ts_of d s).
Proof.
  unfold get_watermark, read, update_watermark, commit. cbn [value final].
  f_equal. cbn [processing_watermarks set_watermarks]. apply last_ts_upsert.
Qed.

Lemma load_new_raw_stored (files : Staged) (source : string) (d : DB) :
  load_new_raw files source None d
  = ret (filter_new source (last_ts_of d source) (staged_rows files source)) d.
Proof.
  unfold load_new_raw, get_watermark. rewrite bind_read. reflexivity.
Qed.

(** X4.  With a stored watermark and the timestamp column present,
    [load_new_raw] returns exactly the staged records whose timestamp is
    strictly after the watermark: a record stamped at the watermark, or
    with a null timestamp, is left out. *)
Theorem load_new_raw_strictly_after (files : Staged) (source : string) (w : timestamp) (d : DB) :
  in_columns source (staged_rows files source) = true ->
  last_ts_of d source = Some w ->
  exists df,
    value (load_new_raw files source None d) = Some df
    /\ forall row,
         row ∈ df_rows df
         <-> row ∈ df_rows (staged_rows files source)
             /\ exists t, ts_column source row = Val t /\ w < t.
Proof.
  intros Hcol Hw. rewrite load_new_raw_stored, Hw. eexists. split; [reflexivity|].
  intros row. unfold filter_new. rewrite Hcol. cbn [select_rows df_rows].
  rewrite list_elem_of_filter. unfold after. split.
  - intros [Haft Hin]. split; [exact Hin|].
    destruct (ts_column source row) as [| | |t]; try discriminate.
    apply bool_decide_eq_true_1 in Haft. eauto.
  - intros (Hin & t & -> & Hlt). split; [|exact Hin].
    apply bool_decide_eq_true_2. exact Hlt.
Qed.

Lemma filter_new_subset (source : string) (w : option timestamp) (df : DataFrame)
    (row : RawEvent) :
  row ∈ df_rows (filter_new source w df) -> row ∈ df_rows df.
Proof.
  unfold filter_new. destruct (in_columns source df); [|auto].
  destruct w; [|auto]. cbn [select_rows df_rows]. rewrite list_elem_of_filter. tauto.
Qed.

Lemma max_ts_none (col : RawEvent -> cell timestamp) (df : DataFrame) :
  (forall row, row ∈ df_rows df -> cell_get (col row) = None) -> max_ts col df = None.
Proof.
  intros H. unfold max_ts.
  destruct (omap _ _) as [|t l] eqn:E; [reflexivity|].
  assert (Hin : t ∈ omap (fun e => cell_get (col e)) (df_rows df)).
  { rewrite E. apply list_elem_of_here. }
  apply list_elem_of_omap in Hin as (row & Hrow & Hget). rewrite (H row Hrow) in Hget.
  discriminate.
Qed.

(** X5.  When no staged record of a source carries a timestamp value (the
    key is missing or null everywhere), the step of [run] for the source
    writes no watermark, whatever it appends. *)
Theorem no_timestamp_no_watermark (sch : Schema) (cfg : Config) (clk : Clock)
    (files : Staged) (source : string) (d : DB) :
  (forall row, row ∈ df_rows (staged_rows files source) ->
     cell_get (ts_column source row) = None) ->
  processing_watermarks (final (ingest sch cfg clk files source d)) = processing_watermarks d
  /\ forall ts, WatermarkSet source ts ∉ events (ingest sch cfg clk files source d).
Proof.
  intros Hnone. rewrite ingest_unfold. cbv zeta.
  set (df := filter_new source (last_ts_of d source) (staged_rows files source)).
  assert (Hmax : max_ts (ts_column source) df = None).
  { apply max_ts_none. intros row Hrow. apply Hnone.
    eapply filter_new_subset. exact Hrow. }
  destruct (df_empty df) eqn:Hempty.
  { cbn. split; [reflexivity|]. intros ts Hin. inversion Hin. }
  pose proof (filter_new_nonempty_source _ _ _ Hempty) as Hsrc.
  destruct (append_effect sch cfg source df d Hempty Hsrc)
    as [(Hv & Hf & He) | (Hv & Hw & He)].
  - rewrite bind_value_None by exact Hv. cbn [final events]. rewrite Hf, He.
    split; [reflexivity|]. intros ts Hin. inversion Hin.
  - rewrite (bind_value_Some _ _ _ _ Hv). cbn [final events]. rewrite Hmax, He.
    destruct (in_columns source df); cbn [ret final events];
      (split; [exact Hw|]); intros ts Hin;
      apply elem_of_cons in Hin as [Hin|Hin]; try discriminate; inversion Hin.
Qed.

Lemma append_rejected (sch : Schema) (cfg : Config) (source : string) (df : DataFrame)
    (d : DB) :
  source = "pipelines" \/ source = "jobs" ->
  df_empty df = false ->
  batch_storable sch cfg source df = false ->
  append_raw_to_db sch cfg source df d = MkResult None d [].
Proof.
  intros Hsrc Hne Hst. unfold batch_storable in Hst. unfold append_raw_to_db.
  rewrite Hne. destruct Hsrc as [-> | ->].
  - change (String.eqb "pipelines" "pipelines") with true in *. cbv iota in *.
    unfold transact. rewrite insert_rows_raises by exact Hst. reflexivity.
  - change (String.eqb "jobs" "pipelines") with false in *.
    change (String.eqb "jobs" "jobs") with true. cbv iota in *.
    unfold transact. rewrite insert_rows_raises by exact Hst. reflexivity.
Qed.

Lemma append_accepted (sch : Schema) (cfg : Config) (source : string) (df : DataFrame)
    (d : DB) :
  source = "pipelines" \/ source = "jobs" ->
  df_empty df = false ->
  batch_storable sch cfg source df = true ->
  value (append_raw_to_db sch cfg source df d) = Some tt
  /\ events (append_raw_to_db sch cfg source df d) = [RawCommitted source (length (df_rows df))].
Proof.
  intros Hsrc Hne Hst.
  destruct (append_effect sch cfg source df d Hne Hsrc) as [(Hv & _) | (Hv & _ & He)];
    [|auto].
  exfalso. unfold batch_storable in Hst. unfold append_raw_to_db in Hv. rewrite Hne in Hv.
  destruct Hsrc as [-> | ->].
  - change (String.eqb "pipelines" "pipelines") with true in *. cbv iota in *.
    unfold transact in Hv. rewrite insert_rows_union in Hv by exact Hst. discriminate.
  - change (String.eqb "jobs" "pipelines") with false in *.
    change (String.eqb "jobs" "jobs") with true in *. cbv iota in *.
    unfold transact in Hv. rewrite insert_rows_union in Hv by exact Hst. discriminate.
Qed.

Lemma ingest_rejected (sch : Schema) (cfg : Config) (clk : Clock) (files : Staged)
    (source : string) (d : DB) :
  df_empty (loaded files source d) = false ->
  batch_storable sch cfg source (loaded files source d) = false ->
  ingest sch cfg clk files source d = MkResult None d [].
Proof.
  intros Hne Hst. rewrite ingest_unfold. cbv zeta. fold (loaded files source d).
  rewrite Hne.
  pose proof (filter_new_nonempty_source _ _ _ Hne) as Hsrc.
  rewrite bind_value_None; rewrite (append_rejected _ _ _ _ _ Hsrc Hne Hst); reflexivity.
Qed.

(** X6.  When the loaded pipelines batch is not empty and the pipelines
    table rejects a record of it, [run] raises before anything else: the
    database is as it was and no commit was made. *)
Theorem run_stops_at_rejected_pipeline (sch : Schema) (cfg : Config) (clk : Clock)
    (files : Staged) (w : Z) (d : DB) :
  df_empty (loaded files "pipelines" d) = false ->
  batch_storable sch cfg "pipelines" (loaded files "pipelines" d) = false ->
  run sch cfg clk files w d = MkResult None d [].
Proof.
  intros Hne Hst. rewrite run_unfold.
  rewrite bind_value_None; rewrite (ingest_rejected _ _ _ _ _ _ Hne Hst); reflexivity.
Qed.

Lemma loaded_after_pipelines (sch : Schema) (cfg : Config) (clk : Clock) (files : Staged)
    (d : DB) :
  loaded files "jobs" (final (ingest sch cfg clk files "pipelines" d)) = loaded files "jobs" d.
Proof. unfold loaded. rewrite ingest_other_source by discriminate. reflexivity. Qed.

Lemma ingest_accepted (sch : Schema) (cfg : Config) (clk : Clock) (files : Staged)
    (source : string) (d : DB) :
  batch_storable sch cfg source (loaded files source d) = true ->
  value (ingest sch cfg clk files source d) = Some tt.
Proof.
  intros Hst. rewrite ingest_unfold. cbv zeta. fold (loaded files source d).
  destruct (df_empty (loaded files source d)) eqn:Hne; [reflexivity|].
  pose proof (filter_new_nonempty_source _ _ _ Hne) as Hsrc.
  destruct (append_accepted sch cfg source _ d Hsrc Hne Hst) as [Hv _].
  rewrite (bind_value_Some _ _ _ _ Hv). cbn [value].
  destruct (in_columns _ _); [|reflexivity].
  destruct (max_ts _ _); reflexivity.
Qed.

(** The database a step of [run] for one source leaves: the raw table of
    the source with the batch inserted, and possibly a new watermark. *)
Lemma ingest_final (sch : Schema) (cfg : Config) (clk : Clock) (files : Staged)
    (source : string) (d : DB) :
  exists d0,
    (d0 = d
     \/ (exists t, source = "pipelines"
                   /\ insert_rows (pipelines_accept sch cfg) (pipeline_row cfg)
                     (df_rows (loaded files source d)) (pipelines_raw d) = Some t
                   /\ d0 = set_pipelines_raw t d)
     \/ (exists t, source = "jobs"
                   /\ insert_rows (jobs_accept sch cfg) (job_row cfg)
                     (df_rows (loaded files source d)) (jobs_raw d) = Some t
                   /\ d0 = set_jobs_raw t d))
    /\ (final (ingest sch cfg clk files source d) = d0
        \/ exists ts, final (ingest sch cfg clk files source d)
                      = set_watermarks (upsert_stamped (current_timestamp clk) source ts) d0).
Proof.
  rewrite ingest_unfold. cbv zeta. fold (loaded files source d).
  destruct (df_empty (loaded files source d)) eqn:Hne; [exists d; cbn; auto|].
  exists (final (append_raw_to_db sch cfg source (loaded files source d) d)). split.
  - unfold append_raw_to_db. rewrite Hne.
    destruct (String.eqb_spec source "pipelines") as [Ep|_].
    + unfold transact. destruct (insert_rows _ _ _ (pipelines_raw d)) as [t|] eqn:E;
        cbn; eauto 7.
    + destruct (String.eqb_spec source "jobs") as [Ej|_]; [|cbn; auto].
      unfold transact. destruct (insert_rows _ _ _ (jobs_raw d)) as [t|] eqn:E;
        cbn; eauto 8.
  - destruct (value (append_raw_to_db sch cfg source (loaded files source d) d))
      as [[]|] eqn:Hv.
    + rewrite (bind_value_Some _ _ _ _ Hv). cbn [final].
      destruct (in_columns _ _); [|cbn; auto].
      destruct (max_ts _ _); cbn; eauto.
    + rewrite bind_value_None by exact Hv. cbn. auto.
Qed.

(** A step of [run] for a source leaves the stored raw rows and the
    derived tables. *)
Lemma ingest_keeps (sch : Schema) (cfg : Config) (clk : Clock) (files : Staged)
    (source : string) (d : DB) :
  (forall i r, pipelines_raw d !! i = Some r ->
     pipelines_raw (final (ingest sch cfg clk files source d)) !! i = Some r)
  /\ (forall i r, jobs_raw d !! i = Some r ->
        jobs_raw (final (ingest sch cfg clk files source d)) !! i = Some r)
  /\ metrics_daily (final (ingest sch cfg clk files source d)) = metrics_daily d
  /\ features_offline (final (ingest sch cfg clk files source d)) = features_offline d
  /\ features_online (final (ingest sch cfg clk files source d)) = features_online d
  /\ kv_config (final (ingest sch cfg clk files source d)) = kv_config d.
Proof.
  destruct (ingest_final sch cfg clk files source d)
    as (d0 & [-> | [(t & _ & E & ->) | (t & _ & E & ->)]] & [-> | (ts & ->)]);
    cbn; repeat split; auto; intros i r Hi; eapply insert_rows_keeps; eauto.
Qed.

Lemma ingest_pipelines_jobs_raw (sch : Schema) (cfg : Config) (clk : Clock) (files : Staged)
    (d : DB) :
  jobs_raw (final (ingest sch cfg clk files "pipelines" d)) = jobs_raw d.
Proof.
  destruct (ingest_final sch cfg clk files "pipelines" d)
    as (d0 & [-> | [(t & _ & E & ->) | (t & Hs & _)]] & [-> | (ts & ->)]);
    try discriminate; reflexivity.
Qed.

Lemma ingest_jobs_pipelines_raw (sch : Schema) (cfg : Config) (clk : Clock) (files : Staged)
    (d : DB) :
  pipelines_raw (final (ingest sch cfg clk files "jobs" d)) = pipelines_raw d.
Proof.
  destruct (ingest_final sch cfg clk files "jobs" d)
    as (d0 & [-> | [(t & Hs & _) | (t & _ & E & ->)]] & [-> | (ts & ->)]);
    try discriminate; reflexivity.
Qed.

(** X7.  When the pipelines batch is taken, the loaded jobs batch is not
    empty and the jobs table rejects a record of it, [run] raises after
    the pipelines step: what that step stored stays, and jobs_raw,
    metrics_daily and both feature stores are as they were. *)
Theorem run_stops_at_rejected_job (sch : Schema) (cfg : Config) (clk : Clock)
    (files : Staged) (w : Z) (d : DB) :
  batch_storable sch cfg "pipelines" (loaded files "pipelines" d) = true ->
  df_empty (loaded files "jobs" d) = false ->
  batch_storable sch cfg "jobs" (loaded files "jobs" d) = false ->
  run sch cfg clk files w d
  = MkResult None (final (ingest sch cfg clk files "pipelines" d))
                  (events (ingest sch cfg clk files "pipelines" d))
  /\ jobs_raw (final (run sch cfg clk files w d)) = jobs_raw d
  /\ metrics_daily (final (run sch cfg clk files w d)) = metrics_daily d
  /\ features_offline (final (run sch cfg clk files w d)) = features_offline d
  /\ features_online (final (run sch cfg clk files w d)) = features_online d.
Proof.
  intros Hp Hne Hj.
  assert (E : run sch cfg clk files w d
              = MkResult None (final (ingest sch cfg clk files "pipelines" d))
                  (events (ingest sch cfg clk files "pipelines" d))).
  { rewrite run_unfold.
    rewrite (bind_value_Some _ _ _ tt (ingest_accepted _ _ _ _ _ _ Hp)).
    rewrite <- loaded_after_pipelines with (sch := sch) (cfg := cfg) (clk := clk) in Hj, Hne.
    rewrite bind_value_None; rewrite (ingest_rejected _ _ _ _ _ _ Hne Hj); cbn;
      [rewrite app_nil_r|]; reflexivity. }
  split; [exact E|]. rewrite E. cbn [final].
  destruct (ingest_keeps sch cfg clk files "pipelines" d) as (_ & _ & Hm & Hoff & Hon & _).
  rewrite ingest_pipelines_jobs_raw. auto.
Qed.

Lemma nil_of_no_elem {A} (l : list A) : (forall x, x ∉ l) -> l = [].
Proof. destruct l as [|a l]; [reflexivity|]. intros H. destruct (H a). apply list_elem_of_here. Qed.

(** X8.  When no job of the project was created inside the window,
    [compute_metrics_daily] returns 0, commits nothing and leaves the
    database as it was. *)
Theorem empty_window_returns_zero (cfg : Config) (clk : Clock) (w : Z) (d : DB) :
  (forall i r, jobs_raw d !! i = Some r -> j_project_id r = PROJECT_ID cfg ->
     created_in (window clk w) (j_created_at r) = false) ->
  compute_metrics_daily cfg clk w d = MkResult (Some 0%nat) d [].
Proof.
  intros H. rewrite compute_metrics_daily_result.
  rewrite (nil_of_no_elem (select_jobs cfg (window clk w) (jobs_raw d))); [reflexivity|].
  intros s Hs. apply elem_of_select_jobs in Hs as (i & r & Hir & Hp & Hc & _).
  rewrite (H i r Hir Hp) in Hc. discriminate.
Qed.

Lemma created_in_negative (clk : Clock) (w : Z) (c : option timestamp) :
  w < 0 -> created_in (window clk w) c = false.
Proof.
  intros Hw. unfold window. rewrite bool_decide_eq_false_2 by lia.
  unfold created_in. cbn [fst snd]. destruct c as [ts|]; [|reflexivity].
  apply andb_false_iff.
  destruct (decide (midnight (today clk - w) <= ts)) as [Hle|Hgt].
  - right. apply bool_decide_eq_false_2. unfold midnight, usec_per_day in *. lia.
  - left. apply bool_decide_eq_false_2. exact Hgt.
Qed.

Lemma day_in_negative (clk : Clock) (w : Z) (day : date) :
  w < 0 -> day_in (window clk w) day = false.
Proof.
  intros Hw. unfold window. rewrite bool_decide_eq_false_2 by lia.
  unfold day_in. cbn [fst snd]. apply andb_false_iff.
  destruct (decide (today clk - w <= day)) as [Hle|Hgt].
  - right. apply bool_decide_eq_false_2. lia.
  - left. apply bool_decide_eq_false_2. exact Hgt.
Qed.

(** X9.  A negative [window_days] for which the start date is defined
    gives a window that starts after it ends: [compute_metrics_daily] and
    [build_features] select nothing, return 0 and leave the database as it
    was. *)
Theorem negative_window_selects_nothing (cfg : Config) (clk : Clock) (w fv : Z) (d : DB) :
  w < 0 ->
  window_defined clk w ->
  compute_metrics_daily cfg clk w d = MkResult (Some 0%nat) d []
  /\ build_features cfg clk w fv d = MkResult (Some 0%nat) d [].
Proof.
  intros Hw _. split.
  - rewrite compute_metrics_daily_result.
    rewrite (nil_of_no_elem (select_jobs cfg (window clk w) (jobs_raw d))); [reflexivity|].
    intros s Hs. apply elem_of_select_jobs in Hs as (i & r & _ & _ & Hc & _).
    rewrite created_in_negative in Hc by exact Hw. discriminate.
  - rewrite build_features_result.
    rewrite (nil_of_no_elem (select_metrics cfg (window clk w) (metrics_daily d)));
      [reflexivity|].
    intros s Hs. apply elem_of_select_metrics in Hs as (_ & Hd & _).
    rewrite day_in_negative in Hd by exact Hw. discriminate.
Qed.

Lemma DATE_midnight (day : date) : DATE (midnight day) = day.
Proof. unfold DATE, midnight, usec_per_day. apply Z.div_mul. discriminate. Qed.

(** X13.  [compute_metrics_daily(0)] bounds [created_at] by [<=]: for a
    job created exactly at midnight after the current day it writes a row
    of the next day, the aggregate of a group that holds this job and only
    jobs created at that midnight; with any other window the row of that
    key is left as it was. *)
Theorem full_window_takes_next_midnight (cfg : Config) (clk : Clock) (d : DB)
    (i : Z) (r : JobRow) (n : string) (s : JobSample) :
  jobs_raw d !! i = Some r ->
  j_project_id r = PROJECT_ID cfg ->
  j_name r = Some n ->
  j_created_at r = Some (midnight (today clk + 1)) ->
  job_sample r = Some s ->
  (exists g,
     data <$> (metrics_daily (final (compute_metrics_daily cfg clk 0 d))
               !! (PROJECT_ID cfg, n, today clk + 1))
     = Some (aggregate g)
     /\ s ∈ g
     /\ forall s', s' ∈ g -> s_created_at s' = midnight (today clk + 1))
  /\ forall w, w <> 0 ->
       metrics_daily (final (compute_metrics_daily cfg clk w d))
         !! (PROJECT_ID cfg, n, today clk + 1)
       = metrics_daily d !! (PROJECT_ID cfg, n, today clk + 1).
Proof.
  intros Hir Hp Hn Hts Hs. split.
  - assert (Hc : created_in (window clk 0) (Some (midnight (today clk + 1))) = true).
    { unfold window. rewrite bool_decide_eq_true_2 by reflexivity.
      unfold created_in. cbn [fst snd]. apply bool_decide_eq_true_2.
      unfold midnight, usec_per_day. lia. }
    assert (Hsel : s ∈ select_jobs cfg (window clk 0) (jobs_raw d)).
    { apply elem_of_select_jobs. exists i, r. rewrite Hts. auto. }
    assert (Hkey : sample_key s = Some (PROJECT_ID cfg, n, today clk + 1)).
    { unfold job_sample in Hs. rewrite Hts in Hs. cbn in Hs. injection Hs as <-.
      unfold sample_key. cbn. rewrite Hn. cbn. rewrite Hp, DATE_midnight. reflexivity. }
    exists (filter (fun s' => sample_key s' = Some (PROJECT_ID cfg, n, today clk + 1))
              (select_jobs cfg (window clk 0) (jobs_raw d))).
    split; [|split].
    + rewrite compute_metrics_daily_table.
      apply upsert_all_written; [apply daily_metrics_NoDup|].
      unfold daily_metrics. apply list_elem_of_fmap. eexists (_, _).
      split; [reflexivity|]. apply elem_of_groupby. split; [|reflexivity].
      apply list_elem_of_omap. exists s. auto.
    + apply list_elem_of_filter. auto.
    + intros s' Hs'. apply list_elem_of_filter in Hs' as [Hk' Hin'].
      apply elem_of_select_jobs in Hin' as (i' & r' & _ & _ & Hc' & Hs').
      unfold job_sample in Hs'. destruct (j_created_at r') as [ts|]; [|discriminate].
      cbn in Hs'. injection Hs' as <-. unfold sample_key in Hk'. cbn in Hk'.
      destruct (j_name r'); [|discriminate]. cbn in Hk'. injection Hk' as _ _ Hd.
      cbn. unfold window in Hc'. rewrite bool_decide_eq_true_2 in Hc' by reflexivity.
      unfold created_in in Hc'. cbn [fst snd] in Hc'. apply bool_decide_eq_true_1 in Hc'.
      unfold midnight, DATE, usec_per_day in *. Z.div_mod_to_equations. lia.
  - intros w Hw. rewrite compute_metrics_daily_table. apply upsert_all_untouched.
    intros Hin. apply elem_of_daily_metrics_keys in Hin
      as (_ & i' & r' & ts & _ & _ & _ & _ & Hday & Hc).
    apply created_in_days in Hc; [|exact Hw]. lia.
Qed.

(** X14.  With a window other than 0, [compute_metrics_daily] leaves the
    rows of the days before and after the window exactly as they were. *)
Theorem days_outside_window_untouched (cfg : Config) (clk : Clock) (w : Z) (d : DB)
    (p : Z) (n : string) (day : date) :
  w <> 0 ->
  day < today clk - w \/ today clk < day ->
  metrics_daily (final (compute_metrics_daily cfg clk w d)) !! (p, n, day)
  = metrics_daily d !! (p, n, day).
Proof.
  intros Hw Hout. rewrite compute_metrics_daily_table. apply upsert_all_untouched.
  intros Hin. apply elem_of_daily_metrics_keys in Hin
    as (_ & i & r & ts & _ & _ & _ & _ & Hday & Hc).
  apply created_in_days in Hc; [|exact Hw]. lia.
Qed.

(** X15.  [compute_metrics_daily] deletes no row of metrics_daily. *)
Theorem metrics_rows_never_deleted (cfg : Config) (clk : Clock) (w : Z) (d : DB)
    (k : Z * string * Z) :
  is_Some (metrics_daily d !! k) ->
  is_Some (metrics_daily (final (compute_metrics_daily cfg clk w d)) !! k).
Proof.
  intros Hk. rewrite compute_metrics_daily_table.
  destruct (decide (k ∈ (daily_metrics cfg clk w (jobs_raw d)).*1)) as [Hin|Hout].
  - apply elem_of_keys in Hin as (m & Hin).
    rewrite (upsert_all_row _ _ _ _ _ (daily_metrics_NoDup cfg clk w (jobs_raw d)) Hin).
    eauto.
  - rewrite upsert_all_untouched by exact Hout. exact Hk.
Qed.

(** X16.  A second [compute_metrics_daily] on the same day sets
    [updated_at] of every row of its frame to the database time of the
    second call. *)
Theorem rerun_refreshes_updated_at (cfg : Config) (day : date) (now1 now2 : timestamp)
    (w : Z) (d : DB) (k : Z * string * Z) :
  k ∈ (daily_metrics cfg {| today := day; current_timestamp := now1 |} w (jobs_raw d)).*1 ->
  updated_at <$>
    (metrics_daily
       (final (compute_metrics_daily cfg {| today := day; current_timestamp := now2 |} w
          (final (compute_metrics_daily cfg {| today := day; current_timestamp := now1 |} w d))))
     !! k)
  = Some (Some now2).
Proof.
  intros Hin. apply elem_of_keys in Hin as (m & Hin).
  rewrite (compute_metrics_daily_table cfg {| today := day; current_timestamp := now2 |}).
  rewrite compute_metrics_daily_raw.
  rewrite (compute_metrics_daily_table cfg {| today := day; current_timestamp := now1 |}).
  cbn [current_timestamp].
  change (daily_metrics cfg {| today := day; current_timestamp := now2 |} w (jobs_raw d))
    with (daily_metrics cfg {| today := day; current_timestamp := now1 |} w (jobs_raw d)).
  pose proof (daily_metrics_NoDup cfg {| today := day; current_timestamp := now1 |} w
                (jobs_raw d)) as Hnd.
  rewrite (upsert_all_row now2 _ _ _ _ Hnd Hin).
  rewrite (upsert_all_row now1 _ _ _ _ Hnd Hin). reflexivity.
Qed.

Lemma compute_metrics_daily_keeps (cfg : Config) (clk : Clock) (w : Z) (d : DB) :
  processing_watermarks (final (compute_metrics_daily cfg clk w d)) = processing_watermarks d
  /\ pipelines_raw (final (compute_metrics_daily cfg clk w d)) = pipelines_raw d
  /\ features_offline (final (compute_metrics_daily cfg clk w d)) = features_offline d
  /\ features_online (final (compute_metrics_daily cfg clk w d)) = features_online d
  /\ kv_config (final (compute_metrics_daily cfg clk w d)) = kv_config d.
Proof. rewrite compute_metrics_daily_result. destruct (no_rows _); cbn; auto. Qed.

Lemma compute_metrics_daily_value (cfg : Config) (clk : Clock) (w : Z) (d : DB) :
  exists n, value (compute_metrics_daily cfg clk w d) = Some n.
Proof. rewrite compute_metrics_daily_result. destruct (no_rows _); cbn; eauto. Qed.

Lemma build_features_value (cfg : Config) (clk : Clock) (w fv : Z) (d : DB) :
  exists n, value (build_features cfg clk w fv d) = Some n.
Proof. rewrite build_features_result. destruct (no_rows _); cbn; eauto. Qed.

(** Steps 2 and 3 of a run end in the database [build_features] leaves. *)
Lemma derive_final (cfg : Config) (clk : Clock) (w : Z) (d : DB) :
  final (derive cfg clk w d)
  = final (build_features cfg clk (feature_window w) (current_feature_version d)
             (final (compute_metrics_daily cfg clk w d))).
Proof.
  unfold derive. destruct (compute_metrics_daily_value cfg clk w d) as [n Hn].
  rewrite (bind_value_Some _ _ _ _ Hn). cbn [final].
  unfold _get_current_feature_version. rewrite bind_read.
  destruct (compute_metrics_daily_keeps cfg clk w d) as (_ & _ & _ & _ & Hkv).
  rewrite Hkv. fold (current_feature_version d). fold (feature_window w).
  destruct (build_features_value cfg clk (feature_window w) (current_feature_version d)
              (final (compute_metrics_daily cfg clk w d))) as [m Hm].
  rewrite (bind_value_Some _ _ _ _ Hm). reflexivity.
Qed.

(** The database a run that returns leaves. *)
Lemma run_returns_final (sch : Schema) (cfg : Config) (clk : Clock) (files : Staged)
    (w : Z) (d : DB) :
  value (run sch cfg clk files w d) = Some tt ->
  final (run sch cfg clk files w d)
  = final (derive cfg clk w
             (final (ingest sch cfg clk files "jobs"
                       (final (ingest sch cfg clk files "pipelines" d))))).
Proof.
  intros Hv. rewrite run_unfold in *.
  apply bind_final_value in Hv as ([] & V1 & Hv & ->).
  apply bind_final_value in Hv as ([] & V2 & Hv & ->). reflexivity.
Qed.

Lemma derive_keeps_raw (cfg : Config) (clk : Clock) (w : Z) (d : DB) :
  pipelines_raw (final (derive cfg clk w d)) = pipelines_raw d
  /\ jobs_raw (final (derive cfg clk w d)) = jobs_raw d.
Proof.
  rewrite derive_final.
  set (dc := final (compute_metrics_daily cfg clk w d)).
  assert (Hb : pipelines_raw (final (build_features cfg clk (feature_window w)
                                       (current_feature_version d) dc)) = pipelines_raw dc
               /\ jobs_raw (final (build_features cfg clk (feature_window w)
                                     (current_feature_version d) dc)) = jobs_raw dc).
  { rewrite build_features_result. destruct (no_rows _); [auto|].
    cbn [final]. split; apply write_features_frame. }
  destruct Hb as [-> ->]. unfold dc.
  destruct (compute_metrics_daily_keeps cfg clk w d) as (_ & -> & _).
  rewrite compute_metrics_daily_raw. auto.
Qed.

(** X17.  A run of the orchestrator, whatever its outcome, leaves every
    stored row of pipelines_raw and jobs_raw as it was. *)
Theorem run_keeps_raw_rows (sch : Schema) (cfg : Config) (clk : Clock) (files : Staged)
    (w : Z) (d : DB) :
  (forall i r, pipelines_raw d !! i = Some r ->
     pipelines_raw (final (run sch cfg clk files w d)) !! i = Some r)
  /\ (forall i r, jobs_raw d !! i = Some r ->
        jobs_raw (final (run sch cfg clk files w d)) !! i = Some r).
Proof.
  destruct (ingest_keeps sch cfg clk files "pipelines" d) as (Hp1 & Hj1 & _).
  destruct (ingest_keeps sch cfg clk files "jobs"
              (final (ingest sch cfg clk files "pipelines" d))) as (Hp2 & Hj2 & _).
  destruct (derive_keeps_raw cfg clk w
              (final (ingest sch cfg clk files "jobs"
                        (final (ingest sch cfg clk files "pipelines" d))))) as [Hp3 Hj3].
  rewrite run_unfold.
  destruct (bind_final_cases (ingest sch cfg clk files "pipelines")
              (fun _ => bind (ingest sch cfg clk files "jobs") (fun _ => derive cfg clk w)) d)
    as [[_ ->] | ([] & _ & ->)]; [auto|].
  destruct (bind_final_cases (ingest sch cfg clk files "jobs") (fun _ => derive cfg clk w)
              (final (ingest sch cfg clk files "pipelines" d)))
    as [[_ ->] | ([] & _ & ->)]; [auto|].
  rewrite Hp3, Hj3. auto.
Qed.

(** After a run that returns, a job of the project that is stored, has a
    name and was created in the window has a row in metrics_daily. *)
Lemma run_covers_job (sch : Schema) (cfg : Config) (clk : Clock) (files : Staged)
    (w : Z) (d : DB) (i : Z) (r : JobRow) (n : string) (ts : timestamp) :
  value (run sch cfg clk files w d) = Some tt ->
  jobs_raw (final (run sch cfg clk files w d)) !! i = Some r ->
  j_project_id r = PROJECT_ID cfg ->
  j_name r = Some n ->
  j_created_at r = Some ts ->
  created_in (window clk w) (Some ts) = true ->
  is_Some (metrics_daily (final (run sch cfg clk files w d)) !! (PROJECT_ID cfg, n, DATE ts)).
Proof.
  intros Hv Hir Hp Hn Hts Hc. rewrite (run_returns_final _ _ _ _ _ _ Hv) in *.
  set (d2 := final (ingest sch cfg clk files "jobs"
                      (final (ingest sch cfg clk files "pipelines" d)))) in *.
  destruct (derive_keeps_raw cfg clk w d2) as [_ Hraw]. rewrite Hraw in Hir.
  rewrite derive_final, build_features_metrics, compute_metrics_daily_table.
  assert (Hin : (PROJECT_ID cfg, n, DATE ts) ∈ (daily_metrics cfg clk w (jobs_raw d2)).*1).
  { apply elem_of_daily_metrics_keys. split; [reflexivity|]. exists i, r, ts. auto 10. }
  apply elem_of_keys in Hin as (m & Hin).
  rewrite (upsert_all_row _ _ _ _ _ (daily_metrics_NoDup cfg clk w (jobs_raw d2)) Hin).
  eauto.
Qed.

(** X18.  After a run that returns, with a window other than 0, every
    stored job of the project that has a name and was created on the days
    today - window .. today has a row in metrics_daily, the jobs the run
    itself appended among them. *)
Theorem run_aggregates_stored_jobs (sch : Schema) (cfg : Config) (clk : Clock)
    (files : Staged) (w : Z) (d : DB) (i : Z) (r : JobRow) (n : string) (ts : timestamp) :
  w <> 0 ->
  value (run sch cfg clk files w d) = Some tt ->
  jobs_raw (final (run sch cfg clk files w d)) !! i = Some r ->
  j_project_id r = PROJECT_ID cfg ->
  j_name r = Some n ->
  j_created_at r = Some ts ->
  today clk - w <= DATE ts <= today clk ->
  is_Some (metrics_daily (final (run sch cfg clk files w d)) !! (PROJECT_ID cfg, n, DATE ts)).
Proof.
  intros Hw Hv Hir Hp Hn Hts Hday. eapply run_covers_job; eauto.
  apply created_in_days; assumption.
Qed.

(** X19.  After a run that returns, every entity with a metrics row in
    the feature window has an online row with the feature version of
    kv_config (1 when the key is missing); the feature window is 30 days,
    or all days when the run reprocesses everything. *)
Theorem run_builds_features_over_30_days (sch : Schema) (cfg : Config) (clk : Clock)
    (files : Staged) (w : Z) (d : DB) (n : string) (day : date) (row : stamped DailyMetric) :
  value (run sch cfg clk files w d) = Some tt ->
  metrics_daily (final (run sch cfg clk files w d)) !! (PROJECT_ID cfg, n, day) = Some row ->
  day_in (window clk (if bool_decide (w = 0) then 0 else 30)) day = true ->
  (on_feature_version ∘ data)
    <$> (features_online (final (run sch cfg clk files w d)) !! entity_key (PROJECT_ID cfg) n)
  = Some (default 1 (kv_config d !! "FEATURE_VERSION_CURRENT")).
Proof.
  intros Hv Hrow Hday. rewrite (run_returns_final _ _ _ _ _ _ Hv) in *.
  set (d1 := final (ingest sch cfg clk files "pipelines" d)) in *.
  set (d2 := final (ingest sch cfg clk files "jobs" d1)) in *.
  rewrite derive_final in *. rewrite build_features_metrics in Hrow.
  fold (feature_window w) in Hday.
  rewrite (build_features_online_row cfg clk (feature_window w) (current_feature_version d2)
             _ n day row Hrow Hday).
  assert (Hkv : current_feature_version d2 = default 1 (kv_config d !! "FEATURE_VERSION_CURRENT")).
  { unfold current_feature_version.
    destruct (ingest_keeps sch cfg clk files "jobs" d1) as (_ & _ & _ & _ & _ & Hk2).
    destruct (ingest_keeps sch cfg clk files "pipelines" d) as (_ & _ & _ & _ & _ & Hk1).
    fold d1 in Hk1. fold d2 in Hk2. rewrite Hk2, Hk1. reflexivity. }
  rewrite Hkv. reflexivity.
Qed.

(** X20.  With [--process-all], or [--reprocess-days] of 10000 or more,
    [main] aggregates the whole history: when it returns 0, every stored
    job of the project with a name created up to the current day has a row
    in metrics_daily. *)
Theorem process_all_aggregates_all_history (sch : Schema) (cfg : Config) (clk : Clock)
    (files : Staged) (process_all : bool) (days : Z) (d : DB)
    (i : Z) (r : JobRow) (n : string) (ts : timestamp) :
  process_all = true \/ 10000 <= days ->
  value (main sch cfg clk files process_all days d) = Some 0 ->
  jobs_raw (final (main sch cfg clk files process_all days d)) !! i = Some r ->
  j_project_id r = PROJECT_ID cfg ->
  j_name r = Some n ->
  j_created_at r = Some ts ->
  DATE ts <= today clk ->
  is_Some (metrics_daily (final (main sch cfg clk files process_all days d))
           !! (PROJECT_ID cfg, n, DATE ts)).
Proof.
  intros Hall Hv Hir Hp Hn Hts Hday. unfold main in *.
  assert (E : cli_reprocess_days process_all days = 0).
  { unfold cli_reprocess_days. destruct Hall as [-> | H]; [reflexivity|].
    rewrite (bool_decide_eq_true_2 _ H). rewrite orb_true_r. reflexivity. }
  rewrite E in *.
  destruct (value (run sch cfg clk files 0 d)) as [[]|] eqn:V.
  2:{ rewrite bind_value_None in Hv by exact V. discriminate. }
  rewrite (bind_value_Some _ _ _ _ V) in Hir |- *. cbn [final ret] in Hir |- *.
  eapply run_covers_job; eauto. apply created_in_all. exact Hday.
Qed.

Lemma Zmax_list_upper (x : Z) (xs : list Z) (y : Z) :
  y ∈ x :: xs -> y <= Zmax_list x xs.
Proof.
  unfold Zmax_list. induction xs as [|z zs IH]; intros Hin.
  - apply list_elem_of_singleton in Hin as ->. cbn. lia.
  - cbn [foldr]. apply elem_of_cons in Hin as [->|Hin].
    + assert (x <= foldr Z.max x zs) by (apply IH; apply list_elem_of_here). lia.
    + apply elem_of_cons in Hin as [->|Hin]; [lia|].
      assert (y <= foldr Z.max x zs) by (apply IH; apply list_elem_of_further; exact Hin).
      lia.
Qed.

Lemma max_ts_upper (col : RawEvent -> cell timestamp) (df : DataFrame) (ts t : timestamp)
    (row : RawEvent) :
  max_ts col df = Some ts -> row ∈ df_rows df -> col row = Val t -> t <= ts.
Proof.
  unfold max_ts. intros Hmax Hrow Hcol.
  assert (Hin : t ∈ omap (fun e => cell_get (col e)) (df_rows df)).
  { apply list_elem_of_omap. exists row. rewrite Hcol. auto. }
  destruct (omap _ _) as [|x xs] eqn:E; [discriminate|]. injection Hmax as <-.
  apply Zmax_list_upper. exact Hin.
Qed.

Lemma has_keys_updated_at (e : RawEvent) :
  cell_present (ev_updated_at e) = true -> has_keys e = true.
Proof. intros H. unfold has_keys. rewrite H, orb_true_r. reflexivity. Qed.

Lemma has_keys_created_at (e : RawEvent) :
  cell_present (ev_created_at e) = true -> has_keys e = true.
Proof. intros H. unfold has_keys. rewrite H, orb_true_r. reflexivity. Qed.

(** A frame with a timestamp column has columns. *)
Lemma in_columns_has_columns (source : string) (data : list RawEvent) :
  in_columns source (frame data) = true -> has_columns (frame data) = true.
Proof.
  unfold in_columns, frame. cbn [has_updated_at has_created_at has_columns].
  intros H. apply existsb_exists.
  destruct (String.eqb source "pipelines");
    apply existsb_exists in H as (c & Hc & Hp); apply in_map_iff in Hc as (e & <- & He);
    exists e; (split; [exact He|]);
    [apply has_keys_updated_at|apply has_keys_created_at]; exact Hp.
Qed.

Lemma filter_new_has_columns (source : string) (w : option timestamp) (df : DataFrame) :
  has_columns (filter_new source w df) = has_columns df.
Proof.
  unfold filter_new. destruct (in_columns source df); [|reflexivity].
  destruct w; reflexivity.
Qed.

Lemma max_ts_in_columns (source : string) (df : list RawEvent) (w : option timestamp)
    (ts : timestamp) :
  max_ts (ts_column source) (filter_new source w (frame df)) = Some ts ->
  in_columns source (frame df) = true.
Proof.
  unfold max_ts. destruct (omap _ _) as [|x xs] eqn:E; [discriminate|]. intros _.
  assert (Hin : x ∈ omap (fun e => cell_get (ts_column source e))
                  (df_rows (filter_new source w (frame df)))).
  { rewrite E. apply list_elem_of_here. }
  apply list_elem_of_omap in Hin as (row & Hrow & Hget).
  apply filter_new_subset in Hrow. cbn [frame df_rows] in Hrow.
  change (map (frame_row df) df) with (frame_row df <$> df) in Hrow.
  apply list_elem_of_fmap in Hrow as (e & -> & _).
  clear E.
  unfold in_columns, ts_column, frame in *. cbn [has_updated_at has_created_at].
  destruct (String.eqb source "pipelines");
    cbn [frame_row ev_updated_at ev_created_at] in Hget; unfold frame_cell in Hget.
  - destruct (existsb cell_present (map ev_updated_at df)); [reflexivity|]. cbn in Hget. discriminate Hget.
  - destruct (existsb cell_present (map ev_created_at df)); [reflexivity|]. cbn in Hget. discriminate Hget.
Qed.

(** A loaded batch with a timestamp is not empty. *)
Lemma max_ts_nonempty (files : Staged) (source : string) (d : DB) (ts : timestamp) :
  max_ts (ts_column source) (loaded files source d) = Some ts ->
  df_empty (loaded files source d) = false.
Proof.
  intros Hmax. unfold df_empty. apply orb_false_iff. split.
  - apply negb_false_iff. unfold loaded in *. rewrite filter_new_has_columns.
    unfold staged_rows in *.
    destruct (String.eqb source "pipelines").
    + destruct (pipelines_json files);
        eapply in_columns_has_columns, max_ts_in_columns; exact Hmax.
    + destruct (String.eqb source "jobs");
        eapply in_columns_has_columns, max_ts_in_columns; exact Hmax.
  - unfold max_ts in Hmax. destruct (df_rows (loaded files source d)); [discriminate|].
    reflexivity.
Qed.

Lemma staged_rows_frame (files : Staged) (source : string) :
  exists data, staged_rows files source = frame data.
Proof.
  unfold staged_rows. destruct (String.eqb source "pipelines").
  - destruct (pipelines_json files); eauto.
  - destruct (String.eqb source "jobs"); eauto.
Qed.

(** A step that returns on a batch with a timestamp sets the watermark to
    the latest timestamp of the batch. *)
Lemma ingest_sets_max (sch : Schema) (cfg : Config) (clk : Clock) (files : Staged)
    (source : string) (d : DB) (ts : timestamp) :
  value (ingest sch cfg clk files source d) = Some tt ->
  max_ts (ts_column source) (loaded files source d) = Some ts ->
  last_ts_of (final (ingest sch cfg clk files source d)) source = Some ts.
Proof.
  intros Hv Hmax. rewrite ingest_unfold in *. cbv zeta in *.
  fold (loaded files source d) in *.
  assert (Hcol : in_columns source (loaded files source d) = true).
  { unfold loaded in *. rewrite filter_new_columns.
    destruct (staged_rows_frame files source) as [data E]. rewrite E in *.
    eapply max_ts_in_columns. exact Hmax. }
  rewrite (max_ts_nonempty _ _ _ _ Hmax) in *.
  destruct (value (append_raw_to_db sch cfg source (loaded files source d) d))
    as [[]|] eqn:Ha.
  2:{ rewrite bind_value_None in Hv by exact Ha. discriminate. }
  rewrite (bind_value_Some _ _ _ _ Ha). cbn [final]. rewrite Hcol, Hmax.
  unfold last_ts_of, update_watermark, commit. cbn [final processing_watermarks set_watermarks].
  rewrite last_ts_upsert. rewrite decide_True by reflexivity. reflexivity.
Qed.

(** With the watermark at the latest timestamp of a loaded batch, the same
    files have nothing new. *)
Lemma nothing_after_max (files : Staged) (source : string) (d d' : DB) (ts : timestamp) :
  max_ts (ts_column source) (loaded files source d) = Some ts ->
  last_ts_of d' source = Some ts ->
  df_rows (loaded files source d') = [].
Proof.
  intros Hmax Hw. apply nil_of_no_elem. intros row Hrow.
  destruct (staged_rows_frame files source) as [data E].
  assert (Hcol : in_columns source (staged_rows files source) = true).
  { rewrite E. unfold loaded in Hmax. rewrite E in Hmax.
    eapply max_ts_in_columns. exact Hmax. }
  unfold loaded in Hrow. rewrite Hw in Hrow. unfold filter_new in Hrow.
  rewrite Hcol in Hrow. cbn [select_rows df_rows] in Hrow.
  apply list_elem_of_filter in Hrow as [Haft Hin]. unfold after in Haft.
  destruct (ts_column source row) as [| | |t] eqn:Ht; try discriminate.
  apply bool_decide_eq_true_1 in Haft.
  assert (Hold : row ∈ df_rows (loaded files source d)).
  { unfold loaded, filter_new. rewrite Hcol.
    destruct (last_ts_of d source) as [w|] eqn:Ew; [|exact Hin].
    cbn [select_rows df_rows]. apply list_elem_of_filter. split; [|exact Hin].
    unfold after. rewrite Ht. apply bool_decide_eq_true_2.
    assert (Hlt : wm_lt (Some w) ts).
    { eapply max_ts_after; [exact Hcol|]. unfold loaded in Hmax. rewrite Ew in Hmax.
      exact Hmax. }
    cbn in Hlt. lia. }
  pose proof (max_ts_upper _ _ _ _ _ Hmax Hold Ht). lia.
Qed.

Lemma derive_keeps_watermarks (cfg : Config) (clk : Clock) (w : Z) (d : DB) :
  processing_watermarks (final (derive cfg clk w d)) = processing_watermarks d.
Proof. apply derive_effect. Qed.

(** X21.  After a run that returns, the watermark of a source whose
    loaded batch had a timestamp is the latest timestamp of that batch, and
    loading the same staged files again gives no record. *)
Theorem rerun_loads_nothing_new (sch : Schema) (cfg : Config) (clk : Clock)
    (files : Staged) (w : Z) (d : DB) (source : string) (ts : timestamp) :
  source = "pipelines" \/ source = "jobs" ->
  value (run sch cfg clk files w d) = Some tt ->
  max_ts (ts_column source) (loaded files source d) = Some ts ->
  last_ts_of (final (run sch cfg clk files w d)) source = Some ts
  /\ df_rows (loaded files source (final (run sch cfg clk files w d))) = [].
Proof.
  intros Hsrc Hv Hmax.
  assert (Hw : last_ts_of (final (run sch cfg clk files w d)) source = Some ts).
  { rewrite (run_returns_final _ _ _ _ _ _ Hv).
    unfold last_ts_of at 1. rewrite derive_keeps_watermarks.
    fold (last_ts_of (final (ingest sch cfg clk files "jobs"
            (final (ingest sch cfg clk files "pipelines" d)))) source).
    rewrite run_unfold in Hv.
    destruct (value (ingest sch cfg clk files "pipelines" d)) as [[]|] eqn:V1.
    2:{ rewrite bind_value_None in Hv by exact V1. discriminate. }
    rewrite (bind_value_Some _ _ _ _ V1) in Hv. cbn [value] in Hv.
    destruct (value (ingest sch cfg clk files "jobs"
                       (final (ingest sch cfg clk files "pipelines" d)))) as [[]|] eqn:V2.
    2:{ rewrite bind_value_None in Hv by exact V2. discriminate. }
    destruct Hsrc as [-> | ->].
    - rewrite ingest_other_source by discriminate.
      apply ingest_sets_max; assumption.
    - apply ingest_sets_max; [exact V2|]. rewrite loaded_after_pipelines. exact Hmax. }
  split; [exact Hw|]. eapply nothing_after_max; eauto.
Qed.

(** The raw table of its source after a step that returns on a batch that
    is not empty. *)
Lemma ingest_table (sch : Schema) (cfg : Config) (clk : Clock) (files : Staged)
    (source : string) (d : DB) :
  value (ingest sch cfg clk files source d) = Some tt ->
  df_empty (loaded files source d) = false ->
  (source = "pipelines" ->
   insert_rows (pipelines_accept sch cfg) (pipeline_row cfg)
     (df_rows (loaded files source d)) (pipelines_raw d)
   = Some (pipelines_raw (final (ingest sch cfg clk files source d))))
  /\ (source = "jobs" ->
      insert_rows (jobs_accept sch cfg) (job_row cfg)
        (df_rows (loaded files source d)) (jobs_raw d)
      = Some (jobs_raw (final (ingest sch cfg clk files source d)))).
Proof.
  intros Hv Hne. rewrite ingest_unfold in *. cbv zeta in *.
  fold (loaded files source d) in *. rewrite Hne in *.
  destruct (value (append_raw_to_db sch cfg source (loaded files source d) d))
    as [[]|] eqn:Ha.
  2:{ rewrite bind_value_None in Hv by exact Ha. discriminate. }
  rewrite (bind_value_Some _ _ _ _ Ha). cbn [final].
  assert (Hst : (source = "pipelines" ->
                 insert_rows (pipelines_accept sch cfg) (pipeline_row cfg)
                   (df_rows (loaded files source d)) (pipelines_raw d)
                 = Some (pipelines_raw
                           (final (append_raw_to_db sch cfg source (loaded files source d) d))))
                /\ (source = "jobs" ->
                    insert_rows (jobs_accept sch cfg) (job_row cfg)
                      (df_rows (loaded files source d)) (jobs_raw d)
                    = Some (jobs_raw
                              (final (append_raw_to_db sch cfg source
                                        (loaded files source d) d))))).
  { unfold append_raw_to_db in *. rewrite Hne in *.
    destruct (String.eqb_spec source "pipelines") as [Ep|Np].
    - unfold transact in *.
      destruct (insert_rows _ _ _ (pipelines_raw d)) as [t|] eqn:E; [|discriminate].
      cbn. split; [reflexivity|]. subst source. discriminate.
    - destruct (String.eqb_spec source "jobs") as [Ej|Nj].
      + unfold transact in *.
        destruct (insert_rows _ _ _ (jobs_raw d)) as [t|] eqn:E; [|discriminate].
        cbn. split; [contradiction|reflexivity].
      + split; contradiction. }
  destruct (in_columns _ _); [|exact Hst].
  destruct (max_ts _ _); exact Hst.
Qed.

(** The rows a step that returns leaves for the records of its batch. *)
Lemma stored_rows {V} (accept : RawEvent -> bool) (mk : RawEvent -> V)
    (df : list RawEvent) (t t' : gmap Z V) (row : RawEvent) :
  insert_rows accept mk df t = Some t' -> row ∈ df ->
  exists i first, ev_id row = Val i /\ first_with_id i df = Some first
    /\ t' !! i = Some (default (mk first) (t !! i)).
Proof.
  intros E Hin.
  destruct (insert_rows_ids accept mk _ _ _ row E Hin) as [i Hi].
  destruct (first_with_id_elem df row i Hin) as [first Hf].
  { rewrite Hi. reflexivity. }
  exists i, first. split; [exact Hi|]. split; [exact Hf|].
  eapply insert_rows_lookup; eauto.
Qed.

(** X22.  After a run that returns, the raw table of a source whose loaded
    batch was empty is as it was; otherwise every record of the loaded
    batch has a row under its id: the row that was stored under the id
    before the run (the record itself is dropped), or else the row of the
    first record of the batch with that id. *)
Theorem run_stores_loaded_records (sch : Schema) (cfg : Config) (clk : Clock)
    (files : Staged) (w : Z) (d : DB) :
  value (run sch cfg clk files w d) = Some tt ->
  (if df_empty (loaded files "pipelines" d) then
     pipelines_raw (final (run sch cfg clk files w d)) = pipelines_raw d
   else
     forall row, row ∈ df_rows (loaded files "pipelines" d) ->
       exists i first, ev_id row = Val i
         /\ first_with_id i (df_rows (loaded files "pipelines" d)) = Some first
         /\ pipelines_raw (final (run sch cfg clk files w d)) !! i
            = Some (default (pipeline_row cfg first) (pipelines_raw d !! i)))
  /\ (if df_empty (loaded files "jobs" d) then
        jobs_raw (final (run sch cfg clk files w d)) = jobs_raw d
      else
        forall row, row ∈ df_rows (loaded files "jobs" d) ->
          exists i first, ev_id row = Val i
            /\ first_with_id i (df_rows (loaded files "jobs" d)) = Some first
            /\ jobs_raw (final (run sch cfg clk files w d)) !! i
               = Some (default (job_row cfg first) (jobs_raw d !! i))).
Proof.
  intros Hv. rewrite (run_returns_final _ _ _ _ _ _ Hv).
  rewrite run_unfold in Hv.
  destruct (value (ingest sch cfg clk files "pipelines" d)) as [[]|] eqn:V1.
  2:{ rewrite bind_value_None in Hv by exact V1. discriminate. }
  rewrite (bind_value_Some _ _ _ _ V1) in Hv. cbn [value] in Hv.
  set (d1 := final (ingest sch cfg clk files "pipelines" d)) in *.
  destruct (value (ingest sch cfg clk files "jobs" d1)) as [[]|] eqn:V2.
  2:{ rewrite bind_value_None in Hv by exact V2. discriminate. }
  set (d2 := final (ingest sch cfg clk files "jobs" d1)) in *.
  destruct (derive_keeps_raw cfg clk w d2) as [-> ->].
  assert (Hp2 : pipelines_raw d2 = pipelines_raw d1)
    by apply ingest_jobs_pipelines_raw.
  rewrite Hp2.
  pose proof (ingest_pipelines_jobs_raw sch cfg clk files d) as Hj1. fold d1 in Hj1.
  pose proof (loaded_after_pipelines sch cfg clk files d) as Hl. fold d1 in Hl.
  split.
  - destruct (df_empty (loaded files "pipelines" d)) eqn:Hne.
    + unfold d1. unfold loaded in Hne. rewrite ingest_empty_batch by exact Hne. reflexivity.
    + intros row Hrow.
      destruct (ingest_table sch cfg clk files "pipelines" d V1 Hne) as [E _].
      exact (stored_rows _ _ _ _ _ row (E eq_refl) Hrow).
  - rewrite <- Hl. destruct (df_empty (loaded files "jobs" d1)) eqn:Hne.
    + unfold d2. unfold loaded in Hne. rewrite ingest_empty_batch by exact Hne. exact Hj1.
    + intros row Hrow. rewrite <- Hj1.
      destruct (ingest_table sch cfg clk files "jobs" d1 V2 Hne) as [_ E].
      exact (stored_rows _ _ _ _ _ row (E eq_refl) Hrow).
Qed.

(** ** The further properties on sample data *)

Lemma gmap_forallb {V} (f : V -> bool) (t : gmap Z V) :
  forallb f (map snd (map_to_list t)) = true ->
  forall i r, t !! i = Some r -> f r = true.
Proof.
  intros Hall i r Hir. rewrite forallb_forall in Hall. apply Hall.
  apply list_elem_of_In. apply list_elem_of_fmap. exists (i, r).
  split; [reflexivity|]. apply elem_of_map_to_list. exact Hir.
Qed.

Lemma one_metric_consistent : counts_consistent (metrics_daily one_metric).
Proof.
  intros k row Hk. cbn in Hk. apply lookup_singleton_Some in Hk as [_ <-].
  cbn. lia.
Qed.

Lemma six_days_with_metric_consistent :
  counts_consistent (metrics_daily six_days_with_metric).
Proof.
  intros k row Hk. unfold six_days_with_metric in Hk.
  cbn [metrics_daily set_metrics_daily] in Hk.
  apply lookup_singleton_Some in Hk as [_ <-]. cbn. lia.
Qed.

(** X1 on one day of metrics, built on 2025-01-02 with version 1 and on 2025-01-03 with version 2. *)
Lemma online_row_replaced_witness :
  features_online
    (final (build_features project_7 (clock_on 20091) 30 2
              (final (build_features project_7 (clock_on 20090) 30 1 one_metric))))
    !! entity_key (PROJECT_ID project_7) "test"
  = Some (Stamped {| on_feature_version := 2;
                     on_payload := payload_of (entity_group project_7
                                                 (window (clock_on 20091) 30)
                                                 (metrics_daily one_metric) "test") |}
                  (Some (current_timestamp (clock_on 20091)))).
Proof.
  apply (online_row_replaced project_7 (clock_on 20090) (clock_on 20091) 30 30 1 2
           one_metric "test" day_2025_01_01 day_2025_01_01 metric_10_2 metric_10_2);
    vm_compute; reflexivity.
Defined.

(** X2 on the same two runs. *)
Lemma offline_versions_coexist_witness :
  features_offline
    (final (build_features project_7 (clock_on 20091) 30 2
              (final (build_features project_7 (clock_on 20090) 30 1 one_metric))))
    !! (entity_key (PROJECT_ID project_7) "test", 1)
  = Some {| off_payload := payload_of (entity_group project_7 (window (clock_on 20090) 30)
                                         (metrics_daily one_metric) "test");
            off_event_time := midnight (today (clock_on 20090)) |}.
Proof.
  apply (offline_versions_coexist project_7 (clock_on 20090) (clock_on 20091) 30 30 1 2
           one_metric "test" day_2025_01_01 metric_10_2).
  - discriminate.
  - vm_compute. reflexivity.
  - vm_compute. reflexivity.
Defined.

(** X4 with the jobs watermark at midnight of 2025-01-01. *)
Lemma load_new_raw_strictly_after_witness :
  exists df,
    value (load_new_raw staged_two_days "jobs" None (watermark_db "jobs" (midnight 20089)))
    = Some df
    /\ forall row,
         row ∈ df_rows df
         <-> row ∈ df_rows (staged_rows staged_two_days "jobs")
             /\ exists t, ts_column "jobs" row = Val t /\ midnight 20089 < t.
Proof.
  apply (load_new_raw_strictly_after staged_two_days "jobs" (midnight 20089)
           (watermark_db "jobs" (midnight 20089))).
  - vm_compute. reflexivity.
  - vm_compute. reflexivity.
Defined.

(** X5 on a jobs file whose record has no [created_at]. *)
Lemma no_timestamp_no_watermark_witness :
  processing_watermarks
    (final (ingest permissive project_7 (clock_on 20090) staged_undated "jobs" empty_db))
  = processing_watermarks empty_db
  /\ forall ts,
       WatermarkSet "jobs" ts
       ∉ events (ingest permissive project_7 (clock_on 20090) staged_undated "jobs" empty_db).
Proof.
  apply (no_timestamp_no_watermark permissive project_7 (clock_on 20090) staged_undated
           "jobs" empty_db).
  intros row Hrow. vm_compute in Hrow. apply list_elem_of_singleton in Hrow as ->.
  reflexivity.
Defined.

(** X6 on a pipelines file with a record without keys next to a
    well-formed one: its id is NaN in the frame. *)
Lemma run_stops_at_rejected_pipeline_witness :
  run permissive project_7 (clock_on 20090) staged_bad_pipeline 3 empty_db
  = MkResult None empty_db [].
Proof.
  apply (run_stops_at_rejected_pipeline permissive project_7 (clock_on 20090)
           staged_bad_pipeline 3 empty_db).
  - vm_compute. reflexivity.
  - vm_compute. reflexivity.
Defined.

(** X7 on a jobs file with a record without id. *)
Lemma run_stops_at_rejected_job_witness :
  run permissive project_7 (clock_on 20090) staged_bad_job 3 empty_db
  = MkResult None
      (final (ingest permissive project_7 (clock_on 20090) staged_bad_job "pipelines" empty_db))
      (events (ingest permissive project_7 (clock_on 20090) staged_bad_job "pipelines" empty_db))
  /\ jobs_raw (final (run permissive project_7 (clock_on 20090) staged_bad_job 3 empty_db))
     = jobs_raw empty_db
  /\ metrics_daily (final (run permissive project_7 (clock_on 20090) staged_bad_job 3 empty_db))
     = metrics_daily empty_db
  /\ features_offline (final (run permissive project_7 (clock_on 20090) staged_bad_job 3 empty_db))
     = features_offline empty_db
  /\ features_online (final (run permissive project_7 (clock_on 20090) staged_bad_job 3 empty_db))
     = features_online empty_db.
Proof.
  apply (run_stops_at_rejected_job permissive project_7 (clock_on 20090) staged_bad_job 3
           empty_db).
  - vm_compute. reflexivity.
  - vm_compute. reflexivity.
  - vm_compute. reflexivity.
Defined.

(** X8 on the six days of January, long after them. *)
Lemma empty_window_returns_zero_witness :
  compute_metrics_daily project_7 (clock_on 20200) 3 six_days
  = MkResult (Some 0%nat) six_days [].
Proof.
  apply (empty_window_returns_zero project_7 (clock_on 20200) 3 six_days).
  intros i r Hir _. apply negb_true_iff.
  apply (gmap_forallb (fun r => negb (created_in (window (clock_on 20200) 3) (j_created_at r)))
           (jobs_raw six_days)) with (i := i); [|exact Hir].
  vm_compute. reflexivity.
Defined.

(** X9 with a window of -1 days on 2025-01-06, on the six days of raw jobs
    with the metrics rows of a first aggregation. *)
Lemma negative_window_selects_nothing_witness :
  compute_metrics_daily project_7 (clock_on 20094) (-1) (rerun 1000 six_days)
  = MkResult (Some 0%nat) (rerun 1000 six_days) []
  /\ build_features project_7 (clock_on 20094) (-1) 1 (rerun 1000 six_days)
     = MkResult (Some 0%nat) (rerun 1000 six_days) [].
Proof.
  apply (negative_window_selects_nothing project_7 (clock_on 20094) (-1) 1
           (rerun 1000 six_days)).
  - reflexivity.
  - unfold window_defined, date_min, date_max. cbn. lia.
Defined.

(** X10 on the six days of raw jobs and one consistent metrics row: the
    call on 2025-01-06 writes the rows of four days. *)
Lemma counts_stay_consistent_witness :
  counts_consistent
    (metrics_daily (final (compute_metrics_daily project_7 (clock_on 20094) 3
                             six_days_with_metric))).
Proof.
  apply (counts_stay_consistent project_7 (clock_on 20094) 3 six_days_with_metric).
  exact six_days_with_metric_consistent.
Defined.

(** X11 on one day of metrics. *)
Lemma fail_rate_below_one_witness :
  exists p,
    on_payload <$> (data <$> (features_online
                                (final (build_features project_7 (clock_on 20090) 30 1 one_metric))
                              !! entity_key (PROJECT_ID project_7) "test")) = Some p
    /\ (0 <= fail_rate p)%Q /\ (fail_rate p < 1)%Q.
Proof.
  apply (fail_rate_below_one project_7 (clock_on 20090) 30 1 one_metric "test"
           day_2025_01_01 metric_10_2).
  - exact one_metric_consistent.
  - vm_compute. reflexivity.
  - vm_compute. reflexivity.
Defined.


(** X13 for a job created at midnight of 2025-01-07, seen on 2025-01-06
    next to the six days of raw jobs. *)
Lemma full_window_takes_next_midnight_witness :
  (exists g,
     data <$> (metrics_daily
                 (final (compute_metrics_daily project_7 (clock_on 20094) 0
                           six_days_and_midnight))
               !! (PROJECT_ID project_7, "test"%string, today (clock_on 20094) + 1))
     = Some (aggregate g)
     /\ midnight_sample ∈ g
     /\ forall s', s' ∈ g -> s_created_at s' = midnight (today (clock_on 20094) + 1))
  /\ forall w, w <> 0 ->
       metrics_daily (final (compute_metrics_daily project_7 (clock_on 20094) w
                               six_days_and_midnight))
         !! (PROJECT_ID project_7, "test"%string, today (clock_on 20094) + 1)
       = metrics_daily six_days_and_midnight
           !! (PROJECT_ID project_7, "test"%string, today (clock_on 20094) + 1).
Proof.
  apply (full_window_takes_next_midnight project_7 (clock_on 20094) six_days_and_midnight 9
           (job_row project_7 (job_event 9 "test" "success" 5 20095)) "test"
           midnight_sample).
  - vm_compute. reflexivity.
  - reflexivity.
  - reflexivity.
  - reflexivity.
  - reflexivity.
Defined.

(** X14 on the six days of raw jobs: the call on 2025-01-06 with a window of
    3 days writes the rows of 2025-01-03 .. 2025-01-06 and leaves the row
    of "test" on 2025-01-01, a day with a stored job. *)
Lemma days_outside_window_untouched_witness :
  metrics_daily (final (compute_metrics_daily project_7 (clock_on 20094) 3
                          six_days_with_metric))
    !! (7, "test"%string, day_2025_01_01)
  = metrics_daily six_days_with_metric !! (7, "test"%string, day_2025_01_01).
Proof.
  apply (days_outside_window_untouched project_7 (clock_on 20094) 3 six_days_with_metric
           7 "test" day_2025_01_01).
  - discriminate.
  - left. reflexivity.
Defined.

(** X15 for a row that the call writes again: "test" on 2025-01-06, after
    a first aggregation of the six days. *)
Lemma metrics_rows_never_deleted_witness :
  is_Some (metrics_daily (final (compute_metrics_daily project_7 (clock_on 20094) 3
                                   (rerun 1000 six_days)))
           !! (7, "test"%string, 20094)).
Proof.
  apply (metrics_rows_never_deleted project_7 (clock_on 20094) 3 (rerun 1000 six_days)).
  vm_compute. eexists. reflexivity.
Defined.

(** X16 on the six days of January, at the database times 1000 and 2000. *)
Lemma rerun_refreshes_updated_at_witness :
  updated_at <$>
    (metrics_daily
       (final (compute_metrics_daily project_7 {| today := 20094; current_timestamp := 2000 |} 3
          (final (compute_metrics_daily project_7
                    {| today := 20094; current_timestamp := 1000 |} 3 six_days))))
     !! (7, "test"%string, 20094))
  = Some (Some 2000).
Proof.
  apply (rerun_refreshes_updated_at project_7 20094 1000 2000 3 six_days).
  apply list_elem_of_In. vm_compute. auto 10.
Defined.

(** X18 for a first run over two staged days. *)
Lemma run_aggregates_stored_jobs_witness :
  is_Some (metrics_daily
             (final (run permissive project_7 (clock_on 20090) staged_two_days 3 empty_db))
           !! (PROJECT_ID project_7, "test"%string, DATE (midnight day_2025_01_01))).
Proof.
  apply (run_aggregates_stored_jobs permissive project_7 (clock_on 20090) staged_two_days 3
           empty_db 1 (job_row project_7 job_test_failed) "test" (midnight day_2025_01_01)).
  - discriminate.
  - vm_compute. reflexivity.
  - vm_compute. reflexivity.
  - reflexivity.
  - reflexivity.
  - reflexivity.
  - vm_compute. split; discriminate.
Defined.

(** X19 sixteen days after the only day of metrics, with nothing staged and a metrics window of 3 days. *)
Lemma run_builds_features_over_30_days_witness :
  (on_feature_version ∘ data)
    <$> (features_online (final (run permissive project_7 (clock_on 20105) no_staged 3 one_metric))
         !! entity_key (PROJECT_ID project_7) "test")
  = Some (default 1 (kv_config one_metric !! "FEATURE_VERSION_CURRENT")).
Proof.
  apply (run_builds_features_over_30_days permissive project_7 (clock_on 20105) no_staged 3
           one_metric "test" day_2025_01_01 metric_10_2).
  - vm_compute. reflexivity.
  - vm_compute. reflexivity.
  - vm_compute. reflexivity.
Defined.

(** X20 with [--process-all], long after the staged days. *)
Lemma process_all_aggregates_all_history_witness :
  is_Some (metrics_daily
             (final (main permissive project_7 (clock_on 20200) staged_two_days true 3 empty_db))
           !! (PROJECT_ID project_7, "test"%string, DATE (midnight day_2025_01_01))).
Proof.
  apply (process_all_aggregates_all_history permissive project_7 (clock_on 20200)
           staged_two_days true 3 empty_db 1 (job_row project_7 job_test_failed) "test"
           (midnight day_2025_01_01)).
  - left. reflexivity.
  - vm_compute. reflexivity.
  - vm_compute. reflexivity.
  - reflexivity.
  - reflexivity.
  - reflexivity.
  - vm_compute. discriminate.
Defined.

(** X21 for the jobs of a first run over two staged days. *)
Lemma rerun_loads_nothing_new_witness :
  last_ts_of (final (run permissive project_7 (clock_on 20090) staged_two_days 3 empty_db)) "jobs"
  = Some (midnight 20090)
  /\ df_rows (loaded staged_two_days "jobs"
                (final (run permissive project_7 (clock_on 20090) staged_two_days 3 empty_db)))
     = [].
Proof.
  apply (rerun_loads_nothing_new permissive project_7 (clock_on 20090) staged_two_days 3
           empty_db "jobs" (midnight 20090)).
  - right. reflexivity.
  - vm_compute. reflexivity.
  - vm_compute. reflexivity.
Defined.

(** X22 for a run on the six days of raw jobs that loads a second record
    with id 1 and a new job 7: the stored row of id 1 stays and the second
    record is dropped, and the new job is stored. *)
Lemma run_stores_loaded_records_witness :
  jobs_raw (final (run permissive project_7 (clock_on 20094) staged_reload 3 six_days)) !! 1
  = jobs_raw six_days !! 1
  /\ jobs_raw (final (run permissive project_7 (clock_on 20094) staged_reload 3 six_days)) !! 7
     = Some (job_row project_7 (job_event 7 "lint" "success" 12 20094)).
Proof.
  destruct (run_stores_loaded_records permissive project_7 (clock_on 20094) staged_reload 3
              six_days) as [_ Hj]; [vm_compute; reflexivity|].
  change (df_empty (loaded staged_reload "jobs" six_days)) with false in Hj.
  cbv iota in Hj. split.
  - destruct (Hj another_job_1) as (i & first & Hi & _ & Hl).
    { apply list_elem_of_In. vm_compute. auto. }
    injection Hi as <-. rewrite Hl. vm_compute. reflexivity.
  - destruct (Hj (job_event 7 "lint" "success" 12 20094)) as (i & first & Hi & Hf & Hl).
    { apply list_elem_of_In. vm_compute. auto. }
    injection Hi as <-. vm_compute in Hf. injection Hf as <-.
    rewrite Hl. vm_compute. reflexivity.
Defined.
